(** * RTC emulator (rtcemul.c, emul.c): shallow embedding and verified properties

    The development follows rp/src/rtcemul.c of the SidecarTridge
    multi-device RTC emulator: the datetime codec ([to_bcd], [add_bcd],
    [set_ikb_datetime_msg]), the Dallas magic sequence, the NTP receive
    path and acquisition loop, the interrupt-side command staging and the
    main-loop command engine ([rtc_loop]); and, of rp/src/emul.c, the
    host-name check of the setup terminal and the application loop of
    [emul_start] with its command handlers.

    C integers are [Z] with the conversions to the fixed-width types
    written out; the shared region is byte-addressed memory; the file-level
    statics of rtcemul.c are the fields of one state record that every
    function takes and returns.  [DPRINTF] calls write to the debug
    console only and are left out of the state. *)

From Stdlib Require Import ZArith Lia List String Ascii Bool Btauto.
From stdpp Require Import gmap list.
Import ListNotations.
Local Open Scope Z_scope.

(** * Part I: the program *)

(** ** Fixed-width integer conversions *)

Definition u8 (x : Z) : Z := x mod 256.
Definition u16 (x : Z) : Z := x mod 65536.
Definition u32 (x : Z) : Z := x mod 4294967296.

(** Conversion to a signed type of [w] bits (two's complement). *)
Definition sint (w : Z) (x : Z) : Z :=
  let m := x mod 2 ^ w in
  if m <? 2 ^ (w - 1) then m else m - 2 ^ w.
Definition s8 (x : Z) : Z := sint 8 x.
Definition s16 (x : Z) : Z := sint 16 x.

(** ** Datetime codec: BCD helpers *)

(** [static uint8_t to_bcd(uint8_t val)] *)
Definition to_bcd (val : Z) : Z :=
  u8 (Z.lor (Z.shiftl (val / 10) 4) (val mod 10)).

(** [static uint8_t add_bcd(uint8_t bcd1, uint8_t bcd2)]: both locals are
    [uint8_t], so every assignment truncates to 8 bits. *)
Definition add_bcd (bcd1 bcd2 : Z) : Z :=
  let low_nibble := u8 (Z.land bcd1 0x0F + Z.land bcd2 0x0F) in
  let high_nibble := u8 (Z.land bcd1 0xF0 + Z.land bcd2 0xF0) in
  let low_nibble := if 9 <? low_nibble then u8 (low_nibble + 6) else low_nibble in
  let high_nibble := u8 (high_nibble + Z.land low_nibble 0xF0) in
  let low_nibble := Z.land low_nibble 0x0F in
  let high_nibble :=
    if 0x90 <? Z.land high_nibble 0x1F0 then u8 (high_nibble + 0x60)
    else high_nibble in
  u8 (Z.lor (Z.land high_nibble 0xF0) (Z.land low_nibble 0x0F)).

(** A byte is valid BCD when both nibbles are decimal digits. *)
Definition valid_bcd (b : Z) : bool :=
  (0 <=? b) && (b <? 256) && (Z.land b 0x0F <=? 9) && (Z.shiftr b 4 <=? 9).

(** Decimal value of a BCD byte. *)
Definition bcd_value (b : Z) : Z := 10 * Z.shiftr b 4 + Z.land b 0x0F.

(** What BCD addition has to give: the decimal sum modulo 100, re-encoded. *)
Definition bcd_sum_spec (a b : Z) : Z :=
  to_bcd ((bcd_value a + bcd_value b) mod 100).

(** The tens digits, with the carry out of the units, still fit in the
    four high bits of a byte: the [uint8_t] truncation loses nothing. *)
Definition tens_fit (a b : Z) : bool :=
  Z.shiftr a 4 + Z.shiftr b 4 + (Z.land a 0x0F + Z.land b 0x0F) / 10 <=? 15.

(** The 100 valid BCD bytes. *)
Definition bcd_bytes : list Z :=
  List.map (fun n => to_bcd (Z.of_nat n)) (seq 0 100).

(** ** Data *)

(** [datetime_t] of the Pico SDK ([int16_t year], the rest [int8_t]). *)
Record datetime_t := mk_datetime
  { year : Z; month : Z; day : Z; dotw : Z; hour : Z; min : Z; sec : Z }.

(** The fields of [struct tm] that the code reads. *)
Record tm := mk_tm
  { tm_sec : Z; tm_min : Z; tm_hour : Z; tm_mday : Z; tm_mon : Z;
    tm_year : Z; tm_wday : Z }.

(** [TransmissionProtocol]: the 8-byte header and the payload array. *)
Record TransmissionProtocol := mk_protocol
  { command_id : Z; payload_size : Z; bytes_read : Z; final_checksum : Z;
    payload : list Z }.

Inductive RTC_TYPE :=
  RTC_SIDECART | RTC_DALLAS | RTC_AREAL | RTC_FMCII | RTC_UNKNOWN.

(** [NTP_TIME]; [ntp_pcb] records whether the control block is non-NULL. *)
Record NTP_TIME := mk_ntp_time
  { ntp_ipaddr : Z; ntp_pcb : bool; ntp_server_found : bool; ntp_error : bool }.

Record DallasClock := mk_dallas
  { last_magic_found : Z; retries : Z; magic_sequence_hex : Z;
    clock_sequence : list Z; read_address_bit : Z;
    write_address_bit_zero : Z; write_address_bit_one : Z;
    magic_sequence : list Z; size_magic_sequence : Z;
    size_clock_sequence : Z; rom_address : Z }.

(** What the headers and libraries outside rtcemul.c provide. *)
Class Platform := mk_platform
  { (** tprotocol.h: capacity of the payload array *)
    MAX_PROTOCOL_PAYLOAD_SIZE : Z;
    (** tprotocol.h: the checksum a frame must carry, a function of its
        header and payload *)
    protocol_checksum : TransmissionProtocol -> Z;
    (** tprotocol.h: how four payload bytes make the random token, and how
        they make a 32-bit parameter *)
    token_of_bytes : list Z -> Z;
    param32_of_bytes : list Z -> Z;
    (** linker script and constants.h *)
    rom_in_ram_start : Z;
    FLASH_ROM4_LOAD_OFFSET : Z;
    (** libc [rand()]: the n-th value the generator returns (the program
        never seeds it) *)
    rand_value : nat -> Z;
    (** libc [gmtime]: [None] for a NULL result *)
    gmtime : Z -> option tm;
    (** Pico SDK: the check [rtc_set_datetime] applies to its argument *)
    valid_datetime : datetime_t -> bool }.

(** The statics of rtcemul.c, followed by what they act on: RAM, the
    generator behind [rand()], the hardware RTC ([None] while it is not
    running) and the datagrams handed to [udp_sendto]. *)
Record rtc_state := mk_state
  { lastProtocol : TransmissionProtocol;
    lastProtocolValid : bool;
    memorySharedAddress : Z;
    memoryRandomTokenAddress : Z;
    memoryRandomTokenSeedAddress : Z;
    rtcTypeVar : RTC_TYPE;
    dallasClock : DallasClock;
    rtcTime : datetime_t;
    netTime : NTP_TIME;
    utcOffsetSeconds : Z;
    ntpServerHost : string;
    ntpServerPort : Z;
    y2kPatchEnabled : bool;
    memory : gmap Z Z;
    rand_calls : nat;
    hw_rtc : option datetime_t;
    udp_out : list (Z * Z * list Z) }.

Definition set_lastProtocol (v : TransmissionProtocol) (s : rtc_state) : rtc_state :=
  mk_state v (lastProtocolValid s) (memorySharedAddress s)
    (memoryRandomTokenAddress s) (memoryRandomTokenSeedAddress s) (rtcTypeVar s)
    (dallasClock s) (rtcTime s) (netTime s) (utcOffsetSeconds s) (ntpServerHost s)
    (ntpServerPort s) (y2kPatchEnabled s) (memory s) (rand_calls s) (hw_rtc s)
    (udp_out s).

Definition set_lastProtocolValid (v : bool) (s : rtc_state) : rtc_state :=
  mk_state (lastProtocol s) v (memorySharedAddress s)
    (memoryRandomTokenAddress s) (memoryRandomTokenSeedAddress s) (rtcTypeVar s)
    (dallasClock s) (rtcTime s) (netTime s) (utcOffsetSeconds s) (ntpServerHost s)
    (ntpServerPort s) (y2kPatchEnabled s) (memory s) (rand_calls s) (hw_rtc s)
    (udp_out s).

Definition set_addresses (base tok seed : Z) (s : rtc_state) : rtc_state :=
  mk_state (lastProtocol s) (lastProtocolValid s) base tok seed (rtcTypeVar s)
    (dallasClock s) (rtcTime s) (netTime s) (utcOffsetSeconds s) (ntpServerHost s)
    (ntpServerPort s) (y2kPatchEnabled s) (memory s) (rand_calls s) (hw_rtc s)
    (udp_out s).

Definition set_rtcTypeVar (v : RTC_TYPE) (s : rtc_state) : rtc_state :=
  mk_state (lastProtocol s) (lastProtocolValid s) (memorySharedAddress s)
    (memoryRandomTokenAddress s) (memoryRandomTokenSeedAddress s) v
    (dallasClock s) (rtcTime s) (netTime s) (utcOffsetSeconds s) (ntpServerHost s)
    (ntpServerPort s) (y2kPatchEnabled s) (memory s) (rand_calls s) (hw_rtc s)
    (udp_out s).

Definition set_dallasClock (v : DallasClock) (s : rtc_state) : rtc_state :=
  mk_state (lastProtocol s) (lastProtocolValid s) (memorySharedAddress s)
    (memoryRandomTokenAddress s) (memoryRandomTokenSeedAddress s) (rtcTypeVar s)
    v (rtcTime s) (netTime s) (utcOffsetSeconds s) (ntpServerHost s)
    (ntpServerPort s) (y2kPatchEnabled s) (memory s) (rand_calls s) (hw_rtc s)
    (udp_out s).

Definition set_rtcTime (v : datetime_t) (s : rtc_state) : rtc_state :=
  mk_state (lastProtocol s) (lastProtocolValid s) (memorySharedAddress s)
    (memoryRandomTokenAddress s) (memoryRandomTokenSeedAddress s) (rtcTypeVar s)
    (dallasClock s) v (netTime s) (utcOffsetSeconds s) (ntpServerHost s)
    (ntpServerPort s) (y2kPatchEnabled s) (memory s) (rand_calls s) (hw_rtc s)
    (udp_out s).

Definition set_netTime (v : NTP_TIME) (s : rtc_state) : rtc_state :=
  mk_state (lastProtocol s) (lastProtocolValid s) (memorySharedAddress s)
    (memoryRandomTokenAddress s) (memoryRandomTokenSeedAddress s) (rtcTypeVar s)
    (dallasClock s) (rtcTime s) v (utcOffsetSeconds s) (ntpServerHost s)
    (ntpServerPort s) (y2kPatchEnabled s) (memory s) (rand_calls s) (hw_rtc s)
    (udp_out s).

Definition set_utcOffsetSeconds (v : Z) (s : rtc_state) : rtc_state :=
  mk_state (lastProtocol s) (lastProtocolValid s) (memorySharedAddress s)
    (memoryRandomTokenAddress s) (memoryRandomTokenSeedAddress s) (rtcTypeVar s)
    (dallasClock s) (rtcTime s) (netTime s) v (ntpServerHost s)
    (ntpServerPort s) (y2kPatchEnabled s) (memory s) (rand_calls s) (hw_rtc s)
    (udp_out s).

Definition set_ntpServer (host : string) (port : Z) (s : rtc_state) : rtc_state :=
  mk_state (lastProtocol s) (lastProtocolValid s) (memorySharedAddress s)
    (memoryRandomTokenAddress s) (memoryRandomTokenSeedAddress s) (rtcTypeVar s)
    (dallasClock s) (rtcTime s) (netTime s) (utcOffsetSeconds s) host
    port (y2kPatchEnabled s) (memory s) (rand_calls s) (hw_rtc s)
    (udp_out s).

Definition set_y2kPatchEnabled (v : bool) (s : rtc_state) : rtc_state :=
  mk_state (lastProtocol s) (lastProtocolValid s) (memorySharedAddress s)
    (memoryRandomTokenAddress s) (memoryRandomTokenSeedAddress s) (rtcTypeVar s)
    (dallasClock s) (rtcTime s) (netTime s) (utcOffsetSeconds s) (ntpServerHost s)
    (ntpServerPort s) v (memory s) (rand_calls s) (hw_rtc s)
    (udp_out s).

Definition set_memory (v : gmap Z Z) (s : rtc_state) : rtc_state :=
  mk_state (lastProtocol s) (lastProtocolValid s) (memorySharedAddress s)
    (memoryRandomTokenAddress s) (memoryRandomTokenSeedAddress s) (rtcTypeVar s)
    (dallasClock s) (rtcTime s) (netTime s) (utcOffsetSeconds s) (ntpServerHost s)
    (ntpServerPort s) (y2kPatchEnabled s) v (rand_calls s) (hw_rtc s)
    (udp_out s).

Definition set_rand_calls (v : nat) (s : rtc_state) : rtc_state :=
  mk_state (lastProtocol s) (lastProtocolValid s) (memorySharedAddress s)
    (memoryRandomTokenAddress s) (memoryRandomTokenSeedAddress s) (rtcTypeVar s)
    (dallasClock s) (rtcTime s) (netTime s) (utcOffsetSeconds s) (ntpServerHost s)
    (ntpServerPort s) (y2kPatchEnabled s) (memory s) v (hw_rtc s)
    (udp_out s).

Definition set_hw_rtc (v : option datetime_t) (s : rtc_state) : rtc_state :=
  mk_state (lastProtocol s) (lastProtocolValid s) (memorySharedAddress s)
    (memoryRandomTokenAddress s) (memoryRandomTokenSeedAddress s) (rtcTypeVar s)
    (dallasClock s) (rtcTime s) (netTime s) (utcOffsetSeconds s) (ntpServerHost s)
    (ntpServerPort s) (y2kPatchEnabled s) (memory s) (rand_calls s) v
    (udp_out s).

Definition set_udp_out (v : list (Z * Z * list Z)) (s : rtc_state) : rtc_state :=
  mk_state (lastProtocol s) (lastProtocolValid s) (memorySharedAddress s)
    (memoryRandomTokenAddress s) (memoryRandomTokenSeedAddress s) (rtcTypeVar s)
    (dallasClock s) (rtcTime s) (netTime s) (utcOffsetSeconds s) (ntpServerHost s)
    (ntpServerPort s) (y2kPatchEnabled s) (memory s) (rand_calls s) (hw_rtc s)
    v.

(** ** Constants of rtc.h *)

Definition SHARED_VARIABLE_HARDWARE_TYPE : Z := 0.
Definition SHARED_VARIABLE_SVERSION : Z := 1.
Definition SHARED_VARIABLE_BUFFER_TYPE : Z := 2.

Definition RTCEMUL_RANDOM_TOKEN_OFFSET : Z := 0xF000.
Definition RTCEMUL_RANDOM_TOKEN_SEED_OFFSET : Z := RTCEMUL_RANDOM_TOKEN_OFFSET + 4.
Definition RTCEMUL_NTP_SUCCESS : Z := RTCEMUL_RANDOM_TOKEN_SEED_OFFSET + 4.
Definition RTCEMUL_DATETIME_BCD : Z := RTCEMUL_NTP_SUCCESS + 4.
Definition RTCEMUL_DATETIME_MSDOS : Z := RTCEMUL_DATETIME_BCD + 8.
Definition RTCEMUL_OLD_XBIOS_TRAP : Z := RTCEMUL_DATETIME_MSDOS + 8.
Definition RTCEMUL_REENTRY_TRAP : Z := RTCEMUL_OLD_XBIOS_TRAP + 4.
Definition RTCEMUL_Y2K_PATCH : Z := RTCEMUL_REENTRY_TRAP + 4.
Definition RTCEMUL_SHARED_VARIABLES : Z := RTCEMUL_Y2K_PATCH + 8.

Definition NTP_DEFAULT_HOST : string := "pool.ntp.org".
Definition NTP_DEFAULT_PORT : Z := 123.
Definition NTP_DELTA : Z := 2208988800.
Definition NTP_MSG_LEN : Z := 48.

Definition APP_RTCEMUL : Z := 0x03.
Definition RTCEMUL_READ_TIME : Z := Z.lor (Z.shiftl APP_RTCEMUL 8) 1.
Definition RTCEMUL_SAVE_VECTORS : Z := Z.lor (Z.shiftl APP_RTCEMUL 8) 2.
Definition RTCEMUL_REENTRY_LOCK : Z := Z.lor (Z.shiftl APP_RTCEMUL 8) 3.
Definition RTCEMUL_REENTRY_UNLOCK : Z := Z.lor (Z.shiftl APP_RTCEMUL 8) 4.
Definition RTCEMUL_SET_SHARED_VAR : Z := Z.lor (Z.shiftl APP_RTCEMUL 8) 5.

(** ** Memory *)

(** RAM is byte-addressed with 32-bit addresses; the Cortex-M0+ stores
    halfwords and words little-endian. *)
Definition load8 (m : gmap Z Z) (a : Z) : Z := default 0 (m !! u32 a).
Definition store8 (a v : Z) (m : gmap Z Z) : gmap Z Z := <[u32 a := u8 v]> m.

Definition load16 (m : gmap Z Z) (a : Z) : Z :=
  Z.lor (load8 m a) (Z.shiftl (load8 m (a + 1)) 8).
Definition store16 (a v : Z) (m : gmap Z Z) : gmap Z Z :=
  store8 (a + 1) (Z.shiftr v 8) (store8 a v m).

Definition load32 (m : gmap Z Z) (a : Z) : Z :=
  Z.lor (load16 m a) (Z.shiftl (load16 m (a + 2)) 16).
Definition store32 (a v : Z) (m : gmap Z Z) : gmap Z Z :=
  store16 (a + 2) (Z.shiftr v 16) (store16 a v m).

(** Modelled from the spec: memfunc.h is not among the sources.
    [WRITE_LONGWORD_RAW(base, offset, data)] stores the 32-bit longword
    [data] at [base + offset]. *)
Definition WRITE_LONGWORD_RAW (address offset data : Z) (m : gmap Z Z) : gmap Z Z :=
  store32 (address + offset) data m.

(** Modelled from the spec: memfunc.h is not among the sources.
    [WRITE_AND_SWAP_LONGWORD] stores the longword with its two 16-bit
    halves exchanged, the order in which the host reads it. *)
Definition WRITE_AND_SWAP_LONGWORD (address offset data : Z) (m : gmap Z Z) : gmap Z Z :=
  store16 (address + offset) (Z.shiftr (u32 data) 16)
    (store16 (address + offset + 2) (Z.land data 0xFFFF) m).

(** Modelled from the spec: memfunc.h is not among the sources.
    [SET_SHARED_VAR(index, value, base, offset)] writes the 32-bit value
    to the slot [index] of the table at [base + offset], four bytes per
    slot, with no check of the index. *)
Definition SET_SHARED_VAR (index value address offset : Z) (m : gmap Z Z) : gmap Z Z :=
  WRITE_AND_SWAP_LONGWORD address (offset + u32 index * 4) value m.

(** Modelled from the spec: memfunc.h is not among the sources.
    [GET_SHARED_VAR] reads back what [SET_SHARED_VAR] wrote. *)
Definition GET_SHARED_VAR (index address offset : Z) (m : gmap Z Z) : Z :=
  let a := address + (offset + u32 index * 4) in
  Z.lor (Z.shiftl (load16 m a) 16) (load16 m (a + 2)).

(** Modelled from the spec: tprotocol.h is not among the sources.
    [TPROTO_SET_RANDOM_TOKEN(mem_address, token)] stores the 32-bit token
    at the address. *)
Definition TPROTO_SET_RANDOM_TOKEN (mem_address token : Z) (m : gmap Z Z) : gmap Z Z :=
  store32 mem_address token m.

(** Modelled from the spec: tprotocol.h is not among the sources.  The
    first four payload bytes are the random token. *)
Definition TPROTO_GET_RANDOM_TOKEN `{Platform} (payload : list Z) : Z :=
  u32 (token_of_bytes (firstn 4 payload)).

(** Modelled from the spec: tprotocol.h is not among the sources.
    [TPROTO_GET_PAYLOAD_PARAM32] at a pointer [off] bytes into the payload
    ([TPROTO_NEXT32_PAYLOAD_PTR] moves the pointer four bytes on). *)
Definition TPROTO_GET_PAYLOAD_PARAM32 `{Platform} (payload : list Z) (off : nat) : Z :=
  u32 (param32_of_bytes (firstn 4 (skipn off payload))).

(** The fields of the shared region, as the host reads them. *)
Definition RandomToken (s : rtc_state) : Z :=
  load32 (memory s) (memorySharedAddress s + RTCEMUL_RANDOM_TOKEN_OFFSET).
Definition RandomTokenSeed (s : rtc_state) : Z :=
  load32 (memory s) (memorySharedAddress s + RTCEMUL_RANDOM_TOKEN_SEED_OFFSET).
Definition Y2kPatch (s : rtc_state) : Z :=
  load32 (memory s) (memorySharedAddress s + RTCEMUL_Y2K_PATCH).
Definition ReentryTrap (s : rtc_state) : Z :=
  load32 (memory s) (memorySharedAddress s + RTCEMUL_REENTRY_TRAP).
Definition DatetimeBcd (s : rtc_state) (i : Z) : Z :=
  load8 (memory s) (u32 (memorySharedAddress s + RTCEMUL_DATETIME_BCD) + i).

(** ** Hardware RTC and libc calls *)

(** Pico SDK [rtc_init()]: resets the RTC block, which then is not running. *)
Definition rtc_init (s : rtc_state) : rtc_state := set_hw_rtc None s.

(** Pico SDK [rtc_get_datetime(&rtcTime)]: fills [rtcTime] from the
    hardware when the RTC is running and leaves it alone otherwise. *)
Definition rtc_get_datetime (s : rtc_state) : rtc_state :=
  match hw_rtc s with
  | Some t => set_rtcTime t s
  | None => s
  end.

(** Pico SDK [rtc_set_datetime(&rtcTime)]: refuses an invalid datetime,
    otherwise loads it into the hardware and starts the RTC. *)
Definition rtc_set_datetime `{Platform} (s : rtc_state) : bool * rtc_state :=
  if valid_datetime (rtcTime s) then (true, set_hw_rtc (Some (rtcTime s)) s)
  else (false, s).

(** [rand()]: the next value of the generator. *)
Definition rand `{Platform} (s : rtc_state) : Z * rtc_state :=
  (rand_value (rand_calls s), set_rand_calls (S (rand_calls s)) s).

(** ** Datetime codec: the shared records *)

(** [set_ikb_datetime_msg].  The three index arguments are [uint16_t] and
    receive constants below 65536; [gemdos_version] is [uint16_t] too, so
    its conversion is written out.  [%] and [/] on the signed fields are C's
    truncating operators. *)
Definition set_ikb_datetime_msg
    (mem_shared_addr rtcemul_datetime_bcd_idx rtcemul_y2k_patch_idx
     rtcemul_datetime_msdos_idx gemdos_version : Z) (y2k_patch : bool)
    (s : rtc_state) : rtc_state :=
  let gemdos_version := u16 gemdos_version in
  let rtc_time_ptr := u32 (mem_shared_addr + rtcemul_datetime_bcd_idx) in
  let s := rtc_get_datetime s in
  let t := rtcTime s in
  let msdos_date :=
    u16 (Z.lor (Z.lor (Z.shiftl (year t - 1980) 9) (Z.shiftl (month t) 5)) (day t)) in
  let msdos_time :=
    u16 (Z.lor (Z.lor (Z.shiftl (hour t) 11) (Z.shiftl (min t) 5))
               (Z.quot (sec t) 2)) in
  let m := store8 (rtc_time_ptr + 1) 0x1b (memory s) in
  let m :=
    if (0 <=? gemdos_version) && y2k_patch then
      store8 rtc_time_ptr
        (add_bcd (to_bcd (u8 (Z.rem (year t) 100)))
                 (to_bcd ((2000 - 1980) + (80 - 30)))) m
    else
      WRITE_LONGWORD_RAW mem_shared_addr rtcemul_y2k_patch_idx 0
        (store8 rtc_time_ptr (to_bcd (u8 (Z.rem (year t) 100))) m) in
  let m := store8 (rtc_time_ptr + 3) (to_bcd (u8 (month t))) m in
  let m := store8 (rtc_time_ptr + 2) (to_bcd (u8 (day t))) m in
  let m := store8 (rtc_time_ptr + 5) (to_bcd (u8 (hour t))) m in
  let m := store8 (rtc_time_ptr + 4) (to_bcd (u8 (min t))) m in
  let m := store8 (rtc_time_ptr + 7) (to_bcd (u8 (sec t))) m in
  let m := store8 (rtc_time_ptr + 6) 0x0 m in
  let msdos_datetime := u32 (Z.lor (Z.shiftl msdos_date 16) msdos_time) in
  set_memory
    (WRITE_LONGWORD_RAW mem_shared_addr rtcemul_datetime_msdos_idx msdos_datetime m)
    s.

(** ** Initialisation *)

(** [rtc_preinit] *)
Definition rtc_preinit `{Platform} (s : rtc_state) : rtc_state :=
  let base := u32 (rom_in_ram_start + FLASH_ROM4_LOAD_OFFSET) in
  let s := set_addresses base
             (u32 (base + RTCEMUL_RANDOM_TOKEN_OFFSET))
             (u32 (base + RTCEMUL_RANDOM_TOKEN_SEED_OFFSET)) s in
  set_memory (WRITE_LONGWORD_RAW (memorySharedAddress s) RTCEMUL_NTP_SUCCESS 0x0 (memory s)) s.

(** [populateMagicSequence]: [for (int i = 2; i < 66; i++)]; the two
    encodings are read from the global [dallasClock]. *)
Definition populateMagicSequence (dc : DallasClock) (sequence : list Z)
    (hex_value : Z) : list Z :=
  fold_left
    (fun sequence (i : nat) =>
       if negb (Z.land (Z.shiftr hex_value (Z.of_nat i - 2)) 1 =? 0)
       then <[i := write_address_bit_one dc]> sequence
       else <[i := write_address_bit_zero dc]> sequence)
    (seq 2 64) sequence.

(** The Dallas branch of [rtc_postinit]: the structure is filled, then the
    magic sequence is populated in place. *)
Definition init_dallasClock (s : rtc_state) : rtc_state :=
  let dc := dallasClock s in
  let dc := mk_dallas 0 0 0x5ca33ac55ca33ac5 (clock_sequence dc) 0x9 0x1 0x3
              (magic_sequence dc) 66 64 (memorySharedAddress s) in
  let dc := mk_dallas (last_magic_found dc) (retries dc) (magic_sequence_hex dc)
              (clock_sequence dc) (read_address_bit dc)
              (write_address_bit_zero dc) (write_address_bit_one dc)
              (populateMagicSequence dc (magic_sequence dc) (magic_sequence_hex dc))
              (size_magic_sequence dc) (size_clock_sequence dc) (rom_address dc) in
  set_dallasClock dc s.

(** The test on the first character of the Y2K setting. *)
Definition y2k_first_char (firstChar : ascii) : bool :=
  (firstChar =? "t")%char || (firstChar =? "T")%char || (firstChar =? "y")%char ||
  (firstChar =? "Y")%char || (firstChar =? "1")%char.

(** [rtc_postinit], first statements: the NTP flag, the reentry flag and
    the three shared variables. *)
Definition postinit_shared (s : rtc_state) : rtc_state :=
  let base := memorySharedAddress s in
  let m := WRITE_LONGWORD_RAW base RTCEMUL_NTP_SUCCESS 0xFFFFFFFF (memory s) in
  let m := WRITE_LONGWORD_RAW base RTCEMUL_REENTRY_TRAP 0x0 m in
  let m := SET_SHARED_VAR SHARED_VARIABLE_HARDWARE_TYPE 0 base RTCEMUL_SHARED_VARIABLES m in
  let m := SET_SHARED_VAR SHARED_VARIABLE_SVERSION 0 base RTCEMUL_SHARED_VARIABLES m in
  let m := SET_SHARED_VAR SHARED_VARIABLE_BUFFER_TYPE 0 base RTCEMUL_SHARED_VARIABLES m in
  set_memory m s.

(** [rtc_postinit], the RTC type.  [rtcType] is the value of the settings
    entry, [None] when the entry or its value is NULL. *)
Definition postinit_rtc_type (rtcType : option string) (s : rtc_state) : rtc_state :=
  match rtcType with
  | Some value =>
      if (value =? "DALLAS")%string then init_dallasClock (set_rtcTypeVar RTC_DALLAS s)
      else if (value =? "SIDECART")%string then set_rtcTypeVar RTC_SIDECART s
      else set_rtcTypeVar RTC_UNKNOWN s
  | None => set_rtcTypeVar RTC_UNKNOWN s
  end.

(** [rtc_postinit], the Y2K patch.  [y2kPatch] is the value of the settings
    entry, [None] when the entry or its value is NULL. *)
Definition postinit_y2k (y2kPatch : option string) (s : rtc_state) : rtc_state :=
  let base := memorySharedAddress s in
  match y2kPatch with
  | Some (String firstChar _) =>
      let s := set_y2kPatchEnabled (y2k_first_char firstChar) s in
      set_memory
        (WRITE_LONGWORD_RAW base RTCEMUL_Y2K_PATCH
           (if y2kPatchEnabled s then 0xFFFFFFFF else 0) (memory s)) s
  | _ => set_memory (WRITE_LONGWORD_RAW base RTCEMUL_Y2K_PATCH 0 (memory s)) s
  end.

(** [rtc_postinit], the datetime records. *)
Definition postinit_datetime (s : rtc_state) : rtc_state :=
  let base := memorySharedAddress s in
  let gemdos_version :=
    GET_SHARED_VAR SHARED_VARIABLE_SVERSION base RTCEMUL_SHARED_VARIABLES (memory s) in
  set_ikb_datetime_msg base RTCEMUL_DATETIME_BCD RTCEMUL_Y2K_PATCH
    RTCEMUL_DATETIME_MSDOS (s16 gemdos_version) (y2kPatchEnabled s) s.

(** [rtc_postinit], the first token and seed, both drawn from [rand()]. *)
Definition postinit_random_token `{Platform} (s : rtc_state) : rtc_state :=
  if negb (memoryRandomTokenAddress s =? 0) then
    let '(randomToken, s) := rand s in
    let s := set_memory
               (TPROTO_SET_RANDOM_TOKEN (memoryRandomTokenAddress s)
                  (u32 randomToken) (memory s)) s in
    let '(newRandomSeedToken, s) := rand s in
    set_memory
      (TPROTO_SET_RANDOM_TOKEN (memoryRandomTokenSeedAddress s)
         (u32 newRandomSeedToken) (memory s)) s
  else s.

(** [rtc_postinit]: the five parts in the order of the source; it returns 0. *)
Definition rtc_postinit `{Platform} (rtcType y2kPatch : option string)
    (s : rtc_state) : Z * rtc_state :=
  let s := postinit_shared s in
  let s := postinit_rtc_type rtcType s in
  let s := postinit_y2k y2kPatch s in
  let s := postinit_datetime s in
  let s := postinit_random_token s in
  (0, s).

(** ** Interrupt side: staging a frame *)

(** [memcpy(dst, src, n)] on two arrays: undefined ([None]) when [n]
    exceeds either of them. *)
Definition memcpy (dst src : list Z) (n : Z) : option (list Z) :=
  if (0 <=? n) && (n <=? Z.of_nat (length dst)) && (n <=? Z.of_nat (length src))
  then Some (firstn (Z.to_nat n) src ++ skipn (Z.to_nat n) dst)
  else None.

(** The number of bytes [handle_protocol_command] copies: the local
    [uint16_t size] after the clamp. *)
Definition clamped_size `{Platform} (protocol : TransmissionProtocol) : Z :=
  let size := u16 (payload_size protocol) in
  if MAX_PROTOCOL_PAYLOAD_SIZE <? size then u16 MAX_PROTOCOL_PAYLOAD_SIZE else size.

(** [handle_protocol_command] *)
Definition handle_protocol_command `{Platform} (protocol : TransmissionProtocol)
    (s : rtc_state) : option rtc_state :=
  let lp := mk_protocol (command_id protocol) (payload_size protocol)
              (bytes_read protocol) (final_checksum protocol)
              (payload (lastProtocol s)) in
  let size := clamped_size protocol in
  match memcpy (payload lp) (payload protocol) size with
  | Some bytes =>
      let lp := mk_protocol (command_id lp) (payload_size lp) (bytes_read lp)
                  (final_checksum lp) bytes in
      Some (set_lastProtocolValid true (set_lastProtocol lp s))
  | None => None
  end.

(** [handle_protocol_checksum_error]: a debug line, nothing else. *)
Definition handle_protocol_checksum_error (protocol : TransmissionProtocol)
    (s : rtc_state) : option rtc_state :=
  Some s.

(** Modelled from the spec: tprotocol_parse (tprotocol.h) is not among
    the sources.  Given a raw frame read from the bus it produces either a
    validated frame, handed to the first callback, or a checksum-error
    signal, handed to the second; the checksum must match a function of
    header and payload.  [raw] is [None] while the bus word read does not
    complete a frame. *)
Definition tprotocol_parse `{Platform} (raw : option TransmissionProtocol)
    (callback protocolChecksumErrorCallback :
       TransmissionProtocol -> rtc_state -> option rtc_state)
    (s : rtc_state) : option rtc_state :=
  match raw with
  | None => Some s
  | Some frame =>
      if final_checksum frame =? protocol_checksum frame then callback frame s
      else protocolChecksumErrorCallback frame s
  end.

(** [rtc_dma_irq_handler_lookup]; [addr] is the DMA read address and [raw]
    what the parser has assembled when it is handed the word. *)
Definition rtc_dma_irq_handler_lookup `{Platform} (addr : Z)
    (raw : option TransmissionProtocol) (s : rtc_state) : option rtc_state :=
  if negb (Z.land addr 0x00010000 =? 0) then
    tprotocol_parse raw handle_protocol_command handle_protocol_checksum_error s
  else Some s.

(** ** Main loop: the command engine *)

(** The [switch] of [rtc_loop]. *)
Definition rtc_command `{Platform} (s : rtc_state) : rtc_state :=
  let base := memorySharedAddress s in
  let id := command_id (lastProtocol s) in
  if id =? RTCEMUL_READ_TIME then
    let gemdos_version :=
      GET_SHARED_VAR SHARED_VARIABLE_SVERSION base RTCEMUL_SHARED_VARIABLES (memory s) in
    set_ikb_datetime_msg base RTCEMUL_DATETIME_BCD RTCEMUL_Y2K_PATCH
      RTCEMUL_DATETIME_MSDOS (s16 gemdos_version) (y2kPatchEnabled s) s
  else if id =? RTCEMUL_SAVE_VECTORS then
    let payload32 := TPROTO_GET_PAYLOAD_PARAM32 (payload (lastProtocol s)) 4 in
    set_memory (WRITE_AND_SWAP_LONGWORD base RTCEMUL_OLD_XBIOS_TRAP payload32 (memory s)) s
  else if id =? RTCEMUL_REENTRY_LOCK then
    set_memory (WRITE_LONGWORD_RAW base RTCEMUL_REENTRY_TRAP 0xFFFFFFFF (memory s)) s
  else if id =? RTCEMUL_REENTRY_UNLOCK then
    set_memory (WRITE_LONGWORD_RAW base RTCEMUL_REENTRY_TRAP 0x0 (memory s)) s
  else if id =? RTCEMUL_SET_SHARED_VAR then
    let sharedVarIdx := TPROTO_GET_PAYLOAD_PARAM32 (payload (lastProtocol s)) 4 in
    let sharedVarValue := TPROTO_GET_PAYLOAD_PARAM32 (payload (lastProtocol s)) 8 in
    set_memory
      (SET_SHARED_VAR sharedVarIdx sharedVarValue base RTCEMUL_SHARED_VARIABLES (memory s)) s
  else s.

(** The tail of the [if (lastProtocolValid)] block: the token read from
    the frame is written back, and a new seed is drawn. *)
Definition rtc_publish_token `{Platform} (randomToken : Z) (s : rtc_state) : rtc_state :=
  if negb (memoryRandomTokenAddress s =? 0) then
    let s := set_memory
               (TPROTO_SET_RANDOM_TOKEN (memoryRandomTokenAddress s) randomToken
                  (memory s)) s in
    let '(newRandomSeedToken, s) := rand s in
    set_memory
      (TPROTO_SET_RANDOM_TOKEN (memoryRandomTokenSeedAddress s)
         (u32 newRandomSeedToken) (memory s)) s
  else s.

(** The [if (lastProtocolValid) { ... }] block of [rtc_loop].  The payload
    words it prints on the way have no effect. *)
Definition rtc_loop_process `{Platform} (s : rtc_state) : rtc_state :=
  if lastProtocolValid s then
    let randomToken := TPROTO_GET_RANDOM_TOKEN (payload (lastProtocol s)) in
    rtc_publish_token randomToken (rtc_command s)
  else s.

(** The last statement of [rtc_loop]: [lastProtocolValid = false]. *)
Definition rtc_loop_clear (s : rtc_state) : rtc_state :=
  set_lastProtocolValid false s.

(** [rtc_loop] *)
Definition rtc_loop `{Platform} (s : rtc_state) : rtc_state :=
  rtc_loop_clear (rtc_loop_process s).

(** The places of a pass of [rtc_loop] at which an interrupt matters:
    before each of its reads of the flag and of the staged frame (the test
    at line 1327, the token at 1331, the command code of the [switch] at
    1369, the words that a case reads at 1387 or 1413 and 1416), before the
    token is written back (1431) and before the flag is cleared (1439).
    The statements in between neither read nor write the two statics.
    Each read counts as one step: the macros of tprotocol.h that perform
    them are not among the sources. *)
Inductive irq_slot :=
  | BeforeTest
  | BeforeTokenRead
  | BeforeSwitch
  | BeforeFirstParam
  | BeforeSecondParam
  | BeforeTokenWrite
  | BeforeClear.

(** Equality of places. *)
Definition irq_slot_eqb (a b : irq_slot) : bool :=
  match a, b with
  | BeforeTest, BeforeTest | BeforeTokenRead, BeforeTokenRead
  | BeforeSwitch, BeforeSwitch | BeforeFirstParam, BeforeFirstParam
  | BeforeSecondParam, BeforeSecondParam | BeforeTokenWrite, BeforeTokenWrite
  | BeforeClear, BeforeClear => true
  | _, _ => false
  end.

(** The interrupts of one pass: for each place the runs of the handler
    there, in order, each with the DMA read address and what the parser
    has assembled. *)
Definition irq_schedule : Type := irq_slot -> list (Z * option TransmissionProtocol).

(** No interrupt during the pass, and one interrupt at one place. *)
Definition no_irq : irq_schedule := fun _ => [].

Definition one_irq (slot : irq_slot) (addr : Z) (raw : option TransmissionProtocol) :
    irq_schedule :=
  fun x => if irq_slot_eqb x slot then [(addr, raw)] else [].

(** The handler run for each interrupt of a list. *)
Fixpoint run_irqs `{Platform} (irqs : list (Z * option TransmissionProtocol))
    (s : rtc_state) : option rtc_state :=
  match irqs with
  | [] => Some s
  | (addr, raw) :: irqs =>
      match rtc_dma_irq_handler_lookup addr raw s with
      | Some s => run_irqs irqs s
      | None => None
      end
  end.

(** The case of the [switch] of [rtc_loop] for the command code [id] that
    the [switch] has read; [param1] and [param2] are the words that the
    case reads at offsets 4 and 8 of the payload. *)
Definition rtc_command_case `{Platform} (id param1 param2 : Z) (s : rtc_state) : rtc_state :=
  let base := memorySharedAddress s in
  if id =? RTCEMUL_READ_TIME then
    let gemdos_version :=
      GET_SHARED_VAR SHARED_VARIABLE_SVERSION base RTCEMUL_SHARED_VARIABLES (memory s) in
    set_ikb_datetime_msg base RTCEMUL_DATETIME_BCD RTCEMUL_Y2K_PATCH
      RTCEMUL_DATETIME_MSDOS (s16 gemdos_version) (y2kPatchEnabled s) s
  else if id =? RTCEMUL_SAVE_VECTORS then
    set_memory (WRITE_AND_SWAP_LONGWORD base RTCEMUL_OLD_XBIOS_TRAP param1 (memory s)) s
  else if id =? RTCEMUL_REENTRY_LOCK then
    set_memory (WRITE_LONGWORD_RAW base RTCEMUL_REENTRY_TRAP 0xFFFFFFFF (memory s)) s
  else if id =? RTCEMUL_REENTRY_UNLOCK then
    set_memory (WRITE_LONGWORD_RAW base RTCEMUL_REENTRY_TRAP 0x0 (memory s)) s
  else if id =? RTCEMUL_SET_SHARED_VAR then
    set_memory
      (SET_SHARED_VAR param1 param2 base RTCEMUL_SHARED_VARIABLES (memory s)) s
  else s.

(** One pass of [rtc_loop] with the interrupt handler running where the
    schedule says.  When the test finds the flag off, the places up to
    the clear are one: nothing is read between them. *)
Definition rtc_loop_interrupted `{Platform} (irqs : irq_schedule) (s : rtc_state) :
    option rtc_state :=
  s ← run_irqs (irqs BeforeTest) s;
  if lastProtocolValid s then
    s ← run_irqs (irqs BeforeTokenRead) s;
    let randomToken := TPROTO_GET_RANDOM_TOKEN (payload (lastProtocol s)) in
    s ← run_irqs (irqs BeforeSwitch) s;
    let id := command_id (lastProtocol s) in
    s ← run_irqs (irqs BeforeFirstParam) s;
    let param1 := TPROTO_GET_PAYLOAD_PARAM32 (payload (lastProtocol s)) 4 in
    s ← run_irqs (irqs BeforeSecondParam) s;
    let param2 := TPROTO_GET_PAYLOAD_PARAM32 (payload (lastProtocol s)) 8 in
    let s := rtc_command_case id param1 param2 s in
    s ← run_irqs (irqs BeforeTokenWrite) s;
    let s := rtc_publish_token randomToken s in
    s ← run_irqs (irqs BeforeClear) s;
    Some (rtc_loop_clear s)
  else
    s ← run_irqs (irqs BeforeTokenRead ++ irqs BeforeSwitch ++ irqs BeforeFirstParam ++
                  irqs BeforeSecondParam ++ irqs BeforeTokenWrite ++ irqs BeforeClear) s;
    Some (rtc_loop_clear s).

(** [s] with other contents of the two statics that the handler writes. *)
Definition restaged (lp : TransmissionProtocol) (valid : bool) (s : rtc_state) : rtc_state :=
  set_lastProtocolValid valid (set_lastProtocol lp s).

(** A step of the pass that neither reads nor writes the staged frame and
    its flag. *)
Definition apart_from_staging (f : rtc_state -> rtc_state) : Prop :=
  forall lp valid s, f (restaged lp valid s) = restaged lp valid (f s).

(** ** NTP synchronizer *)

(** [hostFoundCB(name, ipaddr, arg)]; [arg] is always [&netTime]. *)
Definition hostFoundCB (name : option string) (ipaddr : option Z)
    (s : rtc_state) : rtc_state :=
  match name with
  | None => s
  | Some _ =>
      let ntime := netTime s in
      match ipaddr with
      | Some ip =>
          if negb (ntp_server_found ntime) then
            set_netTime (mk_ntp_time ip (ntp_pcb ntime) true (ntp_error ntime)) s
          else s
      | None =>
          set_netTime
            (mk_ntp_time (ntp_ipaddr ntime) (ntp_pcb ntime) (ntp_server_found ntime) true) s
      end
  end.

(** lwIP [pbuf_get_at(p, offset)]: the byte at the offset, 0 past the end. *)
Definition pbuf_get_at (p : list Z) (offset : nat) : Z := nth offset p 0.

(** lwIP [pbuf_copy_partial(p, &word, 4, offset)] into a [uint32_t] of the
    little-endian MCU. *)
Definition pbuf_copy_partial32 (p : list Z) (offset : nat) : Z :=
  Z.lor (Z.lor (pbuf_get_at p offset) (Z.shiftl (pbuf_get_at p (offset + 1)) 8))
        (Z.lor (Z.shiftl (pbuf_get_at p (offset + 2)) 16)
               (Z.shiftl (pbuf_get_at p (offset + 3)) 24)).

(** lwIP [lwip_ntohl] on a little-endian host: the four bytes reversed. *)
Definition lwip_ntohl (x : Z) : Z :=
  Z.lor (Z.lor (Z.shiftl (Z.land x 0xFF) 24) (Z.shiftl (Z.land (Z.shiftr x 8) 0xFF) 16))
        (Z.lor (Z.shiftl (Z.land (Z.shiftr x 16) 0xFF) 8) (Z.land (Z.shiftr x 24) 0xFF)).

(** [ntpRecvCB(arg, pcb, p, addr, port)]; [p] is [None] for a NULL pbuf,
    otherwise the bytes of the datagram ([tot_len] is their number). *)
Definition ntpRecvCB `{Platform} (p : option (list Z)) (addr port : Z)
    (s : rtc_state) : rtc_state :=
  match p with
  | None => s
  | Some p =>
      if negb (Z.of_nat (length p) =? NTP_MSG_LEN) then s
      else if negb (ntp_ipaddr (netTime s) =? addr) || negb (port =? NTP_DEFAULT_PORT)
      then s
      else
        let mode := u8 (Z.land (pbuf_get_at p 0) 0x07) in
        let stratum := u8 (pbuf_get_at p 1) in
        if negb (mode =? 4) || (stratum =? 0) then s
        else
          let transmit_timestamp_secs := pbuf_copy_partial32 p 40 in
          let transmit_timestamp_secs :=
            u32 (lwip_ntohl transmit_timestamp_secs - NTP_DELTA + utcOffsetSeconds s) in
          let utc_sec := transmit_timestamp_secs in
          match gmtime utc_sec with
          | None => s
          | Some utc =>
              let s :=
                set_rtcTime
                  (mk_datetime (s16 (tm_year utc + 1900)) (s8 (tm_mon utc + 1))
                     (s8 (tm_mday utc)) (s8 (tm_wday utc)) (s8 (tm_hour utc))
                     (s8 (tm_min utc)) (s8 (tm_sec utc))) s in
              snd (rtc_set_datetime s)
          end
  end.

(** [ntp_init()]; [pcb_ok] tells whether [udp_new_ip_type] returned a
    control block. *)
Definition ntp_init (pcb_ok : bool) (s : rtc_state) : rtc_state :=
  let ntime := netTime s in
  let s := set_netTime
             (mk_ntp_time (ntp_ipaddr ntime) pcb_ok (ntp_server_found ntime)
                (ntp_error ntime)) s in
  if negb pcb_ok then s
  else set_netTime (mk_ntp_time (ntp_ipaddr ntime) pcb_ok false false) s.

(** [set_internal_rtc()]: sends the 48-byte client request.  [pbuf_ok] and
    [send_ok] are the outcomes of [pbuf_alloc] and [udp_sendto]. *)
Definition set_internal_rtc (pbuf_ok send_ok : bool) (s : rtc_state) : rtc_state :=
  if negb pbuf_ok then s
  else
    let req := 0x1b :: repeat 0 47 in
    if negb send_ok then s
    else set_udp_out
           (udp_out s ++ [(ntp_ipaddr (netTime s), ntpServerPort s, req)]) s.

(** What lwIP calls back while the program polls or sleeps. *)
Inductive net_event :=
  | EvHostFound (name : option string) (ipaddr : option Z)
  | EvNtpRecv (p : option (list Z)) (addr port : Z).

Definition deliver_event `{Platform} (s : rtc_state) (e : net_event) : rtc_state :=
  match e with
  | EvHostFound name ipaddr => hostFoundCB name ipaddr s
  | EvNtpRecv p addr port => ntpRecvCB p addr port s
  end.

Definition deliver `{Platform} (es : list net_event) (s : rtc_state) : rtc_state :=
  fold_left deliver_event es s.

(** What [dns_gethostbyname] returns: [ERR_OK] with the address written
    through its second argument, [ERR_INPROGRESS], [ERR_ARG], or another
    error. *)
Inductive dns_result := DnsOk (ip : Z) | DnsInProgress | DnsErrArg | DnsErrOther.

Definition dns_gethostbyname (r : dns_result) (s : rtc_state) : rtc_state :=
  match r with
  | DnsOk ip =>
      let ntime := netTime s in
      set_netTime
        (mk_ntp_time ip (ntp_pcb ntime) (ntp_server_found ntime) (ntp_error ntime)) s
  | _ => s
  end.

(** What one turn of the waiting loop meets: the time left at its test
    ([absolute_time_diff_us(get_absolute_time(), rtcTimeoutSec)]), the
    callbacks run while it polls or sleeps, the outcome of the send, the
    result of the DNS call and the callbacks run in the poll after it. *)
Record poll_env := mk_poll
  { time_left_us : Z;
    poll_events : list net_event;
    pbuf_ok : bool;
    send_ok : bool;
    dns_ret : dns_result;
    dns_events : list net_event }.

(** The body of the [while] of [rtc_queryNTPTime]; the local
    [dns_query_done] is threaded with the state. *)
Definition ntp_poll_body `{Platform} (e : poll_env) (dns_query_done : bool)
    (s : rtc_state) : bool * rtc_state :=
  let s := deliver (poll_events e) s in
  let s :=
    if ntp_server_found (netTime s) && dns_query_done then
      let ntime := netTime s in
      set_internal_rtc (pbuf_ok e) (send_ok e)
        (set_netTime
           (mk_ntp_time (ntp_ipaddr ntime) (ntp_pcb ntime) false (ntp_error ntime)) s)
    else s in
  let '(dns_query_done, s) :=
    if negb dns_query_done then
      (true, deliver (dns_events e) (dns_gethostbyname (dns_ret e) s))
    else (dns_query_done, s) in
  if ntp_error (netTime s) then
    let ntime := netTime s in
    (false, set_netTime (mk_ntp_time (ntp_ipaddr ntime) (ntp_pcb ntime) false false) s)
  else (dns_query_done, s).

(** The [while] loop: it runs while time is left and the year is unset.
    [None] when the schedule ends before the loop does. *)
Fixpoint ntp_wait `{Platform} (env : list poll_env) (dns_query_done : bool)
    (s : rtc_state) : option rtc_state :=
  match env with
  | [] => None
  | e :: env =>
      if (0 <? time_left_us e) && (year (rtcTime s) =? 0) then
        let '(dns_query_done, s) := ntp_poll_body e dns_query_done s in
        ntp_wait env dns_query_done s
      else Some s
  end.

(** The settings read at the start of [rtc_queryNTPTime]: the host entry,
    [atoi] of the port entry, and [(long)(offsetHours * 3600)] when the
    offset entry parses completely to a number of hours in -12..14; each
    is [None] when the entry is missing or empty. *)
Record ntp_settings := mk_settings
  { cfg_host : option string;
    cfg_port : option Z;
    cfg_utc_offset : option Z }.

(** The part of [rtc_queryNTPTime] before the loop. *)
Definition ntp_setup (cfg : ntp_settings) (pcb_ok : bool) (s : rtc_state) : rtc_state :=
  let s := rtc_init s in
  let host :=
    match cfg_host cfg with
    | Some (String c r) => String c r
    | _ => NTP_DEFAULT_HOST
    end in
  let port :=
    match cfg_port cfg with
    | Some port => if (0 <? port) && (port <=? 65535) then port else NTP_DEFAULT_PORT
    | None => NTP_DEFAULT_PORT
    end in
  let s := set_ntpServer host port s in
  let s :=
    match cfg_utc_offset cfg with
    | Some offsetSeconds => set_utcOffsetSeconds offsetSeconds s
    | None => s
    end in
  let s := ntp_init pcb_ok s in
  let ntime := netTime s in
  set_netTime (mk_ntp_time (ntp_ipaddr ntime) (ntp_pcb ntime) false (ntp_error ntime)) s.

(** [rtc_queryNTPTime]: 0 for success, -1 for failure. *)
Definition rtc_queryNTPTime `{Platform} (cfg : ntp_settings) (pcb_ok : bool)
    (env : list poll_env) (s : rtc_state) : option (Z * rtc_state) :=
  match ntp_wait env false (ntp_setup cfg pcb_ok s) with
  | None => None
  | Some s =>
      if negb (year (rtcTime s) =? 0) then Some (0, rtc_get_datetime s)
      else Some (-1, s)
  end.

(** *** The deadline on the clock *)

(** Pico SDK time, in microseconds: [make_timeout_time_ms(ms)] called at
    the time [now], and [absolute_time_diff_us(from, to)]. *)
Definition make_timeout_time_ms (now ms : Z) : Z := now + ms * 1000.
Definition absolute_time_diff_us (from to : Z) : Z := to - from.

(** The local [rtcTimeoutSec] of [rtc_queryNTPTime], when the call reaches
    [make_timeout_time_ms(5 * 1000)] at the time [start]. *)
Definition rtcTimeoutSec (start : Z) : Z := make_timeout_time_ms start (5 * 1000).

(** The schedule as the clock gives it.  Each turn comes with the value of
    [get_absolute_time()] at its loop test, and the time left at that test
    is [absolute_time_diff_us(get_absolute_time(), rtcTimeoutSec)]. *)
Definition clocked (start : Z) (turns : list (Z * poll_env)) : list poll_env :=
  List.map
    (fun t =>
       mk_poll (absolute_time_diff_us (fst t) (rtcTimeoutSec start))
         (poll_events (snd t)) (pbuf_ok (snd t)) (send_ok (snd t)) (dns_ret (snd t))
         (dns_events (snd t)))
    turns.

(** A loop test at or after the deadline is among the turns. *)
Definition deadline_reached (start : Z) (turns : list (Z * poll_env)) : bool :=
  existsb (fun t => rtcTimeoutSec start <=? fst t) turns.

(** The local [dns_query_done] and the state after the bodies of the
    turns, the loop test left aside. *)
Definition ntp_turns `{Platform} (env : list poll_env) (dns_query_done : bool)
    (s : rtc_state) : bool * rtc_state :=
  fold_left (fun ds e => ntp_poll_body e (fst ds) (snd ds)) env (dns_query_done, s).

(** The state at the loop test number [j] of [rtc_queryNTPTime], if the
    loop gets there. *)
Definition state_at_test `{Platform} (cfg : ntp_settings) (pcb_ok : bool)
    (env : list poll_env) (s : rtc_state) (j : nat) : rtc_state :=
  snd (ntp_turns (firstn j env) false (ntp_setup cfg pcb_ok s)).

(** ** A concrete platform and concrete inputs

    Used to run the definitions on explicit inputs. *)

(** Bytes to a number, most significant first. *)
Definition be_bytes (bytes : list Z) : Z :=
  fold_left (fun acc b => acc * 256 + b) bytes 0.

(** The ranges a datetime must lie in for the hardware RTC. *)
Definition demo_valid_datetime (t : datetime_t) : bool :=
  (0 <=? year t) && (year t <=? 4095) && (1 <=? month t) && (month t <=? 12) &&
  (1 <=? day t) && (day t <=? 31) && (0 <=? dotw t) && (dotw t <=? 6) &&
  (0 <=? hour t) && (hour t <=? 23) && (0 <=? min t) && (min t <=? 59) &&
  (0 <=? sec t) && (sec t <=? 59).

Definition demo_platform : Platform :=
  mk_platform 64
    (fun f => u16 (fold_left Z.add (payload f) (command_id f + payload_size f)))
    be_bytes be_bytes
    0x20020000 0
    (fun n => (1103515245 * Z.of_nat n + 12345) mod 2147483648)
    (fun _ => Some (mk_tm 30 15 12 1 0 105 6))
    demo_valid_datetime.

Section DemoInputs.
#[local] Existing Instance demo_platform.

Definition demo_frame (id : Z) (bytes : list Z) : TransmissionProtocol :=
  let pl := bytes ++ repeat 0 (64 - length bytes) in
  let f := mk_protocol id (Z.of_nat (length bytes)) 0 0 pl in
  mk_protocol id (Z.of_nat (length bytes)) 0 (protocol_checksum f) pl.

(** The statics as the C runtime initialises them, RAM empty, the hardware
    clock showing 1 January 2005, 12:15:30. *)
Definition demo_boot : rtc_state :=
  mk_state (mk_protocol 0 0 0 0 (repeat 0 64)) false 0 0 0 RTC_UNKNOWN
    (mk_dallas 0 0 0 (repeat 0 64) 0 0 0 (repeat 0 66) 0 0 0)
    (mk_datetime 0 0 0 0 0 0 0) (mk_ntp_time 0 false false false) 0 EmptyString
    NTP_DEFAULT_PORT false ∅ 0%nat (Some (mk_datetime 2005 1 1 6 12 15 30)) [].

(** After [rtc_preinit] and [rtc_postinit] with the Dallas type and the
    Y2K patch switched on. *)
Definition demo_ready : rtc_state :=
  snd (rtc_postinit (Some "DALLAS"%string) (Some "true"%string) (rtc_preinit demo_boot)).

(** [s] with [frame] staged by the interrupt handler. *)
Definition demo_staged (frame : TransmissionProtocol) (s : rtc_state) : rtc_state :=
  match rtc_dma_irq_handler_lookup 0x00010000 (Some frame) s with
  | Some s => s
  | None => s
  end.

(** Frames used below: READ_TIME, the two reentry commands and a command
    code that the engine does not know, all carrying the token DEADBEEF. *)
Definition demo_read_time : TransmissionProtocol :=
  demo_frame RTCEMUL_READ_TIME [0xDE; 0xAD; 0xBE; 0xEF].
Definition demo_lock : TransmissionProtocol :=
  demo_frame RTCEMUL_REENTRY_LOCK [0xDE; 0xAD; 0xBE; 0xEF].
Definition demo_unlock : TransmissionProtocol :=
  demo_frame RTCEMUL_REENTRY_UNLOCK [0xDE; 0xAD; 0xBE; 0xEF].
Definition demo_unknown : TransmissionProtocol :=
  demo_frame 0x03FF [0xDE; 0xAD; 0xBE; 0xEF].

(** REENTRY_UNLOCK from a host that waits for the token CAFEBABE. *)
Definition demo_unlock_late : TransmissionProtocol :=
  demo_frame RTCEMUL_REENTRY_UNLOCK [0xCA; 0xFE; 0xBA; 0xBE].

(** A frame whose checksum field is off by one. *)
Definition demo_corrupt : TransmissionProtocol :=
  mk_protocol (command_id demo_lock) (payload_size demo_lock) (bytes_read demo_lock)
    (u16 (final_checksum demo_lock + 1)) (payload demo_lock).

(** A frame whose length field claims 0xFFFF bytes. *)
Definition demo_oversized : TransmissionProtocol :=
  mk_protocol RTCEMUL_REENTRY_LOCK 0xFFFF 0 0 (repeat 0xAA 64).

(** The synchronizer configured for port 1123, with the server resolved
    to 192.168.0.1. *)
Definition demo_server_ip : Z := 0xC0A80001.
Definition demo_ntp_state : rtc_state :=
  hostFoundCB (Some "ntp.example.org"%string) (Some demo_server_ip)
    (ntp_setup (mk_settings (Some "ntp.example.org"%string) (Some 1123) None) true
       demo_boot).

(** A server reply: mode 4, stratum 1, transmit timestamp 0xC58112E2
    (1 January 2005, 12:15:30 UTC). *)
Definition demo_ntp_reply : list Z :=
  [0x24; 1] ++ repeat 0 38 ++ [0xC5; 0x81; 0x12; 0xE2] ++ repeat 0 4.

(** Twenty-five turns of the waiting loop, 200 ms apart, during which
    nothing comes back from the network: the last test finds no time left. *)
Definition demo_silence : list poll_env :=
  List.map
    (fun k => mk_poll (5000000 - 200000 * (Z.of_nat k + 1)) [] true true DnsInProgress [])
    (seq 0 25).

(** The turns of [demo_silence] on the clock: the timeout is started at
    second 1 and the loop tests come 200 ms apart. *)
Definition demo_clock : list (Z * poll_env) :=
  List.map
    (fun k => (1000000 + 200000 * (Z.of_nat k + 1), mk_poll 0 [] true true DnsInProgress []))
    (seq 0 25).

(** On the clock, with the timeout started at second 1: the DNS answer
    comes in the second turn and the reply in a turn whose test reads a
    time 1 microsecond before the deadline; the test after it reads a time
    past the deadline. *)
Definition demo_clock_late_reply : list (Z * poll_env) :=
  [ (1000000, mk_poll 0 [] true true DnsInProgress []);
    (1200000,
     mk_poll 0 [EvHostFound (Some "pool.ntp.org"%string) (Some demo_server_ip)]
       true true DnsInProgress []);
    (5999999,
     mk_poll 0 [EvNtpRecv (Some demo_ntp_reply) demo_server_ip NTP_DEFAULT_PORT]
       true true DnsInProgress []);
    (6199999, mk_poll 0 [] true true DnsInProgress []) ].

(** The DNS answer comes in the second turn, the reply in the third. *)
Definition demo_answer : list poll_env :=
  [ mk_poll 5000000 [] true true DnsInProgress [];
    mk_poll 4800000 [EvHostFound (Some "pool.ntp.org"%string) (Some demo_server_ip)]
      true true DnsInProgress [];
    mk_poll 4600000 [EvNtpRecv (Some demo_ntp_reply) demo_server_ip NTP_DEFAULT_PORT]
      true true DnsInProgress [];
    mk_poll 4400000 [] true true DnsInProgress [] ].

End DemoInputs.

(** ** Invariants and predicates used in the statements *)

(** What [rtc_preinit] establishes about the three address statics. *)
Definition preinit_done (s : rtc_state) : Prop :=
  memoryRandomTokenAddress s = u32 (memorySharedAddress s + RTCEMUL_RANDOM_TOKEN_OFFSET) /\
  memoryRandomTokenSeedAddress s =
    u32 (memorySharedAddress s + RTCEMUL_RANDOM_TOKEN_SEED_OFFSET).

(** The statics that no command touches. *)
Definition same_statics (s s' : rtc_state) : Prop :=
  lastProtocol s' = lastProtocol s /\
  lastProtocolValid s' = lastProtocolValid s /\
  memorySharedAddress s' = memorySharedAddress s /\
  memoryRandomTokenAddress s' = memoryRandomTokenAddress s /\
  memoryRandomTokenSeedAddress s' = memoryRandomTokenSeedAddress s /\
  y2kPatchEnabled s' = y2kPatchEnabled s /\
  hw_rtc s' = hw_rtc s /\
  dallasClock s' = dallasClock s.

(** The payload arrays have the capacity the header declares. *)
Definition payload_capacity `{Platform} (protocol : TransmissionProtocol) : Prop :=
  length (payload protocol) = Z.to_nat MAX_PROTOCOL_PAYLOAD_SIZE.

(** The checks of [ntpRecvCB] on the datagram itself: length 48, the
    default port, mode 4 and a stratum other than 0. *)
Definition datagram_checks (p : list Z) (port : Z) : bool :=
  (Z.of_nat (length p) =? NTP_MSG_LEN) && (port =? NTP_DEFAULT_PORT) &&
  (u8 (Z.land (pbuf_get_at p 0) 0x07) =? 4) && negb (u8 (pbuf_get_at p 1) =? 0).

(** All the checks of [ntpRecvCB]: the source address is the one recorded
    for the server, and the datagram passes. *)
Definition ntp_response_ok (s : rtc_state) (p : list Z) (addr port : Z) : bool :=
  (ntp_ipaddr (netTime s) =? addr) && datagram_checks p port.

(** A callback that cannot commit a time: a DNS answer, or a datagram that
    fails the checks. *)
Definition never_commits (e : net_event) : bool :=
  match e with
  | EvHostFound _ _ => true
  | EvNtpRecv None _ _ => true
  | EvNtpRecv (Some p) _ port => negb (datagram_checks p port)
  end.

(** No valid NTP response arrives during a turn of the waiting loop. *)
Definition no_commit (e : poll_env) : bool :=
  forallb never_commits (poll_events e) && forallb never_commits (dns_events e).

(** The schedule reaches a loop test at which the deadline has elapsed. *)
Definition deadline_observed (env : list poll_env) : bool :=
  existsb (fun e => time_left_us e <=? 0) env.

(** ** Further fields, predicates and inputs of rtcemul.c *)

(** The longword that [set_ikb_datetime_msg] writes at the MSDOS offset:
    date in the high word, time in the low word. *)
Definition packed_msdos (t : datetime_t) : Z :=
  u32 (Z.lor
         (Z.shiftl
            (u16 (Z.lor (Z.lor (Z.shiftl (year t - 1980) 9) (Z.shiftl (month t) 5)) (day t)))
            16)
         (u16 (Z.lor (Z.lor (Z.shiftl (hour t) 11) (Z.shiftl (min t) 5))
                     (Z.quot (sec t) 2)))).

(** Further fields of the shared region. *)
Definition NtpSuccess (s : rtc_state) : Z :=
  load32 (memory s) (memorySharedAddress s + RTCEMUL_NTP_SUCCESS).
Definition DatetimeMsdos (s : rtc_state) : Z :=
  load32 (memory s) (memorySharedAddress s + RTCEMUL_DATETIME_MSDOS).
Definition OldXbiosTrap (s : rtc_state) : Z :=
  load32 (memory s) (memorySharedAddress s + RTCEMUL_OLD_XBIOS_TRAP).

(** The byte at [a] lies outside the [n] bytes that start at [b]. *)
Definition outside (a b n : Z) : Prop :=
  forall i, 0 <= i < n -> u32 a <> u32 (b + i).

(** Whether the Y2K setting switches the patch on. *)
Definition y2k_setting_on (y2kPatch : option string) : bool :=
  match y2kPatch with
  | Some (String firstChar _) => y2k_first_char firstChar
  | _ => false
  end.


(** The port [rtc_queryNTPTime] keeps: the configured one when it lies in
    1..65535, the default otherwise. *)
Definition effective_port (cfg : ntp_settings) : Z :=
  match cfg_port cfg with
  | Some port => if (0 <? port) && (port <=? 65535) then port else NTP_DEFAULT_PORT
  | None => NTP_DEFAULT_PORT
  end.

(** A DNS callback. *)
Definition is_host_found (e : net_event) : bool :=
  match e with
  | EvHostFound _ _ => true
  | EvNtpRecv _ _ _ => false
  end.

(** A DNS callback that brings an address. *)
Definition resolves (e : net_event) : bool :=
  match e with
  | EvHostFound (Some _) (Some _) => true
  | _ => false
  end.

(** No callback of the turn brings an address. *)
Definition never_resolves (e : poll_env) : bool :=
  forallb (fun ev => negb (resolves ev)) (poll_events e) &&
  forallb (fun ev => negb (resolves ev)) (dns_events e).

(** The timestamp of a datagram: bytes 40 to 43, most significant first. *)
Definition transmit_timestamp (p : list Z) : Z :=
  pbuf_get_at p 40 * 16777216 + pbuf_get_at p 41 * 65536 +
  pbuf_get_at p 42 * 256 + pbuf_get_at p 43.

(** The datetime that [ntpRecvCB] builds from [gmtime]'s result. *)
Definition datetime_of_tm (utc : tm) : datetime_t :=
  mk_datetime (s16 (tm_year utc + 1900)) (s8 (tm_mon utc + 1)) (s8 (tm_mday utc))
    (s8 (tm_wday utc)) (s8 (tm_hour utc)) (s8 (tm_min utc)) (s8 (tm_sec utc)).



(** ** The setup terminal (emul.c) *)

(** The test of [menu] and of [cmdY2KPatch] on the first character of the
    Y2K setting: [value[0]] is one of t, T, Y, y (the terminator of an empty
    value is none of them). *)
Definition menu_y2k_enabled (value : string) : bool :=
  match value with
  | String c _ =>
      (c =? "t")%char || (c =? "T")%char || (c =? "Y")%char || (c =? "y")%char
  | EmptyString => false
  end.

(** [cmdType]: the value it passes to [settings_put_string] when the entry
    exists, as a function of the entry's value. *)
Definition cmdType_value (value : string) : string :=
  if (value =? "SIDECART")%string then "DALLAS"%string else "SIDECART"%string.

(** The type that a value of the RTC type setting stands for. *)
Definition rtc_type_of (rtcType : option string) : RTC_TYPE :=
  match rtcType with
  | Some "DALLAS"%string => RTC_DALLAS
  | Some "SIDECART"%string => RTC_SIDECART
  | _ => RTC_UNKNOWN
  end.

(** *** The host-name check *)

(** [#define MAX_DOMAIN_LENGTH 255], [#define MAX_LABEL_LENGTH 63] *)
Definition MAX_DOMAIN_LENGTH : Z := 255.
Definition MAX_LABEL_LENGTH : Z := 63.

(** libc [isalnum] in the C locale. *)
Definition isalnum (c : ascii) : bool :=
  let n := Z.of_nat (nat_of_ascii c) in
  ((48 <=? n) && (n <=? 57)) || ((65 <=? n) && (n <=? 90)) || ((97 <=? n) && (n <=? 122)).

(** The [for] loop of [is_valid_domain]: [None] for [return false], else
    the value of [label_length] after the last character. *)
Fixpoint domain_scan (domain : string) (label_length : Z) : option Z :=
  match domain with
  | EmptyString => Some label_length
  | String c rest =>
      if (c =? ".")%char then
        if label_length =? 0 then None else domain_scan rest 0
      else if negb (isalnum c || (c =? "-")%char) then None
      else if (label_length =? 0) && (c =? "-")%char then None
      else
        let label_length := label_length + 1 in
        if MAX_LABEL_LENGTH <? label_length then None
        else domain_scan rest label_length
  end.

(** [is_valid_domain]; [None] is the NULL pointer. *)
Definition is_valid_domain (domain : option string) : bool :=
  match domain with
  | None => false
  | Some domain =>
      let len := Z.of_nat (String.length domain) in
      if (len =? 0) || (MAX_DOMAIN_LENGTH <? len) then false
      else
        match domain_scan domain 0 with
        | None => false
        | Some label_length =>
            if (label_length =? 0) ||
               match String.get (String.length domain - 1) domain with
               | Some c => (c =? "-")%char
               | None => false
               end
            then false else true
        end
  end.

(** The labels of a name: the substrings between the dots. *)
Fixpoint labels (domain : string) : list string :=
  match domain with
  | EmptyString => [EmptyString]
  | String c rest =>
      if (c =? ".")%char then EmptyString :: labels rest
      else match labels rest with
           | l :: ls => String c l :: ls
           | [] => [String c EmptyString]
           end
  end.

(** Every character of the string passes the test. *)
Fixpoint string_forallb (f : ascii -> bool) (s : string) : bool :=
  match s with
  | EmptyString => true
  | String c rest => f c && string_forallb f rest
  end.

(** A label the function accepts: 1 to 63 letters, digits or hyphens, the
    first of which is not a hyphen. *)
Definition label_ok (l : string) : bool :=
  (1 <=? Z.of_nat (String.length l)) && (Z.of_nat (String.length l) <=? 63) &&
  string_forallb (fun c => isalnum c || (c =? "-")%char) l &&
  match l with String c _ => negb (c =? "-")%char | EmptyString => true end.

(** The last character is a hyphen. *)
Definition ends_with_hyphen (domain : string) : bool :=
  match String.get (String.length domain - 1) domain with
  | Some c => (c =? "-")%char
  | None => false
  end.

(** What [is_valid_domain] accepts, said on the labels. *)
Definition domain_ok (domain : string) : bool :=
  (1 <=? Z.of_nat (String.length domain)) &&
  (Z.of_nat (String.length domain) <=? 255) &&
  forallb label_ok (labels domain) && negb (ends_with_hyphen domain).

(** [label_ok] for the labels that are left when [k] characters of the
    first one have been read already. *)
Definition rest_ok (k : Z) (ls : list string) : bool :=
  match ls with
  | [] => false
  | l :: ls =>
      string_forallb (fun c => isalnum c || (c =? "-")%char) l &&
      (k + Z.of_nat (String.length l) <=? 63) &&
      (negb (k =? 0) || match l with String c _ => negb (c =? "-")%char | _ => true end) &&
      (1 <=? k + Z.of_nat (String.length l)) && forallb label_ok ls
  end.

(** ** The application loop (emul.c) *)

(** The values that [appStatus] takes. *)
Inductive app_status := APP_MODE_SETUP | APP_EMULATION_INIT | APP_EMULATION_RUNTIME.

(** The commands that [emul_start] sends to the display. *)
Inductive display_command :=
  DISPLAY_COMMAND_START | DISPLAY_COMMAND_RESET | DISPLAY_COMMAND_CONTINUE.

(** The calls of [emul_start] into rtcemul.c and the DMA layer, with the
    value [rtc_queryNTPTime] returned. *)
Inductive rtc_call :=
  | CallPreinit
  | CallQueryNTPTime (res : Z)
  | CallPostinit
  | CallSetResponseCB
  | CallLoop.

(** The file statics of emul.c, the local [lastDecrement] of [emul_start],
    and what the loop has sent to the display and called so far. *)
Record app_state := mk_app
  { countdown : Z; haltCountdown : bool; keepActive : bool; jumpBooster : bool;
    gemLaunched : bool; appStatus : app_status; lastDecrement : Z;
    display_out : list display_command; rtc_calls : list rtc_call }.

Definition set_countdown (v : Z) (a : app_state) : app_state :=
  mk_app v (haltCountdown a) (keepActive a) (jumpBooster a) (gemLaunched a)
    (appStatus a) (lastDecrement a) (display_out a) (rtc_calls a).
Definition set_haltCountdown (v : bool) (a : app_state) : app_state :=
  mk_app (countdown a) v (keepActive a) (jumpBooster a) (gemLaunched a)
    (appStatus a) (lastDecrement a) (display_out a) (rtc_calls a).
Definition set_keepActive (v : bool) (a : app_state) : app_state :=
  mk_app (countdown a) (haltCountdown a) v (jumpBooster a) (gemLaunched a)
    (appStatus a) (lastDecrement a) (display_out a) (rtc_calls a).
Definition set_jumpBooster (v : bool) (a : app_state) : app_state :=
  mk_app (countdown a) (haltCountdown a) (keepActive a) v (gemLaunched a)
    (appStatus a) (lastDecrement a) (display_out a) (rtc_calls a).
Definition set_gemLaunched (v : bool) (a : app_state) : app_state :=
  mk_app (countdown a) (haltCountdown a) (keepActive a) (jumpBooster a) v
    (appStatus a) (lastDecrement a) (display_out a) (rtc_calls a).
Definition set_appStatus (v : app_status) (a : app_state) : app_state :=
  mk_app (countdown a) (haltCountdown a) (keepActive a) (jumpBooster a) (gemLaunched a)
    v (lastDecrement a) (display_out a) (rtc_calls a).
Definition set_lastDecrement (v : Z) (a : app_state) : app_state :=
  mk_app (countdown a) (haltCountdown a) (keepActive a) (jumpBooster a) (gemLaunched a)
    (appStatus a) v (display_out a) (rtc_calls a).
Definition SEND_COMMAND_TO_DISPLAY (c : display_command) (a : app_state) : app_state :=
  mk_app (countdown a) (haltCountdown a) (keepActive a) (jumpBooster a) (gemLaunched a)
    (appStatus a) (lastDecrement a) (display_out a ++ [c]) (rtc_calls a).
Definition call_rtc (c : rtc_call) (a : app_state) : app_state :=
  mk_app (countdown a) (haltCountdown a) (keepActive a) (jumpBooster a) (gemLaunched a)
    (appStatus a) (lastDecrement a) (display_out a) (rtc_calls a ++ [c]).

(** The command handlers, as they act on the statics; what they print and
    what they store in the settings is left out. *)
Definition cmdMenu (a : app_state) : app_state := set_haltCountdown true a.

Definition cmdExit (a : app_state) : app_state :=
  set_appStatus APP_EMULATION_INIT (set_haltCountdown true a).

Definition cmdBooster (a : app_state) : app_state :=
  set_haltCountdown true (set_keepActive false (set_jumpBooster true a)).

(** [entry_found]: [settings_find_entry] returned an entry. *)
Definition cmdY2KPatch (entry_found : bool) (a : app_state) : app_state :=
  if entry_found then set_haltCountdown true a else a.

Definition cmdType (entry_found : bool) (a : app_state) : app_state :=
  if entry_found then set_haltCountdown true a else a.

(** [single_key]: [term_getCommandLevel()] is [TERM_COMMAND_LEVEL_SINGLE_KEY]. *)
Definition cmdHost (single_key : bool) (a : app_state) : app_state :=
  if single_key then set_haltCountdown true a else a.

Definition cmdPort (single_key : bool) (a : app_state) : app_state :=
  if single_key then set_haltCountdown true a else a.

Definition cmdUTCOffset (single_key : bool) (a : app_state) : app_state :=
  if single_key then set_haltCountdown true a else a.

(** The entries of the command table [commands]; [TermCommand] stands for
    the handlers of term.c in the table ([term_cmdSettings] and the like),
    which cannot reach the statics of emul.c. *)
Inductive command :=
  | CmdMenu
  | CmdExit
  | CmdBooster
  | CmdY2KPatch (entry_found : bool)
  | CmdType (entry_found : bool)
  | CmdHost (single_key : bool)
  | CmdPort (single_key : bool)
  | CmdUTCOffset (single_key : bool)
  | TermCommand.

Definition run_command (a : app_state) (c : command) : app_state :=
  match c with
  | CmdMenu => cmdMenu a
  | CmdExit => cmdExit a
  | CmdBooster => cmdBooster a
  | CmdY2KPatch entry_found => cmdY2KPatch entry_found a
  | CmdType entry_found => cmdType entry_found a
  | CmdHost single_key => cmdHost single_key a
  | CmdPort single_key => cmdPort single_key a
  | CmdUTCOffset single_key => cmdUTCOffset single_key a
  | TermCommand => a
  end.

(** [term_loop()] of term.c, seen from emul.c: the handlers of the table
    registered by [init] that it calls, in order. *)
Definition term_loop (called : list command) (a : app_state) : app_state :=
  fold_left run_command called a.

(** What one turn of the loop of [emul_start] meets: the value of
    [rtc_queryNTPTime()] if the turn calls it, the handlers that
    [term_loop()] calls, and [get_absolute_time()], in microseconds. *)
Record turn_env := mk_turn
  { ntp_res : Z; called : list command; now : Z }.

(** The [switch (appStatus)] in the loop of [emul_start]. *)
Definition loop_turn (a : app_state) (e : turn_env) : app_state :=
  match appStatus a with
  | APP_EMULATION_RUNTIME =>
      let a := call_rtc CallLoop a in
      if negb (gemLaunched a) then
        set_gemLaunched true (SEND_COMMAND_TO_DISPLAY DISPLAY_COMMAND_START a)
      else a
  | APP_EMULATION_INIT =>
      let res := ntp_res e in
      let a := call_rtc (CallQueryNTPTime res) a in
      let a :=
        if res =? 0 then
          set_appStatus APP_EMULATION_RUNTIME
            (call_rtc CallSetResponseCB (call_rtc CallPostinit a))
        else set_appStatus APP_MODE_SETUP a in
      term_loop (called e) a
  | APP_MODE_SETUP =>
      let a := term_loop (called e) a in
      if negb (haltCountdown a) then
        if 1000000 <=? now e - lastDecrement a then
          let a := set_lastDecrement (now e) a in
          let a := set_countdown (countdown a - 1) a in
          if countdown a <=? 0 then
            set_appStatus APP_EMULATION_INIT (set_haltCountdown true a)
          else a
        else a
      else a
  end.

(** Turns of the loop, whatever [keepActive] says. *)
Definition run_turns (env : list turn_env) (a : app_state) : app_state :=
  fold_left loop_turn env a.

(** [while (getKeepActive())]; [None] when the schedule ends before the
    loop does. *)
Fixpoint emul_loop (env : list turn_env) (a : app_state) : option app_state :=
  if keepActive a then
    match env with
    | [] => None
    | e :: env => emul_loop env (loop_turn a e)
    end
  else Some a.

(** The statics as the C runtime initialises them. *)
Definition app_boot : app_state :=
  mk_app 0 false true false false APP_MODE_SETUP 0 [] [].

(** [init]: the countdown is set to 20 (the command table is registered
    here, so no handler of emul.c runs before). *)
Definition init (a : app_state) : app_state := set_countdown 20 a.

(** [emul_start] up to its loop, as it acts on the statics: [init], then
    [rtc_preinit]; [start] is [get_absolute_time()] before the loop.  The
    terminal runs before [init] only while the WiFi connects, when the
    command table is not registered yet. *)
Definition emul_enter (start : Z) : app_state :=
  let a := init app_boot in
  let a := call_rtc CallPreinit a in
  set_lastDecrement start a.

(** [emul_start]: the loop and what follows it, up to the final idle
    loop. *)
Definition emul_start (start : Z) (env : list turn_env) : option app_state :=
  match emul_loop env (emul_enter start) with
  | None => None
  | Some a =>
      if jumpBooster a then Some (SEND_COMMAND_TO_DISPLAY DISPLAY_COMMAND_RESET a)
      else Some (SEND_COMMAND_TO_DISPLAY DISPLAY_COMMAND_CONTINUE a)
  end.

(** Predicates on runs of the loop. *)





Definition is_exit (c : command) : bool :=
  match c with CmdExit => true | _ => false end.

(** No turn of the schedule has the Exit command. *)
Definition no_exit (env : list turn_env) : bool :=
  forallb (fun e => forallb (fun c => negb (is_exit c)) (called e)) env.

(** Turns in which the terminal calls no handler and at least a second has
    passed since the time [last] of the previous one. *)
Fixpoint ticking (last : Z) (env : list turn_env) : bool :=
  match env with
  | [] => true
  | e :: env =>
      match called e with [] => true | _ => false end &&
      (1000000 <=? now e - last) && ticking (now e) env
  end.

(** How often [DISPLAY_COMMAND_START] occurs. *)
Definition count_start (l : list display_command) : nat :=
  length (List.filter (fun c => match c with DISPLAY_COMMAND_START => true | _ => false end) l).



(** ** Further concrete inputs *)

Section DemoRuns.
#[local] Existing Instance demo_platform.

(** After [rtc_preinit] and [rtc_postinit] with the Y2K patch switched
    off. *)
Definition demo_ready_plain : rtc_state :=
  snd (rtc_postinit (Some "SIDECART"%string) (Some "false"%string) (rtc_preinit demo_boot)).

(** The clock state after the acquisition on [demo_answer], and after the
    one on [demo_silence]. *)
Definition demo_synced : rtc_state :=
  match rtc_queryNTPTime (mk_settings None None None) true demo_answer demo_boot with
  | Some (_, s) => s
  | None => demo_boot
  end.
Definition demo_unsynced : rtc_state :=
  match rtc_queryNTPTime (mk_settings None None None) true demo_silence demo_boot with
  | Some (_, s) => s
  | None => demo_boot
  end.

(** Turns of the application loop one second apart in which no key is
    pressed, starting at second [first]. *)
Definition demo_ticks (first n : nat) : list turn_env :=
  List.map (fun k => mk_turn (-1) [] (1000000 * Z.of_nat k)) (seq first n).

(** The countdown runs out, the acquisition succeeds in the turn after,
    and two turns of runtime follow. *)
Definition demo_session : list turn_env :=
  demo_ticks 1 20 ++ [mk_turn 0 [] 21000000] ++ demo_ticks 22 2.

(** The user asks for the menu, then for the Booster. *)
Definition demo_to_booster : list turn_env :=
  [mk_turn (-1) [CmdMenu] 200000; mk_turn (-1) [CmdBooster] 400000].

Definition demo_exit_state : app_state :=
  match emul_start 0 demo_to_booster with
  | Some a => a
  | None => app_boot
  end.

End DemoRuns.

(** * Part II: properties *)

(** Runs the definitions on the closed terms of a conjunction. *)
Ltac run_all :=
  cbv zeta;
  repeat match goal with |- _ /\ _ => split end;
  vm_compute; solve [reflexivity | discriminate].

(** ** Fixed-width conversions *)

Lemma u8_range x : 0 <= u8 x < 256.
Proof. unfold u8. apply Z.mod_pos_bound. lia. Qed.

Lemma u16_range x : 0 <= u16 x < 65536.
Proof. unfold u16. apply Z.mod_pos_bound. lia. Qed.

Lemma u32_range x : 0 <= u32 x < 4294967296.
Proof. unfold u32. apply Z.mod_pos_bound. lia. Qed.

Lemma u32_small x : 0 <= x < 4294967296 -> u32 x = x.
Proof. intros Hx. unfold u32. apply Z.mod_small. exact Hx. Qed.

Lemma u32_idem x : u32 (u32 x) = u32 x.
Proof. apply u32_small, u32_range. Qed.

Lemma u32_add_l x k : u32 (u32 x + k) = u32 (x + k).
Proof. unfold u32. apply Zplus_mod_idemp_l. Qed.

Lemma u16_nonneg_test x : (0 <=? u16 x) = true.
Proof. apply Z.leb_le. apply u16_range. Qed.

(** ** BCD arithmetic *)

Lemma valid_bcd_in_bytes b : valid_bcd b = true -> In b bcd_bytes.
Proof.
  intros Hb.
  assert (Hr : 0 <= b < 256).
  { unfold valid_bcd in Hb. rewrite !andb_true_iff in Hb.
    destruct Hb as [[[H0 H1] _] _]. apply Z.leb_le in H0. apply Z.ltb_lt in H1. lia. }
  assert (Hall : forallb (fun n => implb (valid_bcd (Z.of_nat n))
                                   (existsb (Z.eqb (Z.of_nat n)) bcd_bytes))
                         (seq 0 256) = true) by (vm_compute; reflexivity).
  rewrite forallb_forall in Hall.
  specialize (Hall (Z.to_nat b)).
  rewrite Z2Nat.id in Hall by lia.
  rewrite Hb in Hall. unfold implb in Hall.
  assert (Hin : In (Z.to_nat b) (seq 0 256)) by (apply in_seq; lia).
  apply Hall in Hin. apply existsb_exists in Hin.
  destruct Hin as [y [Hy Heq]]. apply Z.eqb_eq in Heq. subst y. exact Hy.
Qed.

(** On valid BCD bytes [add_bcd] is the decimal sum modulo 100 exactly
    when the tens digits and the carry fit in four bits. *)
Lemma add_bcd_correct_iff_tens_fit a b :
  valid_bcd a = true -> valid_bcd b = true ->
  (add_bcd a b = bcd_sum_spec a b <-> tens_fit a b = true).
Proof.
  intros Ha Hb.
  apply valid_bcd_in_bytes in Ha. apply valid_bcd_in_bytes in Hb.
  assert (Hall : forallb (fun x => forallb (fun y =>
             Bool.eqb (add_bcd x y =? bcd_sum_spec x y) (tens_fit x y)) bcd_bytes)
             bcd_bytes = true) by (vm_compute; reflexivity).
  rewrite forallb_forall in Hall. specialize (Hall a Ha).
  rewrite forallb_forall in Hall. specialize (Hall b Hb).
  apply eqb_prop in Hall. rewrite <- Hall. symmetry. apply Z.eqb_eq.
Qed.

(** C8: [add_bcd] is not BCD addition modulo 100 on all valid bytes.  At
    0x80 + 0x80 the sum of the high nibbles, 0x100, does not fit the
    [uint8_t] local: the result is 0x00 where 80 + 80 = 160 gives 0x60. *)
Theorem add_bcd_drops_high_carry :
  valid_bcd 0x80 = true /\ add_bcd 0x80 0x80 = 0x00 /\ bcd_sum_spec 0x80 0x80 = 0x60.
Proof. run_all. Qed.

(** ** Memory *)

Lemma u8_testbit x n : Z.testbit (u8 x) n = (0 <=? n) && (n <? 8) && Z.testbit x n.
Proof.
  destruct (Z.leb_spec 0 n) as [Hn | Hn].
  - unfold u8. change 256 with (2 ^ 8). rewrite Z.testbit_mod_pow2 by lia. reflexivity.
  - rewrite Z.testbit_neg_r by lia. reflexivity.
Qed.

Lemma shiftl_testbit a k n : 0 <= k -> Z.testbit (Z.shiftl a k) n = Z.testbit a (n - k).
Proof.
  intros Hk. destruct (Z.leb_spec 0 n) as [Hn | Hn].
  - apply Z.shiftl_spec. exact Hn.
  - rewrite !Z.testbit_neg_r by lia. reflexivity.
Qed.

(** The four bytes of a stored word, read back little-endian, give the
    word. *)
Lemma pack32 v :
  Z.lor (Z.lor (u8 v) (Z.shiftl (u8 (Z.shiftr v 8)) 8))
        (Z.shiftl (Z.lor (u8 (Z.shiftr v 16))
                         (Z.shiftl (u8 (Z.shiftr (Z.shiftr v 16) 8)) 8)) 16) = u32 v.
Proof.
  apply Z.bits_inj'. intros n Hn.
  unfold u32. change 4294967296 with (2 ^ 32). rewrite Z.testbit_mod_pow2 by lia.
  rewrite !Z.lor_spec, !shiftl_testbit, Z.lor_spec, shiftl_testbit by lia.
  rewrite !u8_testbit.
  destruct (Z.ltb_spec n 8); destruct (Z.ltb_spec n 16); destruct (Z.ltb_spec n 24);
    destruct (Z.ltb_spec n 32); try lia;
    repeat match goal with
    | |- context [?a <=? ?b] => destruct (Z.leb_spec a b); try lia
    | |- context [?a <? ?b] => destruct (Z.ltb_spec a b); try lia
    end; simpl; rewrite ?Z.shiftr_spec by lia; rewrite ?Z.shiftr_spec by lia;
    rewrite ?orb_false_r; try reflexivity; f_equal; lia.
Qed.

Lemma load8_store8_eq a b v m : u32 a = u32 b -> load8 (store8 a v m) b = u8 v.
Proof. intros H. unfold load8, store8. rewrite H, lookup_insert_eq. reflexivity. Qed.

Lemma load8_store8_ne a b v m : u32 a <> u32 b -> load8 (store8 a v m) b = load8 m b.
Proof. intros H. unfold load8, store8. rewrite lookup_insert_ne by exact H. reflexivity. Qed.

(** Equalities and disequalities between 32-bit addresses built from a
    base and the offsets of rtc.h. *)
Ltac addr_solve :=
  unfold u32, RTCEMUL_SHARED_VARIABLES, RTCEMUL_Y2K_PATCH, RTCEMUL_REENTRY_TRAP,
    RTCEMUL_OLD_XBIOS_TRAP, RTCEMUL_DATETIME_MSDOS, RTCEMUL_DATETIME_BCD,
    RTCEMUL_NTP_SUCCESS, RTCEMUL_RANDOM_TOKEN_SEED_OFFSET,
    RTCEMUL_RANDOM_TOKEN_OFFSET in *;
  Z.div_mod_to_equations; lia.

Ltac mem_simp :=
  repeat first
    [ rewrite load8_store8_ne by addr_solve
    | rewrite load8_store8_eq by addr_solve ].

Lemma load32_store32_eq a b v m : u32 a = u32 b -> load32 (store32 a v m) b = u32 v.
Proof.
  intros H. unfold load32, load16, store32, store16.
  mem_simp. apply pack32.
Qed.

Lemma load32_store32_ne a b v m :
  (forall i j, 0 <= i < 4 -> 0 <= j < 4 -> u32 (a + i) <> u32 (b + j)) ->
  load32 (store32 a v m) b = load32 m b.
Proof.
  intros H. unfold load32, load16, store32, store16.
  assert (H00 := H 0 0). assert (H01 := H 0 1). assert (H02 := H 0 2). assert (H03 := H 0 3).
  assert (H10 := H 1 0). assert (H11 := H 1 1). assert (H12 := H 1 2). assert (H13 := H 1 3).
  assert (H20 := H 2 0). assert (H21 := H 2 1). assert (H22 := H 2 2). assert (H23 := H 2 3).
  assert (H30 := H 3 0). assert (H31 := H 3 1). assert (H32 := H 3 2). assert (H33 := H 3 3).
  clear H.
  rewrite !Z.add_0_r in *.
  replace (a + 2 + 1) with (a + 3) by lia. replace (b + 2 + 1) with (b + 3) by lia.
  rewrite !load8_store8_ne by (auto with zarith). reflexivity.
Qed.

Lemma load8_store32_ne a b v m :
  (forall i, 0 <= i < 4 -> u32 (a + i) <> u32 b) ->
  load8 (store32 a v m) b = load8 m b.
Proof.
  intros H. unfold store32, store16.
  assert (H0 := H 0). assert (H1 := H 1). assert (H2 := H 2). assert (H3 := H 3).
  clear H. rewrite !Z.add_0_r in *.
  replace (a + 2 + 1) with (a + 3) by lia.
  rewrite !load8_store8_ne by (auto with zarith). reflexivity.
Qed.

(** ** The command engine *)

Section Engine.
Context `{P : Platform}.

Lemma set_ikb_datetime_msg_memory a b c d g y s :
  exists m, set_ikb_datetime_msg a b c d g y s = set_memory m (rtc_get_datetime s).
Proof. unfold set_ikb_datetime_msg. eexists. reflexivity. Qed.

Lemma same_statics_get_datetime s : same_statics s (rtc_get_datetime s).
Proof. unfold rtc_get_datetime. destruct (hw_rtc s) eqn:E; repeat split; auto. Qed.

Lemma same_statics_set_memory m s : same_statics s (set_memory m s).
Proof. repeat split. Qed.

Lemma same_statics_trans s1 s2 s3 :
  same_statics s1 s2 -> same_statics s2 s3 -> same_statics s1 s3.
Proof. unfold same_statics. intuition congruence. Qed.

Lemma same_statics_ikb a b c d g y s :
  same_statics s (set_ikb_datetime_msg a b c d g y s).
Proof.
  destruct (set_ikb_datetime_msg_memory a b c d g y s) as [m ->].
  eapply same_statics_trans; [apply same_statics_get_datetime | apply same_statics_set_memory].
Qed.

Lemma rand_calls_ikb a b c d g y s :
  rand_calls (set_ikb_datetime_msg a b c d g y s) = rand_calls s.
Proof.
  destruct (set_ikb_datetime_msg_memory a b c d g y s) as [m ->].
  unfold rtc_get_datetime. destruct (hw_rtc s); reflexivity.
Qed.

Lemma same_statics_command s : same_statics s (rtc_command s).
Proof.
  unfold rtc_command.
  repeat match goal with
  | |- context [if ?c then _ else _] => destruct c
  end; try apply same_statics_ikb; try apply same_statics_set_memory.
  repeat split.
Qed.

Lemma rand_calls_command s : rand_calls (rtc_command s) = rand_calls s.
Proof.
  unfold rtc_command.
  repeat match goal with
  | |- context [if ?c then _ else _] => destruct c
  end; try apply rand_calls_ikb; reflexivity.
Qed.

(** What the tail of the block leaves in the two token fields. *)
Lemma publish_token_fields T s :
  preinit_done s -> memoryRandomTokenAddress s <> 0 ->
  load32 (memory (rtc_publish_token T s))
         (memorySharedAddress s + RTCEMUL_RANDOM_TOKEN_OFFSET) = u32 T /\
  load32 (memory (rtc_publish_token T s))
         (memorySharedAddress s + RTCEMUL_RANDOM_TOKEN_SEED_OFFSET) =
    u32 (rand_value (rand_calls s)) /\
  rand_calls (rtc_publish_token T s) = S (rand_calls s) /\
  same_statics s (rtc_publish_token T s).
Proof.
  intros [Htok Hseed] Hnz. unfold rtc_publish_token.
  apply Z.eqb_neq in Hnz. rewrite Hnz. cbn [negb rand].
  cbn [memory set_memory set_rand_calls memoryRandomTokenAddress
       memoryRandomTokenSeedAddress rand_calls].
  unfold TPROTO_SET_RANDOM_TOKEN. rewrite Htok, Hseed.
  repeat split.
  - rewrite load32_store32_ne by (intros; addr_solve).
    apply load32_store32_eq. apply u32_idem.
  - rewrite load32_store32_eq by apply u32_idem. apply u32_idem.
Qed.

(** The token fields after a pass of [rtc_loop] over a staged frame. *)
Lemma rtc_loop_token_fields s :
  preinit_done s -> memoryRandomTokenAddress s <> 0 -> lastProtocolValid s = true ->
  RandomToken (rtc_loop s) = TPROTO_GET_RANDOM_TOKEN (payload (lastProtocol s)) /\
  RandomTokenSeed (rtc_loop s) = u32 (rand_value (rand_calls s)) /\
  rand_calls (rtc_loop s) = S (rand_calls s).
Proof.
  intros Hpre Hnz Hvalid.
  destruct (same_statics_command s) as (Hlp & _ & Hbase & Htok & Hseed & _).
  assert (Hpre' : preinit_done (rtc_command s)).
  { destruct Hpre as [H1 H2]. split; congruence. }
  assert (Hnz' : memoryRandomTokenAddress (rtc_command s) <> 0) by congruence.
  destruct (publish_token_fields (TPROTO_GET_RANDOM_TOKEN (payload (lastProtocol s)))
              (rtc_command s) Hpre' Hnz') as (Ht & Hs & Hr & Hst).
  destruct Hst as (_ & _ & Hbase' & _).
  unfold RandomToken, RandomTokenSeed, rtc_loop, rtc_loop_clear, rtc_loop_process.
  rewrite Hvalid.
  cbn [memory memorySharedAddress set_lastProtocolValid rand_calls].
  rewrite Hbase', Hbase in *.
  rewrite Ht, Hs, Hr, rand_calls_command.
  repeat split. unfold TPROTO_GET_RANDOM_TOKEN. apply u32_idem.
Qed.

Lemma same_statics_publish T s : same_statics s (rtc_publish_token T s).
Proof.
  unfold rtc_publish_token. destruct (negb (memoryRandomTokenAddress s =? 0)).
  - repeat split.
  - repeat split.
Qed.

Lemma same_statics_process s : same_statics s (rtc_loop_process s).
Proof.
  unfold rtc_loop_process. destruct (lastProtocolValid s).
  - eapply same_statics_trans; [apply same_statics_command | apply same_statics_publish].
  - repeat split.
Qed.

Lemma rtc_loop_idle s : lastProtocolValid s = false -> rtc_loop s = s.
Proof.
  intros H. unfold rtc_loop, rtc_loop_process, rtc_loop_clear. rewrite H.
  destruct s. simpl in H. subst. reflexivity.
Qed.

Lemma clamped_size_bounds protocol :
  0 <= MAX_PROTOCOL_PAYLOAD_SIZE ->
  clamped_size protocol = Z.min (u16 (payload_size protocol)) MAX_PROTOCOL_PAYLOAD_SIZE.
Proof.
  intros Hmax. unfold clamped_size.
  pose proof (u16_range (payload_size protocol)) as Hr.
  destruct (Z.ltb_spec MAX_PROTOCOL_PAYLOAD_SIZE (u16 (payload_size protocol))) as [Hlt | Hge].
  - rewrite Z.min_r by lia. unfold u16. apply Z.mod_small. lia.
  - rewrite Z.min_l by lia. reflexivity.
Qed.

Lemma handle_protocol_command_stages protocol s :
  0 <= MAX_PROTOCOL_PAYLOAD_SIZE ->
  payload_capacity protocol -> payload_capacity (lastProtocol s) ->
  exists s',
    handle_protocol_command protocol s = Some s' /\
    payload (lastProtocol s') =
      firstn (Z.to_nat (clamped_size protocol)) (payload protocol) ++
      skipn (Z.to_nat (clamped_size protocol)) (payload (lastProtocol s)) /\
    command_id (lastProtocol s') = command_id protocol /\
    payload_size (lastProtocol s') = payload_size protocol /\
    payload_capacity (lastProtocol s') /\
    lastProtocolValid s' = true /\
    memory s' = memory s.
Proof.
  intros Hmax Hsrc Hdst. unfold payload_capacity in *.
  pose proof (clamped_size_bounds protocol Hmax) as Hc.
  pose proof (u16_range (payload_size protocol)) as Hr.
  assert (Hb : 0 <= clamped_size protocol <= MAX_PROTOCOL_PAYLOAD_SIZE) by lia.
  unfold handle_protocol_command, memcpy. cbn [payload].
  rewrite Hsrc, Hdst, Z2Nat.id by lia.
  replace ((0 <=? clamped_size protocol) &&
           (clamped_size protocol <=? MAX_PROTOCOL_PAYLOAD_SIZE) &&
           (clamped_size protocol <=? MAX_PROTOCOL_PAYLOAD_SIZE)) with true.
  2:{ symmetry. rewrite !andb_true_iff, !Z.leb_le. lia. }
  eexists. split; [reflexivity |].
  cbn [lastProtocol set_lastProtocolValid set_lastProtocol payload command_id
       payload_size lastProtocolValid memory].
  repeat split.
  rewrite length_app, length_firstn, length_skipn, Hsrc, Hdst. lia.
Qed.

(** [rtc_preinit] sets the three address statics, and [rtc_loop] keeps
    them: the hypotheses on the statics below hold whenever the main loop
    runs the engine. *)
Lemma rtc_preinit_done s : preinit_done (rtc_preinit s).
Proof. unfold rtc_preinit, preinit_done. split; reflexivity. Qed.

Lemma rtc_loop_preinit_done s : preinit_done s -> preinit_done (rtc_loop s).
Proof.
  intros [H1 H2]. destruct (same_statics_process s) as (_ & _ & Hb & Ht & Hs & _).
  unfold rtc_loop, rtc_loop_clear, preinit_done.
  cbn [memoryRandomTokenAddress memoryRandomTokenSeedAddress memorySharedAddress
       set_lastProtocolValid].
  split; congruence.
Qed.

End Engine.

(** ** Claims about the command engine and the staging of frames *)

Section EngineClaims.
Context `{P : Platform}.

(** C2: after [rtc_loop] has processed a staged frame, whatever its
    command code, the RandomToken field holds the token read from the first
    four payload bytes of that frame (the engine echoes the host's token),
    and only the RandomTokenSeed field receives a value drawn from
    [rand()], which is called exactly once.  The engine is taken after
    [rtc_preinit], with a token address that is not null. *)
Theorem rtc_loop_echoes_frame_token s :
  preinit_done s -> memoryRandomTokenAddress s <> 0 -> lastProtocolValid s = true ->
  RandomToken (rtc_loop s) = u32 (token_of_bytes (firstn 4 (payload (lastProtocol s)))) /\
  RandomTokenSeed (rtc_loop s) = u32 (rand_value (rand_calls s)) /\
  rand_calls (rtc_loop s) = S (rand_calls s).
Proof.
  intros Hpre Hnz Hvalid.
  destruct (rtc_loop_token_fields s Hpre Hnz Hvalid) as (Ht & Hs & Hr).
  unfold TPROTO_GET_RANDOM_TOKEN in Ht. auto.
Qed.

(** C1, as amended: for every staged frame, recognised or not, the pass of
    [rtc_loop] writes a value drawn from [rand()] to RandomTokenSeed and
    the token carried by the frame to RandomToken; RandomToken differs
    from its value before the pass exactly when the frame's token differs
    from that value. *)
Theorem rtc_loop_token_refresh s :
  preinit_done s -> memoryRandomTokenAddress s <> 0 -> lastProtocolValid s = true ->
  RandomTokenSeed (rtc_loop s) = u32 (rand_value (rand_calls s)) /\
  RandomToken (rtc_loop s) = TPROTO_GET_RANDOM_TOKEN (payload (lastProtocol s)) /\
  (RandomToken (rtc_loop s) <> RandomToken s <->
   TPROTO_GET_RANDOM_TOKEN (payload (lastProtocol s)) <> RandomToken s).
Proof.
  intros Hpre Hnz Hvalid.
  destruct (rtc_loop_token_fields s Hpre Hnz Hvalid) as (Ht & Hs & Hr).
  rewrite Ht. repeat split; auto.
Qed.

(** C5: a frame whose checksum does not match is dropped by the interrupt
    handler with no change of state: the shared memory, the staged frame
    and its flag are as before, and the main loop does what it would have
    done without the frame. *)
Theorem checksum_error_drops_frame addr frame s :
  final_checksum frame <> protocol_checksum frame ->
  rtc_dma_irq_handler_lookup addr (Some frame) s = Some s /\
  (forall s', rtc_dma_irq_handler_lookup addr (Some frame) s = Some s' ->
     memory s' = memory s /\ lastProtocol s' = lastProtocol s /\
     lastProtocolValid s' = lastProtocolValid s /\ rtc_loop s' = rtc_loop s).
Proof.
  intros Hsum.
  assert (Hdrop : rtc_dma_irq_handler_lookup addr (Some frame) s = Some s).
  { unfold rtc_dma_irq_handler_lookup, tprotocol_parse.
    apply Z.eqb_neq in Hsum. rewrite Hsum.
    destruct (negb (Z.land addr 65536 =? 0)); reflexivity. }
  split; [exact Hdrop |].
  intros s' Hs'. rewrite Hdrop in Hs'. injection Hs' as <-. repeat split.
Qed.

(** C6: [handle_protocol_command] copies [min(payload_size, MAX)] bytes,
    never more than the capacity of the two arrays, whatever the length
    field says, and always succeeds: the staged payload keeps its capacity,
    its first bytes come from the frame and the rest is what it was. *)
Theorem handle_protocol_command_clamps protocol s :
  0 <= MAX_PROTOCOL_PAYLOAD_SIZE ->
  payload_capacity protocol -> payload_capacity (lastProtocol s) ->
  clamped_size protocol = Z.min (u16 (payload_size protocol)) MAX_PROTOCOL_PAYLOAD_SIZE /\
  0 <= clamped_size protocol <= MAX_PROTOCOL_PAYLOAD_SIZE /\
  exists s',
    handle_protocol_command protocol s = Some s' /\
    payload (lastProtocol s') =
      firstn (Z.to_nat (clamped_size protocol)) (payload protocol) ++
      skipn (Z.to_nat (clamped_size protocol)) (payload (lastProtocol s)) /\
    payload_capacity (lastProtocol s') /\
    lastProtocolValid s' = true.
Proof.
  intros Hmax Hsrc Hdst.
  pose proof (clamped_size_bounds protocol Hmax) as Hc.
  pose proof (u16_range (payload_size protocol)) as Hr.
  split; [exact Hc |]. split; [lia |].
  destruct (handle_protocol_command_stages protocol s Hmax Hsrc Hdst)
    as (s' & Hs' & Hpl & _ & _ & Hcap & Hflag & _).
  exists s'. auto.
Qed.

(** *** A pass with interrupts *)

(** The [switch] is the case of the command code it reads, on the words
    of the same frame. *)
Lemma rtc_command_as_case s :
  rtc_command s =
  rtc_command_case (command_id (lastProtocol s))
    (TPROTO_GET_PAYLOAD_PARAM32 (payload (lastProtocol s)) 4)
    (TPROTO_GET_PAYLOAD_PARAM32 (payload (lastProtocol s)) 8) s.
Proof. reflexivity. Qed.

(** Restaging, and the steps that stay apart from it. *)
Lemma restaged_self s : restaged (lastProtocol s) (lastProtocolValid s) s = s.
Proof. destruct s. reflexivity. Qed.

Lemma restaged_restaged lp b lp' b' s :
  restaged lp b (restaged lp' b' s) = restaged lp b s.
Proof. reflexivity. Qed.

Lemma apart_case id p1 p2 : apart_from_staging (rtc_command_case id p1 p2).
Proof.
  intros lp b s. unfold rtc_command_case.
  repeat match goal with |- context [if ?c then _ else _] => destruct c end;
    try reflexivity.
  unfold set_ikb_datetime_msg, rtc_get_datetime, restaged.
  cbn [hw_rtc set_lastProtocolValid set_lastProtocol].
  destruct (hw_rtc s); reflexivity.
Qed.

Lemma apart_publish T : apart_from_staging (rtc_publish_token T).
Proof.
  intros lp b s. unfold rtc_publish_token, restaged.
  cbn [memoryRandomTokenAddress set_lastProtocolValid set_lastProtocol].
  destruct (negb (memoryRandomTokenAddress s =? 0)); reflexivity.
Qed.

(** What the handler does to a state: it restages, with a buffer of the
    declared capacity. *)
Lemma handler_restages addr raw s :
  0 <= MAX_PROTOCOL_PAYLOAD_SIZE ->
  (forall f, raw = Some f -> payload_capacity f) ->
  payload_capacity (lastProtocol s) ->
  exists lp b,
    rtc_dma_irq_handler_lookup addr raw s = Some (restaged lp b s) /\
    payload_capacity lp /\
    (forall x, lastProtocol x = lastProtocol s -> lastProtocolValid x = lastProtocolValid s ->
     rtc_dma_irq_handler_lookup addr raw x = Some (restaged lp b x)).
Proof.
  intros Hmax Hraw Hcap.
  assert (Hsame : exists lp b, Some s = Some (restaged lp b s) /\ payload_capacity lp /\
            forall x, lastProtocol x = lastProtocol s ->
                      lastProtocolValid x = lastProtocolValid s ->
                      Some x = Some (restaged lp b x)).
  { exists (lastProtocol s), (lastProtocolValid s). rewrite restaged_self.
    split; [reflexivity |]. split; [exact Hcap |].
    intros x <- <-. rewrite restaged_self. reflexivity. }
  unfold rtc_dma_irq_handler_lookup, tprotocol_parse.
  destruct (negb (Z.land addr 65536 =? 0)); [| exact Hsame].
  destruct raw as [f |]; [| exact Hsame].
  destruct (final_checksum f =? protocol_checksum f); [| exact Hsame].
  destruct (handle_protocol_command_stages f s Hmax (Hraw f eq_refl) Hcap)
    as (s' & Hs' & _ & _ & _ & Hcap' & _).
  unfold handle_protocol_command in *.
  destruct (memcpy _ _ _) as [bytes |] eqn:Hm; [| discriminate].
  injection Hs' as <-. cbn [lastProtocol set_lastProtocolValid set_lastProtocol] in Hcap'.
  eexists _, true. split; [reflexivity |]. split; [exact Hcap' |].
  intros x Hx _. rewrite Hx, Hm. reflexivity.
Qed.

Lemma run_irqs_restages irqs : forall s,
  0 <= MAX_PROTOCOL_PAYLOAD_SIZE ->
  (forall a f, In (a, Some f) irqs -> payload_capacity f) ->
  payload_capacity (lastProtocol s) ->
  exists lp b,
    run_irqs irqs s = Some (restaged lp b s) /\ payload_capacity lp /\
    (forall x, lastProtocol x = lastProtocol s -> lastProtocolValid x = lastProtocolValid s ->
     run_irqs irqs x = Some (restaged lp b x)).
Proof.
  induction irqs as [| [addr raw] irqs IH]; intros s Hmax Hraw Hcap.
  - exists (lastProtocol s), (lastProtocolValid s). rewrite restaged_self.
    split; [reflexivity |]. split; [exact Hcap |].
    intros x <- <-. rewrite restaged_self. reflexivity.
  - destruct (handler_restages addr raw s Hmax) as (lp & b & Hh & Hc & Hx); [| exact Hcap |].
    { intros f ->. apply (Hraw addr f). left. reflexivity. }
    destruct (IH (restaged lp b s) Hmax) as (lp2 & b2 & Hr & Hc2 & Hx2).
    { intros a f Hin. apply (Hraw a f). right. exact Hin. }
    { exact Hc. }
    exists lp2, b2. cbn [run_irqs]. rewrite Hh, Hr.
    split; [reflexivity |]. split; [exact Hc2 |].
    intros x H1 H2. rewrite (Hx x H1 H2). rewrite (Hx2 (restaged lp b x)) by reflexivity.
    reflexivity.
Qed.

(** An interrupt before a step that stays apart from the staging gives
    the same as the interrupt after it: the places of [irq_slot] are all
    that matter. *)
Lemma run_irqs_commutes irqs f s :
  0 <= MAX_PROTOCOL_PAYLOAD_SIZE ->
  (forall a fr, In (a, Some fr) irqs -> payload_capacity fr) ->
  payload_capacity (lastProtocol s) ->
  apart_from_staging f ->
  lastProtocol (f s) = lastProtocol s -> lastProtocolValid (f s) = lastProtocolValid s ->
  run_irqs irqs (f s) = option_map f (run_irqs irqs s).
Proof.
  intros Hmax Hraw Hcap Hf H1 H2.
  destruct (run_irqs_restages irqs s Hmax Hraw Hcap) as (lp & b & Hr & _ & Hx).
  rewrite (Hx (f s) H1 H2), Hr. cbn [option_map]. rewrite Hf. reflexivity.
Qed.

(** The case and the tail leave the staged frame and its flag alone. *)
Lemma case_keeps_staging id p1 p2 s :
  lastProtocol (rtc_command_case id p1 p2 s) = lastProtocol s /\
  lastProtocolValid (rtc_command_case id p1 p2 s) = lastProtocolValid s.
Proof.
  unfold rtc_command_case.
  repeat match goal with |- context [if ?c then _ else _] => destruct c end;
    try (split; reflexivity).
  destruct (same_statics_ikb (memorySharedAddress s) RTCEMUL_DATETIME_BCD RTCEMUL_Y2K_PATCH
              RTCEMUL_DATETIME_MSDOS
              (s16 (GET_SHARED_VAR SHARED_VARIABLE_SVERSION (memorySharedAddress s)
                      RTCEMUL_SHARED_VARIABLES (memory s)))
              (y2kPatchEnabled s) s) as (H1 & H2 & _).
  split; assumption.
Qed.

Lemma publish_keeps_staging T s :
  lastProtocol (rtc_publish_token T s) = lastProtocol s /\
  lastProtocolValid (rtc_publish_token T s) = lastProtocolValid s.
Proof. destruct (same_statics_publish T s) as (H1 & H2 & _). split; assumption. Qed.

(** Without an interrupt the pass is [rtc_loop]. *)
Lemma rtc_loop_no_irq s : rtc_loop_interrupted no_irq s = Some (rtc_loop s).
Proof.
  unfold rtc_loop_interrupted, no_irq, rtc_loop, rtc_loop_process. cbn [run_irqs app mbind option_bind].
  destruct (lastProtocolValid s); reflexivity.
Qed.

(** Whatever the interrupts of a pass are, the pass ends with the flag
    off, and the pass after it finds nothing to do. *)
Lemma rtc_loop_interrupted_ends irqs s :
  0 <= MAX_PROTOCOL_PAYLOAD_SIZE ->
  (forall x a f, In (a, Some f) (irqs x) -> payload_capacity f) ->
  payload_capacity (lastProtocol s) ->
  exists s1, rtc_loop_interrupted irqs s = Some s1 /\ lastProtocolValid s1 = false /\
             rtc_loop s1 = s1.
Proof.
  intros Hmax Hraw Hcap. unfold rtc_loop_interrupted.
  assert (Hend : forall x, exists s1, Some (rtc_loop_clear x) = Some s1 /\
                   lastProtocolValid s1 = false /\ rtc_loop s1 = s1).
  { intros x. eexists. split; [reflexivity |]. split; [reflexivity |].
    apply rtc_loop_idle. reflexivity. }
  destruct (run_irqs_restages (irqs BeforeTest) s Hmax (Hraw BeforeTest) Hcap)
    as (lp0 & b0 & -> & Hc0 & _). cbn [mbind option_bind].
  destruct (lastProtocolValid (restaged lp0 b0 s)).
  - destruct (run_irqs_restages (irqs BeforeTokenRead) (restaged lp0 b0 s) Hmax
                (Hraw BeforeTokenRead) Hc0) as (lp1 & b1 & -> & Hc1 & _).
    cbn [mbind option_bind]. rewrite restaged_restaged.
    destruct (run_irqs_restages (irqs BeforeSwitch) (restaged lp1 b1 s) Hmax
                (Hraw BeforeSwitch) Hc1) as (lp2 & b2 & -> & Hc2 & _).
    cbn [mbind option_bind]. rewrite restaged_restaged.
    destruct (run_irqs_restages (irqs BeforeFirstParam) (restaged lp2 b2 s) Hmax
                (Hraw BeforeFirstParam) Hc2) as (lp3 & b3 & -> & Hc3 & _).
    cbn [mbind option_bind]. rewrite restaged_restaged.
    destruct (run_irqs_restages (irqs BeforeSecondParam) (restaged lp3 b3 s) Hmax
                (Hraw BeforeSecondParam) Hc3) as (lp4 & b4 & -> & Hc4 & _).
    cbn [mbind option_bind]. rewrite restaged_restaged.
    match goal with |- context [run_irqs (irqs BeforeTokenWrite) ?x] =>
      destruct (run_irqs_restages (irqs BeforeTokenWrite) x Hmax (Hraw BeforeTokenWrite))
        as (lp5 & b5 & -> & Hc5 & _) end.
    { destruct (case_keeps_staging (command_id (lastProtocol (restaged lp2 b2 s)))
                  (TPROTO_GET_PAYLOAD_PARAM32 (payload (lastProtocol (restaged lp3 b3 s))) 4)
                  (TPROTO_GET_PAYLOAD_PARAM32 (payload (lastProtocol (restaged lp4 b4 s))) 8)
                  (restaged lp4 b4 s)) as [-> _]. exact Hc4. }
    cbn [mbind option_bind].
    match goal with |- context [run_irqs (irqs BeforeClear) ?x] =>
      destruct (run_irqs_restages (irqs BeforeClear) x Hmax (Hraw BeforeClear))
        as (lp6 & b6 & -> & Hc6 & _) end.
    { match goal with |- context [rtc_publish_token ?T ?x] =>
        destruct (publish_keeps_staging T x) as [-> _] end. exact Hc5. }
    cbn [mbind option_bind]. apply Hend.
  - match goal with |- context [run_irqs ?l ?x] =>
      destruct (run_irqs_restages l x Hmax) as (lp1 & b1 & -> & _ & _) end.
    { intros a f Hin. rewrite !in_app_iff in Hin.
      destruct Hin as [Hin | [Hin | [Hin | [Hin | [Hin | Hin]]]]];
        eapply Hraw; exact Hin. }
    { exact Hc0. }
    cbn [mbind option_bind]. apply Hend.
Qed.

(** The handler on a frame that it accepts. *)
Lemma handler_stages addr frame s s' x :
  Z.land addr 0x00010000 <> 0 -> final_checksum frame = protocol_checksum frame ->
  handle_protocol_command frame s = Some s' ->
  lastProtocol x = lastProtocol s ->
  rtc_dma_irq_handler_lookup addr (Some frame) x =
    Some (restaged (lastProtocol s') true x).
Proof.
  intros Hbit Hsum Hs' Hx.
  unfold rtc_dma_irq_handler_lookup, tprotocol_parse.
  apply Z.eqb_neq in Hbit. rewrite Hbit. cbn [negb].
  apply Z.eqb_eq in Hsum. rewrite Hsum.
  unfold handle_protocol_command in *. rewrite Hx.
  destruct (memcpy _ _ _) as [bytes |]; [| discriminate].
  injection Hs' as <-. reflexivity.
Qed.

(** Staging a frame is a restaging with the flag on. *)
Lemma staged_is_restaged frame s s' :
  handle_protocol_command frame s = Some s' -> s' = restaged (lastProtocol s') true s.
Proof.
  unfold handle_protocol_command. destruct (memcpy _ _ _) as [bytes |]; [| discriminate].
  intros H. injection H as <-. reflexivity.
Qed.

Lemma rtc_loop_clear_restaged lp b s :
  rtc_loop_clear (restaged lp b s) = set_lastProtocol lp (rtc_loop_clear s).
Proof. reflexivity. Qed.

(** One accepted frame at one place of a pass. *)
Lemma rtc_loop_one_irq slot addr frame s s' :
  Z.land addr 0x00010000 <> 0 -> final_checksum frame = protocol_checksum frame ->
  handle_protocol_command frame s = Some s' ->
  rtc_loop_interrupted (one_irq slot addr (Some frame)) s =
  Some
    (if lastProtocolValid s then
       match slot with
       | BeforeTest | BeforeTokenRead => rtc_loop s'
       | BeforeSwitch =>
           rtc_loop_clear
             (rtc_publish_token (TPROTO_GET_RANDOM_TOKEN (payload (lastProtocol s)))
                (rtc_command s'))
       | BeforeFirstParam =>
           rtc_loop_clear
             (rtc_publish_token (TPROTO_GET_RANDOM_TOKEN (payload (lastProtocol s)))
                (rtc_command_case (command_id (lastProtocol s))
                   (TPROTO_GET_PAYLOAD_PARAM32 (payload (lastProtocol s')) 4)
                   (TPROTO_GET_PAYLOAD_PARAM32 (payload (lastProtocol s')) 8) s'))
       | BeforeSecondParam =>
           rtc_loop_clear
             (rtc_publish_token (TPROTO_GET_RANDOM_TOKEN (payload (lastProtocol s)))
                (rtc_command_case (command_id (lastProtocol s))
                   (TPROTO_GET_PAYLOAD_PARAM32 (payload (lastProtocol s)) 4)
                   (TPROTO_GET_PAYLOAD_PARAM32 (payload (lastProtocol s')) 8) s'))
       | BeforeTokenWrite | BeforeClear => set_lastProtocol (lastProtocol s') (rtc_loop s)
       end
     else
       match slot with
       | BeforeTest => rtc_loop s'
       | _ => rtc_loop_clear s'
       end).
Proof.
  intros Hbit Hsum Hs'.
  pose proof (staged_is_restaged frame s s' Hs') as Es'.
  assert (Hv' : lastProtocolValid s' = true) by (rewrite Es'; reflexivity).
  assert (Hst : forall x, lastProtocol x = lastProtocol s ->
            rtc_dma_irq_handler_lookup addr (Some frame) x =
            Some (restaged (lastProtocol s') true x)).
  { intros x Hx. apply (handler_stages addr frame s s' x Hbit Hsum Hs' Hx). }
  assert (Hs : rtc_dma_irq_handler_lookup addr (Some frame) s = Some s').
  { rewrite (Hst s eq_refl), <- Es'. reflexivity. }
  assert (Hfull : Some (rtc_loop_clear
                          (rtc_publish_token
                             (TPROTO_GET_RANDOM_TOKEN (payload (lastProtocol s')))
                             (rtc_command_case (command_id (lastProtocol s'))
                                (TPROTO_GET_PAYLOAD_PARAM32 (payload (lastProtocol s')) 4)
                                (TPROTO_GET_PAYLOAD_PARAM32 (payload (lastProtocol s')) 8)
                                s'))) = Some (rtc_loop s')).
  { unfold rtc_loop, rtc_loop_process. rewrite Hv'. reflexivity. }
  unfold rtc_loop_interrupted, one_irq.
  destruct (lastProtocolValid s) eqn:Hv; destruct slot;
    cbn [irq_slot_eqb app run_irqs mbind option_bind]; rewrite ?Hv;
    cbn [mbind option_bind].
  - rewrite Hs. cbn [mbind option_bind]. rewrite Hv'. exact Hfull.
  - rewrite Hs. cbn [mbind option_bind]. exact Hfull.
  - rewrite Hs. cbn [mbind option_bind]. reflexivity.
  - rewrite Hs. cbn [mbind option_bind]. reflexivity.
  - rewrite Hs. cbn [mbind option_bind]. reflexivity.
  - rewrite Hst by apply case_keeps_staging. cbn [mbind option_bind].
    rewrite apart_publish, rtc_loop_clear_restaged.
    unfold rtc_loop, rtc_loop_process. rewrite Hv. reflexivity.
  - rewrite Hst.
    2:{ match goal with |- context [rtc_publish_token ?T ?x] =>
          destruct (publish_keeps_staging T x) as [-> _] end.
        apply case_keeps_staging. }
    cbn [mbind option_bind]. rewrite rtc_loop_clear_restaged.
    unfold rtc_loop, rtc_loop_process. rewrite Hv. reflexivity.
  - rewrite Hs. cbn [mbind option_bind]. rewrite Hv'. exact Hfull.
  - rewrite Hs. reflexivity.
  - rewrite Hs. reflexivity.
  - rewrite Hs. reflexivity.
  - rewrite Hs. reflexivity.
  - rewrite Hs. reflexivity.
  - rewrite Hs. reflexivity.
Qed.

(** C9, as amended: [rtc_loop] tests the frame-ready flag on entry and
    clears it as its last statement, with the flag still set while the
    staged frame is interpreted.  Whatever the interrupt handler stages
    at whatever places of a pass has its flag cleared by that pass, and
    the pass after it interprets nothing.  A second frame that arrives
    before the token is read takes the place of the first; one that
    arrives between the token read and the [switch] is interpreted in
    that pass under the token of the first; one that arrives inside a
    case gives its words to the command of the first; one that arrives
    after the [switch] reaches the staging buffer only and is lost, as is
    a frame that arrives after a test that found the flag off. *)
Theorem rtc_loop_clears_flag_last irqs slot addr frame s :
  0 <= MAX_PROTOCOL_PAYLOAD_SIZE ->
  (forall x a f, In (a, Some f) (irqs x) -> payload_capacity f) ->
  payload_capacity frame -> payload_capacity (lastProtocol s) ->
  lastProtocolValid (rtc_loop_process s) = lastProtocolValid s /\
  lastProtocolValid (rtc_loop s) = false /\
  rtc_loop_interrupted no_irq s = Some (rtc_loop s) /\
  (exists s1, rtc_loop_interrupted irqs s = Some s1 /\ lastProtocolValid s1 = false /\
              rtc_loop s1 = s1) /\
  exists s' s1,
    handle_protocol_command frame s = Some s' /\
    rtc_loop_interrupted (one_irq slot addr (Some frame)) s = Some s1 /\
    lastProtocolValid s1 = false /\ rtc_loop s1 = s1 /\
    (Z.land addr 0x00010000 <> 0 -> final_checksum frame = protocol_checksum frame ->
     lastProtocol s1 = lastProtocol s' /\
     command_id (lastProtocol s1) = command_id frame /\
     s1 =
       if lastProtocolValid s then
         match slot with
         | BeforeTest | BeforeTokenRead => rtc_loop s'
         | BeforeSwitch =>
             rtc_loop_clear
               (rtc_publish_token (TPROTO_GET_RANDOM_TOKEN (payload (lastProtocol s)))
                  (rtc_command s'))
         | BeforeFirstParam =>
             rtc_loop_clear
               (rtc_publish_token (TPROTO_GET_RANDOM_TOKEN (payload (lastProtocol s)))
                  (rtc_command_case (command_id (lastProtocol s))
                     (TPROTO_GET_PAYLOAD_PARAM32 (payload (lastProtocol s')) 4)
                     (TPROTO_GET_PAYLOAD_PARAM32 (payload (lastProtocol s')) 8) s'))
         | BeforeSecondParam =>
             rtc_loop_clear
               (rtc_publish_token (TPROTO_GET_RANDOM_TOKEN (payload (lastProtocol s)))
                  (rtc_command_case (command_id (lastProtocol s))
                     (TPROTO_GET_PAYLOAD_PARAM32 (payload (lastProtocol s)) 4)
                     (TPROTO_GET_PAYLOAD_PARAM32 (payload (lastProtocol s')) 8) s'))
         | BeforeTokenWrite | BeforeClear =>
             set_lastProtocol (lastProtocol s') (rtc_loop s)
         end
       else
         match slot with
         | BeforeTest => rtc_loop s'
         | _ => rtc_loop_clear s'
         end).
Proof.
  intros Hmax Hraw Hsrc Hdst.
  destruct (same_statics_process s) as (Hlp & Hflag & _).
  split; [exact Hflag |]. split; [reflexivity |].
  split; [apply rtc_loop_no_irq |].
  split; [apply (rtc_loop_interrupted_ends irqs s Hmax Hraw Hdst) |].
  destruct (handle_protocol_command_stages frame s Hmax Hsrc Hdst)
    as (s' & Hs' & _ & Hid & _).
  destruct (rtc_loop_interrupted_ends (one_irq slot addr (Some frame)) s Hmax) as (s1 & Hs1 & Hoff & Hidle).
  { intros x a f Hin. unfold one_irq in Hin.
    destruct (irq_slot_eqb x slot); [| destruct Hin].
    destruct Hin as [Hin | []]. injection Hin as _ <-. exact Hsrc. }
  { exact Hdst. }
  exists s', s1. split; [exact Hs' |]. split; [exact Hs1 |].
  split; [exact Hoff |]. split; [exact Hidle |].
  intros Hbit Hsum.
  rewrite (rtc_loop_one_irq slot addr frame s s' Hbit Hsum Hs') in Hs1.
  injection Hs1 as Hs1.
  assert (Hbuf : lastProtocol s1 = lastProtocol s').
  { rewrite <- Hs1.
    assert (Hl : forall x, lastProtocol (rtc_loop x) = lastProtocol x).
    { intros x. destruct (same_statics_process x) as (H & _). exact H. }
    assert (Hc : forall id p1 p2 T,
              lastProtocol (rtc_loop_clear (rtc_publish_token T (rtc_command_case id p1 p2 s'))) =
              lastProtocol s').
    { intros id p1 p2 T. cbn [rtc_loop_clear lastProtocol set_lastProtocolValid].
      destruct (publish_keeps_staging T (rtc_command_case id p1 p2 s')) as [-> _].
      apply case_keeps_staging. }
    destruct (lastProtocolValid s); destruct slot;
      first [apply Hl | apply Hc | reflexivity]. }
  split; [exact Hbuf |]. split; [rewrite Hbuf; exact Hid |]. symmetry. exact Hs1.
Qed.

End EngineClaims.

(** ** The Dallas magic sequence *)

Lemma land1_testbit hex k :
  negb (Z.land (Z.shiftr hex k) 1 =? 0) = Z.testbit hex k.
Proof.
  rewrite Z.testbit_odd.
  replace (Z.land (Z.shiftr hex k) 1) with (Z.shiftr hex k mod 2).
  2:{ symmetry. apply (Z.land_ones (Z.shiftr hex k) 1). lia. }
  rewrite Zmod_odd. destruct (Z.odd (Z.shiftr hex k)); reflexivity.
Qed.

Lemma fold_insert_lookup (f : nat -> Z) (g : list Z -> nat -> list Z) :
  (forall l i, g l i = <[i := f i]> l) ->
  forall n start (l : list Z) (i : nat),
    fold_left g (seq start n) l !! i =
    if decide ((start <= i < start + n)%nat /\ (i < length l)%nat)
    then Some (f i) else l !! i.
Proof.
  intros Hg. induction n as [| n IH]; intros start l i.
  - simpl. destruct (decide _) as [[? ?] | ?]; [lia | reflexivity].
  - cbn [seq fold_left]. rewrite IH, Hg, length_insert.
    destruct (decide ((S start <= i < S start + n)%nat /\ (i < length l)%nat))
      as [[Hr Hl] | Hn].
    + destruct (decide _) as [? | Hc]; [reflexivity | lia].
    + destruct (decide (i = start)) as [-> | Hne].
      * destruct (decide ((start <= start < start + S n)%nat /\ (start < length l)%nat))
          as [[_ Hl] | Hc].
        -- apply list_lookup_insert_eq. exact Hl.
        -- rewrite list_insert_ge by lia. reflexivity.
      * rewrite list_lookup_insert_ne by congruence.
        destruct (decide _) as [[? ?] | ?]; [lia | reflexivity].
Qed.

Lemma fold_insert_length (g : list Z -> nat -> list Z) :
  (forall l i, length (g l i) = length l) ->
  forall idxs (l : list Z), length (fold_left g idxs l) = length l.
Proof.
  intros Hg. induction idxs as [| i idxs IH]; intros l; simpl.
  - reflexivity.
  - rewrite IH. apply Hg.
Qed.

Lemma populateMagicSequence_lookup dc (sequence : list Z) hex (i : nat) :
  populateMagicSequence dc sequence hex !! i =
  if decide ((2 <= i < 66)%nat /\ (i < length sequence)%nat)
  then Some (if Z.testbit hex (Z.of_nat i - 2)
             then write_address_bit_one dc else write_address_bit_zero dc)
  else sequence !! i.
Proof.
  unfold populateMagicSequence.
  rewrite (fold_insert_lookup
             (fun i => if Z.testbit hex (Z.of_nat i - 2)
                       then write_address_bit_one dc else write_address_bit_zero dc)).
  - reflexivity.
  - intros l j. rewrite land1_testbit. destruct (Z.testbit hex (Z.of_nat j - 2)); reflexivity.
Qed.

Lemma populateMagicSequence_length dc (sequence : list Z) hex :
  length (populateMagicSequence dc sequence hex) = length sequence.
Proof.
  unfold populateMagicSequence. apply fold_insert_length.
  intros l i. destruct (negb _); apply length_insert.
Qed.

Section Dallas.
Context `{P : Platform}.

Lemma dallasClock_postinit_tail y2kPatch s :
  dallasClock (postinit_random_token (postinit_datetime (postinit_y2k y2kPatch s))) =
  dallasClock s.
Proof.
  assert (H1 : dallasClock (postinit_y2k y2kPatch s) = dallasClock s).
  { unfold postinit_y2k. destruct y2kPatch as [[| c r] |]; reflexivity. }
  assert (H2 : forall s0, dallasClock (postinit_datetime s0) = dallasClock s0).
  { intros s0. unfold postinit_datetime. apply same_statics_ikb. }
  assert (H3 : forall s0, dallasClock (postinit_random_token s0) = dallasClock s0).
  { intros s0. unfold postinit_random_token.
    destruct (negb (memoryRandomTokenAddress s0 =? 0)); reflexivity. }
  rewrite H3, H2, H1. reflexivity.
Qed.

(** C10: [populateMagicSequence], run by [rtc_postinit] for the Dallas
    type, leaves the first two of the 66 elements as they were and sets
    element [i], for [i] from 2 to 65, to the write-one encoding 0x3 when
    bit [i - 2] of 0x5ca33ac55ca33ac5 is 1 and to the write-zero encoding
    0x1 otherwise. *)
Theorem postinit_magic_sequence y2kPatch s (i : nat) :
  length (magic_sequence (dallasClock s)) = 66%nat ->
  let sequence :=
    magic_sequence (dallasClock (snd (rtc_postinit (Some "DALLAS"%string) y2kPatch s))) in
  length sequence = 66%nat /\
  ((i < 2)%nat -> sequence !! i = magic_sequence (dallasClock s) !! i) /\
  ((2 <= i <= 65)%nat ->
   sequence !! i =
   Some (if Z.testbit 0x5ca33ac55ca33ac5 (Z.of_nat i - 2) then 0x3 else 0x1)).
Proof.
  intros Hlen sequence. subst sequence. unfold rtc_postinit. cbn [snd].
  rewrite dallasClock_postinit_tail.
  unfold postinit_rtc_type. cbn [String.eqb Ascii.eqb Bool.eqb].
  unfold init_dallasClock.
  cbn [dallasClock set_dallasClock set_rtcTypeVar postinit_shared set_memory magic_sequence
       magic_sequence_hex write_address_bit_one write_address_bit_zero].
  rewrite populateMagicSequence_length, Hlen.
  split; [reflexivity |].
  split; intros Hi; rewrite populateMagicSequence_lookup, Hlen.
  - destruct (decide _) as [[? ?] | ?]; [lia | reflexivity].
  - destruct (decide _) as [? | ?]; [reflexivity | lia].
Qed.
End Dallas.

(** ** The datetime records and the Y2K patch *)

Lemma u8_idem x : u8 (u8 x) = u8 x.
Proof. unfold u8. apply Z.mod_mod. lia. Qed.

Lemma add_bcd_u8 a b : u8 (add_bcd a b) = add_bcd a b.
Proof. unfold add_bcd. apply u8_idem. Qed.

Section Y2K.

Context `{P : Platform}.

Lemma memory_get_datetime s : memory (rtc_get_datetime s) = memory s.
Proof. unfold rtc_get_datetime. destruct (hw_rtc s); reflexivity. Qed.

(** With the patch on, [set_ikb_datetime_msg] stores the patched year and
    does not touch the Y2K flag. *)
Lemma ikb_y2k_fields base g s :
  load8 (memory (set_ikb_datetime_msg base RTCEMUL_DATETIME_BCD RTCEMUL_Y2K_PATCH
                   RTCEMUL_DATETIME_MSDOS g true s))
        (u32 (base + RTCEMUL_DATETIME_BCD) + 0) =
    add_bcd (to_bcd (u8 (Z.rem (year (rtcTime (rtc_get_datetime s))) 100))) (to_bcd 70) /\
  load32 (memory (set_ikb_datetime_msg base RTCEMUL_DATETIME_BCD RTCEMUL_Y2K_PATCH
                    RTCEMUL_DATETIME_MSDOS g true s))
         (base + RTCEMUL_Y2K_PATCH) =
    load32 (memory s) (base + RTCEMUL_Y2K_PATCH).
Proof.
  unfold set_ikb_datetime_msg. rewrite u16_nonneg_test. cbn [andb memory set_memory].
  rewrite memory_get_datetime.
  unfold WRITE_LONGWORD_RAW, store32, store16, load32, load16.
  split.
  - mem_simp. apply add_bcd_u8.
  - mem_simp. reflexivity.
Qed.

Lemma publish_keeps_fields T s :
  preinit_done s ->
  load8 (memory (rtc_publish_token T s))
        (u32 (memorySharedAddress s + RTCEMUL_DATETIME_BCD) + 0) =
    load8 (memory s) (u32 (memorySharedAddress s + RTCEMUL_DATETIME_BCD) + 0) /\
  load32 (memory (rtc_publish_token T s)) (memorySharedAddress s + RTCEMUL_Y2K_PATCH) =
    load32 (memory s) (memorySharedAddress s + RTCEMUL_Y2K_PATCH).
Proof.
  intros [Htok Hseed]. unfold rtc_publish_token.
  destruct (negb (memoryRandomTokenAddress s =? 0)); [| split; reflexivity].
  cbn [rand memory set_memory set_rand_calls memoryRandomTokenAddress
       memoryRandomTokenSeedAddress].
  unfold TPROTO_SET_RANDOM_TOKEN. rewrite Htok, Hseed. split.
  - rewrite !load8_store32_ne by (intros; addr_solve). reflexivity.
  - rewrite !load32_store32_ne by (intros; addr_solve). reflexivity.
Qed.

Lemma postinit_token_keeps_fields s :
  preinit_done s ->
  load32 (memory (postinit_random_token s)) (memorySharedAddress s + RTCEMUL_Y2K_PATCH) =
    load32 (memory s) (memorySharedAddress s + RTCEMUL_Y2K_PATCH) /\
  same_statics s (postinit_random_token s).
Proof.
  intros [Htok Hseed]. unfold postinit_random_token.
  destruct (negb (memoryRandomTokenAddress s =? 0)); [| split; [reflexivity | repeat split]].
  cbn [rand memory set_memory set_rand_calls memoryRandomTokenAddress
       memoryRandomTokenSeedAddress].
  unfold TPROTO_SET_RANDOM_TOKEN. rewrite Htok, Hseed. split.
  - rewrite !load32_store32_ne by (intros; addr_solve). reflexivity.
  - repeat split.
Qed.

Lemma preinit_done_same s s' : same_statics s s' -> preinit_done s -> preinit_done s'.
Proof.
  intros (_ & _ & Hb & Ht & Hs & _) [H1 H2]. split; congruence.
Qed.

(** [rtc_postinit] with a Y2K setting that switches the patch on. *)
Lemma postinit_enables_y2k rtcType c r s :
  y2k_first_char c = true -> preinit_done s ->
  Y2kPatch (snd (rtc_postinit rtcType (Some (String c r)) s)) = 0xFFFFFFFF /\
  y2kPatchEnabled (snd (rtc_postinit rtcType (Some (String c r)) s)) = true /\
  preinit_done (snd (rtc_postinit rtcType (Some (String c r)) s)) /\
  hw_rtc (snd (rtc_postinit rtcType (Some (String c r)) s)) = hw_rtc s.
Proof.
  intros Hc Hpre. unfold rtc_postinit. cbn [snd].
  set (sa := postinit_rtc_type rtcType (postinit_shared s)).
  assert (Ha : memorySharedAddress sa = memorySharedAddress s /\
               memoryRandomTokenAddress sa = memoryRandomTokenAddress s /\
               memoryRandomTokenSeedAddress sa = memoryRandomTokenSeedAddress s /\
               hw_rtc sa = hw_rtc s).
  { subst sa. unfold postinit_rtc_type, postinit_shared.
    destruct rtcType as [value |]; [| repeat split].
    destruct (value =? "DALLAS")%string; [repeat split |].
    destruct (value =? "SIDECART")%string; repeat split. }
  destruct Ha as (Hab & Hat & Has & Hah).
  assert (Hprea : preinit_done sa).
  { destruct Hpre as [H1 H2]. split; congruence. }
  set (sb := postinit_y2k (Some (String c r)) sa).
  assert (Hb : y2kPatchEnabled sb = true /\
               load32 (memory sb) (memorySharedAddress sa + RTCEMUL_Y2K_PATCH) = 0xFFFFFFFF /\
               memorySharedAddress sb = memorySharedAddress sa /\
               memoryRandomTokenAddress sb = memoryRandomTokenAddress sa /\
               memoryRandomTokenSeedAddress sb = memoryRandomTokenSeedAddress sa /\
               hw_rtc sb = hw_rtc sa).
  { subst sb. unfold postinit_y2k. 
    cbn [y2kPatchEnabled set_y2kPatchEnabled set_memory memory memorySharedAddress
         memoryRandomTokenAddress memoryRandomTokenSeedAddress hw_rtc].
    rewrite Hc. unfold WRITE_LONGWORD_RAW.
    rewrite load32_store32_eq by reflexivity.
    repeat split. }
  destruct Hb as (Hby & Hbf & Hbb & Hbt & Hbs & Hbh).
  assert (Hpreb : preinit_done sb).
  { destruct Hprea as [H1 H2]. split; congruence. }
  set (sc := postinit_datetime sb).
  assert (Hsc : same_statics sb sc).
  { subst sc. unfold postinit_datetime. apply same_statics_ikb. }
  assert (Hcf : load32 (memory sc) (memorySharedAddress sb + RTCEMUL_Y2K_PATCH) =
                load32 (memory sb) (memorySharedAddress sb + RTCEMUL_Y2K_PATCH)).
  { subst sc. unfold postinit_datetime. rewrite Hby. apply ikb_y2k_fields. }
  assert (Hprec : preinit_done sc) by (eapply preinit_done_same; eauto).
  destruct (postinit_token_keeps_fields sc Hprec) as [Hdf Hsd].
  destruct Hsc as (_ & _ & Hcb & _ & _ & Hcy & Hch & _).
  destruct Hsd as (Hd1 & Hd2 & Hdb & Hdt & Hds & Hdy & Hdh & Hdd).
  unfold Y2kPatch. rewrite Hdb. rewrite Hdf. rewrite Hcb, Hcf, Hbb, Hbf.
  split; [reflexivity |]. split; [congruence |].
  split; [| congruence].
  eapply preinit_done_same; [| exact Hprec]. repeat split; assumption.
Qed.

Lemma handle_protocol_command_inv frame s s' :
  handle_protocol_command frame s = Some s' ->
  exists lp, s' = set_lastProtocolValid true (set_lastProtocol lp s) /\
             command_id lp = command_id frame.
Proof.
  unfold handle_protocol_command. destruct (memcpy _ _ _) as [bytes |]; [| discriminate].
  intros H. injection H as <-. eexists. split; reflexivity.
Qed.

(** C3, as amended: with the Y2K patch switched on by the settings,
    READ_TIME for a clock whose two-digit year is 5 stores the BCD year
    [add_bcd(to_bcd(5), to_bcd(70))] = 0x75: the constant of the code is
    (2000 - 1980) + (80 - 30) = 70.  The Y2kPatch flag, set to 0xFFFFFFFF
    by [rtc_postinit], is left as it is. *)
Theorem read_time_y2k_year rtcType c r t frame s s2 :
  preinit_done s ->
  y2k_first_char c = true ->
  hw_rtc s = Some t -> u8 (Z.rem (year t) 100) = 5 ->
  command_id frame = RTCEMUL_READ_TIME ->
  handle_protocol_command frame (snd (rtc_postinit rtcType (Some (String c r)) s)) = Some s2 ->
  DatetimeBcd (rtc_loop s2) 0 = add_bcd (to_bcd 5) (to_bcd 70) /\
  add_bcd (to_bcd 5) (to_bcd 70) = 0x75 /\
  Y2kPatch (rtc_loop s2) = 0xFFFFFFFF.
Proof.
  intros Hpre Hc Hhw Hyear Hid Hstage.
  pose proof (postinit_enables_y2k rtcType c r s Hc Hpre) as Hpost.
  revert Hpost Hstage. generalize (snd (rtc_postinit rtcType (Some (String c r)) s)).
  intros s1 (Hflag & Hen & Hpre1 & Hhw1) Hstage.
  rewrite Hhw in Hhw1. unfold Y2kPatch in Hflag.
  destruct (handle_protocol_command_inv frame s1 s2 Hstage) as (lp & Es2 & Hlp).
  assert (Hst : memorySharedAddress s2 = memorySharedAddress s1 /\
                memoryRandomTokenAddress s2 = memoryRandomTokenAddress s1 /\
                memoryRandomTokenSeedAddress s2 = memoryRandomTokenSeedAddress s1 /\
                y2kPatchEnabled s2 = y2kPatchEnabled s1 /\
                hw_rtc s2 = hw_rtc s1 /\ memory s2 = memory s1 /\
                lastProtocolValid s2 = true /\
                command_id (lastProtocol s2) = RTCEMUL_READ_TIME).
  { subst s2. rewrite <- Hid, <- Hlp. repeat split. }
  clear Es2 Hstage.
  destruct Hst as (Hb2 & Ht2 & Hs2 & Hen2 & Hhw2 & Hmem & Hvalid & Hcmdid).
  assert (Hpre2 : preinit_done s2).
  { destruct Hpre1 as [H1 H2]. split; congruence. }
  rewrite Hen in Hen2. rewrite Hhw1 in Hhw2.
  assert (Hcmd : rtc_command s2 =
                 set_ikb_datetime_msg (memorySharedAddress s2) RTCEMUL_DATETIME_BCD
                   RTCEMUL_Y2K_PATCH RTCEMUL_DATETIME_MSDOS
                   (s16 (GET_SHARED_VAR SHARED_VARIABLE_SVERSION (memorySharedAddress s2)
                           RTCEMUL_SHARED_VARIABLES (memory s2))) true s2).
  { unfold rtc_command. rewrite Hcmdid, Z.eqb_refl, Hen2. reflexivity. }
  assert (Hpre3 : preinit_done (rtc_command s2)).
  { eapply preinit_done_same; [apply same_statics_command | exact Hpre2]. }
  destruct (same_statics_command s2) as (_ & _ & Hb3 & _).
  destruct (publish_keeps_fields
              (TPROTO_GET_RANDOM_TOKEN (payload (lastProtocol s2))) (rtc_command s2) Hpre3)
    as [Hk8 Hk32].
  destruct (same_statics_publish
              (TPROTO_GET_RANDOM_TOKEN (payload (lastProtocol s2))) (rtc_command s2))
    as (_ & _ & Hb4 & _).
  destruct (ikb_y2k_fields (memorySharedAddress s2)
              (s16 (GET_SHARED_VAR SHARED_VARIABLE_SVERSION (memorySharedAddress s2)
                      RTCEMUL_SHARED_VARIABLES (memory s2))) s2) as [Hy8 Hy32].
  assert (Ht : rtcTime (rtc_get_datetime s2) = t).
  { unfold rtc_get_datetime. rewrite Hhw2. reflexivity. }
  rewrite Ht, Hyear in Hy8.
  unfold DatetimeBcd, Y2kPatch, rtc_loop, rtc_loop_clear, rtc_loop_process.
  rewrite Hvalid.
  cbn [memory memorySharedAddress set_lastProtocolValid].
  rewrite Hb4, Hb3. rewrite Hb3 in Hk8, Hk32.
  rewrite Hk8, Hk32, Hcmd, Hy8, Hy32, Hmem, Hb2.
  split; [reflexivity |]. split; [vm_compute; reflexivity |].
  exact Hflag.
Qed.

End Y2K.

(** ** The NTP synchronizer *)

Section NTP.
Context `{P : Platform}.

(** [ntpRecvCB] returns at once, with nothing changed, as soon as one of
    its checks fails. *)
Lemma ntpRecvCB_discards p addr port s :
  ntp_response_ok s p addr port = false -> ntpRecvCB (Some p) addr port s = s.
Proof.
  unfold ntp_response_ok, datagram_checks, ntpRecvCB. intros H.
  destruct (Z.of_nat (length p) =? NTP_MSG_LEN); [| reflexivity].
  destruct (ntp_ipaddr (netTime s) =? addr); [| reflexivity].
  destruct (port =? NTP_DEFAULT_PORT); [| reflexivity].
  destruct (u8 (Z.land (pbuf_get_at p 0) 7) =? 4); [| reflexivity].
  destruct (u8 (pbuf_get_at p 1) =? 0); [reflexivity | discriminate].
Qed.

(** A response with stratum 0 changes neither the clock state nor the
    hardware RTC. *)
Lemma ntpRecvCB_stratum_0 p addr port s :
  u8 (pbuf_get_at p 1) = 0 -> ntpRecvCB (Some p) addr port s = s.
Proof.
  intros H. apply ntpRecvCB_discards. unfold ntp_response_ok, datagram_checks.
  rewrite H. cbn [Z.eqb negb]. rewrite !andb_false_r. reflexivity.
Qed.

Lemma rtcTime_hostFoundCB name ipaddr s : rtcTime (hostFoundCB name ipaddr s) = rtcTime s.
Proof.
  unfold hostFoundCB. destruct name; [| reflexivity].
  destruct ipaddr; [destruct (negb _) |]; reflexivity.
Qed.

Lemma rtcTime_deliver_event e s :
  never_commits e = true -> rtcTime (deliver_event s e) = rtcTime s.
Proof.
  destruct e as [name ipaddr | [p |] addr port]; cbn [never_commits deliver_event]; intros H.
  - apply rtcTime_hostFoundCB.
  - rewrite ntpRecvCB_discards; [reflexivity |].
    unfold ntp_response_ok. apply negb_true_iff in H. rewrite H. apply andb_false_r.
  - reflexivity.
Qed.

Lemma rtcTime_deliver_dns es s :
  forallb never_commits es = true -> rtcTime (deliver es s) = rtcTime s.
Proof.
  unfold deliver. revert s. induction es as [| e es IH]; intros s H; cbn [fold_left].
  - reflexivity.
  - cbn [forallb] in H. apply andb_true_iff in H. destruct H as [He Hes].
    rewrite IH by exact Hes. apply rtcTime_deliver_event. exact He.
Qed.

Lemma rtcTime_set_internal_rtc a b s : rtcTime (set_internal_rtc a b s) = rtcTime s.
Proof. unfold set_internal_rtc. destruct (negb a), (negb b); reflexivity. Qed.

Lemma rtcTime_dns_gethostbyname r s : rtcTime (dns_gethostbyname r s) = rtcTime s.
Proof. destruct r; reflexivity. Qed.

Lemma rtcTime_poll_body e d s :
  no_commit e = true -> rtcTime (snd (ntp_poll_body e d s)) = rtcTime s.
Proof.
  unfold no_commit, ntp_poll_body. intros H. apply andb_true_iff in H.
  destruct H as [Hp Hd].
  set (s1 := deliver (poll_events e) s).
  assert (H1 : rtcTime s1 = rtcTime s) by (apply rtcTime_deliver_dns; exact Hp).
  destruct (ntp_server_found (netTime s1) && d).
  - destruct (negb d); cbn [snd].
    + match goal with |- context [if ?c then _ else _] => destruct c end; cbn [snd rtcTime set_netTime];
        rewrite rtcTime_deliver_dns, rtcTime_dns_gethostbyname, rtcTime_set_internal_rtc by exact Hd;
        exact H1.
    + match goal with |- context [if ?c then _ else _] => destruct c end; cbn [snd rtcTime set_netTime];
        rewrite rtcTime_set_internal_rtc; exact H1.
  - destruct (negb d); cbn [snd].
    + match goal with |- context [if ?c then _ else _] => destruct c end; cbn [snd rtcTime set_netTime];
        rewrite rtcTime_deliver_dns, rtcTime_dns_gethostbyname by exact Hd; exact H1.
    + match goal with |- context [if ?c then _ else _] => destruct c end; cbn [snd rtcTime set_netTime];
        exact H1.
Qed.

(** The loop ends once the schedule shows the deadline elapsed. *)
Lemma ntp_wait_terminates env :
  deadline_observed env = true -> forall d s, exists s', ntp_wait env d s = Some s'.
Proof.
  unfold deadline_observed. induction env as [| e env IH]; intros H d s.
  - discriminate.
  - cbn [existsb] in H. cbn [ntp_wait].
    destruct (Z.ltb_spec 0 (time_left_us e)) as [Hlt | Hge]; cbn [andb].
    + destruct (year (rtcTime s) =? 0); [| eexists; reflexivity].
      destruct (ntp_poll_body e d s) as [d' s1]. apply IH.
      apply orb_true_iff in H. destruct H as [H | H]; [| exact H].
      apply Z.leb_le in H. lia.
    + eexists. reflexivity.
Qed.

(** Without a datagram the loop leaves the clock state as it was. *)
Lemma ntp_wait_no_commit env :
  forallb no_commit env = true ->
  forall d s s', ntp_wait env d s = Some s' -> rtcTime s' = rtcTime s.
Proof.
  induction env as [| e env IH]; intros Hall d s s' H.
  - discriminate.
  - cbn [forallb] in Hall. apply andb_true_iff in Hall. destruct Hall as [He Henv].
    cbn [ntp_wait] in H.
    destruct ((0 <? time_left_us e) && (year (rtcTime s) =? 0)).
    + pose proof (rtcTime_poll_body e d s He) as Hb.
      destruct (ntp_poll_body e d s) as [d' s1]. cbn [snd] in Hb.
      rewrite <- Hb. eapply IH; eauto.
    + injection H as <-. reflexivity.
Qed.

Lemma rtcTime_ntp_setup cfg pcb_ok s : rtcTime (ntp_setup cfg pcb_ok s) = rtcTime s.
Proof.
  unfold ntp_setup, ntp_init.
  destruct (cfg_utc_offset cfg); destruct (negb pcb_ok); reflexivity.
Qed.

(** *** The loop on the clock *)

Lemma ntp_turns_cons e env d s :
  ntp_turns (e :: env) d s =
  ntp_turns env (fst (ntp_poll_body e d s)) (snd (ntp_poll_body e d s)).
Proof.
  unfold ntp_turns. cbn [fold_left fst snd].
  destruct (ntp_poll_body e d s); reflexivity.
Qed.

(** Where the loop ends: at the first test that finds the time elapsed or
    the year set; the state there is the one after the bodies of all the
    turns before. *)
Lemma ntp_wait_exit_index env : forall d s,
  deadline_observed env = true ->
  exists (k : nat) e,
    env !! k = Some e /\
    (forall (j : nat) e_j, (j < k)%nat -> env !! j = Some e_j ->
       0 < time_left_us e_j /\ year (rtcTime (snd (ntp_turns (firstn j env) d s))) = 0) /\
    (time_left_us e <= 0 \/ year (rtcTime (snd (ntp_turns (firstn k env) d s))) <> 0) /\
    ntp_wait env d s = Some (snd (ntp_turns (firstn k env) d s)).
Proof.
  induction env as [| e env IH]; intros d s Hdead; [discriminate |].
  cbn [ntp_wait].
  destruct (Z.ltb_spec 0 (time_left_us e)) as [Hlt | Hge]; cbn [andb].
  - destruct (Z.eqb_spec (year (rtcTime s)) 0) as [Hy | Hy].
    + assert (Hdead' : deadline_observed env = true).
      { unfold deadline_observed in *. cbn [existsb] in Hdead.
        apply orb_true_iff in Hdead. destruct Hdead as [H | H]; [| exact H].
        apply Z.leb_le in H. lia. }
      destruct (ntp_poll_body e d s) as [d1 s1] eqn:Eb.
      destruct (IH d1 s1 Hdead') as (k & e' & Hk & Hrun & Hend & Hw).
      assert (Hcons : forall l, ntp_turns (e :: l) d s = ntp_turns l d1 s1).
      { intros l. rewrite ntp_turns_cons, Eb. reflexivity. }
      exists (S k), e'. split; [exact Hk |]. split; [| split].
      * intros j e_j Hj Hlook. destruct j as [| j].
        -- cbn in Hlook. injection Hlook as <-. cbn [firstn]. split; [exact Hlt | exact Hy].
        -- cbn [firstn]. rewrite Hcons. apply (Hrun j e_j); [lia | exact Hlook].
      * cbn [firstn]. rewrite Hcons. exact Hend.
      * cbn [firstn]. rewrite Hcons. exact Hw.
    + exists 0%nat, e. split; [reflexivity |]. split; [intros j e_j Hj; lia |].
      split; [right; exact Hy | reflexivity].
  - exists 0%nat, e. split; [reflexivity |]. split; [intros j e_j Hj; lia |].
    split; [left; exact Hge | reflexivity].
Qed.

(** The clocked schedule, turn by turn. *)
Lemma lookup_clocked start turns (k : nat) now e :
  turns !! k = Some (now, e) ->
  exists e', clocked start turns !! k = Some e' /\
             time_left_us e' = start + 5000000 - now.
Proof.
  revert k. induction turns as [| t turns IH]; intros k H; [discriminate |].
  destruct k as [| k].
  - cbn in H. injection H as ->. eexists. split; [reflexivity |].
    cbn [time_left_us fst]. unfold absolute_time_diff_us, rtcTimeoutSec, make_timeout_time_ms.
    lia.
  - apply (IH k H).
Qed.

Lemma lookup_clocked_inv start turns (k : nat) e' :
  clocked start turns !! k = Some e' ->
  exists now e, turns !! k = Some (now, e) /\ time_left_us e' = start + 5000000 - now.
Proof.
  revert k. induction turns as [| [now e] turns IH]; intros k H; [discriminate |].
  destruct k as [| k].
  - cbn in H. injection H as <-. exists now, e. split; [reflexivity |].
    cbn [time_left_us fst]. unfold absolute_time_diff_us, rtcTimeoutSec, make_timeout_time_ms.
    lia.
  - apply (IH k H).
Qed.

Lemma deadline_observed_clocked start turns :
  deadline_observed (clocked start turns) = deadline_reached start turns.
Proof.
  unfold deadline_observed, deadline_reached, clocked.
  induction turns as [| t turns IH]; [reflexivity |].
  cbn [List.map existsb time_left_us]. rewrite IH. f_equal.
  unfold absolute_time_diff_us.
  destruct (Z.leb_spec (rtcTimeoutSec start - fst t) 0);
    destruct (Z.leb_spec (rtcTimeoutSec start) (fst t)); try reflexivity; lia.
Qed.

Lemma no_commit_clocked start turns :
  forallb no_commit (clocked start turns) = forallb (fun t => no_commit (snd t)) turns.
Proof.
  unfold clocked. induction turns as [| t turns IH]; [reflexivity |].
  cbn [List.map forallb]. rewrite IH. reflexivity.
Qed.

(** C7: with the clock read at the loop tests and the timeout started at
    [start], [rtc_queryNTPTime] returns once a test reads a time at or
    after [start] + 5 s.  The loop ends at the first test [k] that finds
    the time elapsed or the year set: every test before it read a time
    before the deadline and found the year 0, and the state at the exit
    is the one after the bodies of those turns.  The result is 0 exactly
    when the year is set at a test all of whose predecessors read a time
    before the deadline, and -1 otherwise; -1 comes with the year still 0
    and a test at or after the deadline; and when the year is 0 at the
    start and no valid response arrives (DNS never resolves, or every
    datagram fails a check), the result is -1 with the year 0. *)
Theorem rtc_queryNTPTime_result cfg pcb_ok start turns s :
  deadline_reached start turns = true ->
  exists (k : nat) now e ret s',
    turns !! k = Some (now, e) /\
    (forall (j : nat) t_j, (j < k)%nat -> turns !! j = Some t_j ->
       fst t_j < start + 5000000 /\
       year (rtcTime (state_at_test cfg pcb_ok (clocked start turns) s j)) = 0) /\
    (start + 5000000 <= now \/
     year (rtcTime (state_at_test cfg pcb_ok (clocked start turns) s k)) <> 0) /\
    rtc_queryNTPTime cfg pcb_ok (clocked start turns) s = Some (ret, s') /\
    (ret = 0 /\
       year (rtcTime (state_at_test cfg pcb_ok (clocked start turns) s k)) <> 0 /\
       s' = rtc_get_datetime (state_at_test cfg pcb_ok (clocked start turns) s k) \/
     ret = -1 /\
       year (rtcTime (state_at_test cfg pcb_ok (clocked start turns) s k)) = 0 /\
       s' = state_at_test cfg pcb_ok (clocked start turns) s k /\
       start + 5000000 <= now) /\
    (ret = 0 <->
     exists (m : nat) t,
       turns !! m = Some t /\
       (forall (j : nat) t_j, (j < m)%nat -> turns !! j = Some t_j ->
          fst t_j < start + 5000000) /\
       year (rtcTime (state_at_test cfg pcb_ok (clocked start turns) s m)) <> 0) /\
    (year (rtcTime s) = 0 -> forallb (fun t => no_commit (snd t)) turns = true ->
     ret = -1 /\ year (rtcTime s') = 0).
Proof.
  intros Hdead. rewrite <- deadline_observed_clocked in Hdead.
  destruct (ntp_wait_exit_index (clocked start turns) false (ntp_setup cfg pcb_ok s) Hdead)
    as (k & e' & Hk & Hrun & Hend & Hw).
  destruct (lookup_clocked_inv start turns k e' Hk) as (now & e & Hturn & Htl).
  fold (state_at_test cfg pcb_ok (clocked start turns) s k) in Hend, Hw.
  assert (Hrun' : forall (j : nat) t_j, (j < k)%nat -> turns !! j = Some t_j ->
            fst t_j < start + 5000000 /\
            year (rtcTime (state_at_test cfg pcb_ok (clocked start turns) s j)) = 0).
  { intros j [now_j e_j] Hj Hlook.
    destruct (lookup_clocked start turns j now_j e_j Hlook) as (e_j' & Hl' & Htl').
    destruct (Hrun j e_j' Hj Hl') as [H1 H2]. cbn [fst]. split; [lia | exact H2]. }
  assert (Hend' : start + 5000000 <= now \/
                  year (rtcTime (state_at_test cfg pcb_ok (clocked start turns) s k)) <> 0).
  { destruct Hend as [H | H]; [left; lia | right; exact H]. }
  assert (Hnone : year (rtcTime s) = 0 ->
                  forallb (fun t => no_commit (snd t)) turns = true ->
                  year (rtcTime (state_at_test cfg pcb_ok (clocked start turns) s k)) = 0).
  { intros Hy0 Hnc. rewrite <- (no_commit_clocked start) in Hnc.
    rewrite (ntp_wait_no_commit _ Hnc _ _ _ Hw), rtcTime_ntp_setup. exact Hy0. }
  unfold rtc_queryNTPTime. rewrite Hw.
  destruct (Z.eqb_spec (year (rtcTime (state_at_test cfg pcb_ok (clocked start turns) s k))) 0)
    as [Hy | Hy]; cbn [negb].
  - exists k, now, e, (-1), (state_at_test cfg pcb_ok (clocked start turns) s k).
    split; [exact Hturn |]. split; [exact Hrun' |]. split; [exact Hend' |].
    split; [reflexivity |].
    assert (Hd : start + 5000000 <= now) by (destruct Hend' as [H | H]; [exact H | contradiction]).
    split; [right; auto |]. split.
    + split; [discriminate |]. intros (m & t & Hm & Hbefore & Hym). exfalso.
      destruct (Nat.lt_trichotomy m k) as [Hlt | [-> | Hgt]].
      * destruct (Hrun' m t Hlt Hm) as [_ H0]. contradiction.
      * contradiction.
      * specialize (Hbefore k (now, e) Hgt Hturn). cbn [fst] in Hbefore. lia.
    + intros _ _. split; [reflexivity | exact Hy].
  - exists k, now, e, 0, (rtc_get_datetime (state_at_test cfg pcb_ok (clocked start turns) s k)).
    split; [exact Hturn |]. split; [exact Hrun' |]. split; [exact Hend' |].
    split; [reflexivity |]. split; [left; auto |]. split.
    + split; [| reflexivity]. intros _. exists k, (now, e).
      split; [exact Hturn |]. split; [| exact Hy].
      intros j t_j Hj Hl. apply (Hrun' j t_j Hj Hl).
    + intros Hy0 Hnc. exfalso. apply Hy. apply Hnone; assumption.
Qed.

End NTP.

(** ** The properties on explicit inputs *)

Section Runs.
#[local] Existing Instance demo_platform.

(** C4: [ntpRecvCB] compares the source port with [NTP_DEFAULT_PORT], not
    with the port the request was sent to.  With the server configured on
    port 1123 and resolved to 192.168.0.1, the reply that comes back from
    192.168.0.1:1123 is discarded, while the same datagram from port 123 of
    that address, which is not the port of the resolved server, is taken
    and sets the clock. *)
Theorem ntpRecvCB_checks_default_port :
  ntpServerPort demo_ntp_state = 1123 /\
  ntp_ipaddr (netTime demo_ntp_state) = demo_server_ip /\
  year (rtcTime demo_ntp_state) = 0 /\
  ntpRecvCB (Some demo_ntp_reply) demo_server_ip 1123 demo_ntp_state = demo_ntp_state /\
  year (rtcTime (ntpRecvCB (Some demo_ntp_reply) demo_server_ip NTP_DEFAULT_PORT
                   demo_ntp_state)) = 2005 /\
  hw_rtc (ntpRecvCB (Some demo_ntp_reply) demo_server_ip NTP_DEFAULT_PORT demo_ntp_state) =
    Some (mk_datetime 2005 1 1 6 12 15 30).
Proof. run_all. Qed.

(** The acquisition on the two schedules: silence ends in failure with
    the year unset, an answer from port 123 in success. *)
Example rtc_queryNTPTime_silence :
  option_map (fun r => (fst r, year (rtcTime (snd r))))
    (rtc_queryNTPTime (mk_settings None None None) true demo_silence demo_boot) =
  Some (-1, 0).
Proof. vm_compute. reflexivity. Qed.

Example rtc_queryNTPTime_answer :
  option_map (fun r => (fst r, year (rtcTime (snd r))))
    (rtc_queryNTPTime (mk_settings None None None) true demo_answer demo_boot) =
  Some (0, 2005).
Proof. vm_compute. reflexivity. Qed.

(** The deadline is looked at by the loop tests only: a reply that comes
    in a turn whose test read a time before the deadline gives success,
    also when the next test reads a time past it. *)
Example rtc_queryNTPTime_reply_in_last_turn :
  option_map (fun r => (fst r, year (rtcTime (snd r))))
    (rtc_queryNTPTime (mk_settings None None None) true
       (clocked 1000000 demo_clock_late_reply) demo_boot) =
  Some (0, 2005).
Proof. vm_compute. reflexivity. Qed.

Lemma rtc_loop_echoes_frame_token_witness :
  preinit_done (demo_staged demo_unknown demo_ready) /\
  memoryRandomTokenAddress (demo_staged demo_unknown demo_ready) <> 0 /\
  lastProtocolValid (demo_staged demo_unknown demo_ready) = true /\
  RandomToken (rtc_loop (demo_staged demo_unknown demo_ready)) = 0xDEADBEEF /\
  RandomTokenSeed (rtc_loop (demo_staged demo_unknown demo_ready)) = u32 (rand_value 2).
Proof.
  assert (H1 : preinit_done (demo_staged demo_unknown demo_ready))
    by (split; vm_compute; reflexivity).
  assert (H2 : memoryRandomTokenAddress (demo_staged demo_unknown demo_ready) <> 0)
    by (vm_compute; discriminate).
  assert (H3 : lastProtocolValid (demo_staged demo_unknown demo_ready) = true)
    by (vm_compute; reflexivity).
  destruct (rtc_loop_echoes_frame_token (P := demo_platform)
              (demo_staged demo_unknown demo_ready) H1 H2 H3) as (Ht & Hs & _).
  split; [exact H1 |]. split; [exact H2 |]. split; [exact H3 |].
  split.
  - rewrite Ht. vm_compute. reflexivity.
  - rewrite Hs. vm_compute. reflexivity.
Defined.

Lemma rtc_loop_token_refresh_witness :
  preinit_done (demo_staged demo_read_time demo_ready) /\
  memoryRandomTokenAddress (demo_staged demo_read_time demo_ready) <> 0 /\
  lastProtocolValid (demo_staged demo_read_time demo_ready) = true /\
  RandomTokenSeed (rtc_loop (demo_staged demo_read_time demo_ready)) = u32 (rand_value 2) /\
  RandomToken (rtc_loop (demo_staged demo_read_time demo_ready)) <>
    RandomToken (demo_staged demo_read_time demo_ready).
Proof.
  assert (H1 : preinit_done (demo_staged demo_read_time demo_ready))
    by (split; vm_compute; reflexivity).
  assert (H2 : memoryRandomTokenAddress (demo_staged demo_read_time demo_ready) <> 0)
    by (vm_compute; discriminate).
  assert (H3 : lastProtocolValid (demo_staged demo_read_time demo_ready) = true)
    by (vm_compute; reflexivity).
  destruct (rtc_loop_token_refresh (P := demo_platform)
              (demo_staged demo_read_time demo_ready) H1 H2 H3) as (Hs & _ & Hiff).
  split; [exact H1 |]. split; [exact H2 |]. split; [exact H3 |].
  split.
  - rewrite Hs. vm_compute. reflexivity.
  - apply Hiff. vm_compute. discriminate.
Defined.

(** C1, counterexample: the host sends an unrecognised command with the
    token that the shared region already shows (the frame before carried
    the same one).  The pass over that frame leaves RandomToken as it was:
    the value is the frame's, not a draw of the generator. *)
Lemma rtc_loop_token_not_refreshed :
  let s := demo_staged demo_unknown (rtc_loop (demo_staged demo_read_time demo_ready)) in
  lastProtocolValid s = true /\
  command_id (lastProtocol s) = 0x03FF /\
  RandomToken s = 0xDEADBEEF /\
  RandomToken (rtc_loop s) = RandomToken s.
Proof. run_all. Qed.

Lemma read_time_y2k_year_witness :
  preinit_done (rtc_preinit demo_boot) /\
  y2k_first_char "t" = true /\
  hw_rtc (rtc_preinit demo_boot) = Some (mk_datetime 2005 1 1 6 12 15 30) /\
  u8 (Z.rem (year (mk_datetime 2005 1 1 6 12 15 30)) 100) = 5 /\
  command_id demo_read_time = RTCEMUL_READ_TIME /\
  handle_protocol_command demo_read_time
    (snd (rtc_postinit (Some "DALLAS"%string) (Some "true"%string) (rtc_preinit demo_boot))) =
    Some (demo_staged demo_read_time demo_ready) /\
  DatetimeBcd (rtc_loop (demo_staged demo_read_time demo_ready)) 0 = 0x75 /\
  Y2kPatch (rtc_loop (demo_staged demo_read_time demo_ready)) = 0xFFFFFFFF.
Proof.
  assert (H1 : preinit_done (rtc_preinit demo_boot)) by (split; vm_compute; reflexivity).
  assert (H2 : y2k_first_char "t" = true) by reflexivity.
  assert (H3 : hw_rtc (rtc_preinit demo_boot) = Some (mk_datetime 2005 1 1 6 12 15 30))
    by reflexivity.
  assert (H4 : u8 (Z.rem (year (mk_datetime 2005 1 1 6 12 15 30)) 100) = 5) by reflexivity.
  assert (H5 : command_id demo_read_time = RTCEMUL_READ_TIME) by reflexivity.
  assert (H6 : handle_protocol_command demo_read_time
                 (snd (rtc_postinit (Some "DALLAS"%string) (Some "true"%string)
                         (rtc_preinit demo_boot))) =
               Some (demo_staged demo_read_time demo_ready)) by (vm_compute; reflexivity).
  destruct (read_time_y2k_year (P := demo_platform) (Some "DALLAS"%string) "t" "rue"%string
              (mk_datetime 2005 1 1 6 12 15 30) demo_read_time (rtc_preinit demo_boot)
              (demo_staged demo_read_time demo_ready) H1 H2 H3 H4 H5 H6)
    as (Hy & Hv & Hf).
  split; [exact H1 |]. split; [exact H2 |]. split; [exact H3 |].
  split; [exact H4 |]. split; [exact H5 |]. split; [exact H6 |].
  split; [rewrite Hy; exact Hv | exact Hf].
Defined.

(** C3, counterexample: with the patch on and the clock in 2005, READ_TIME
    stores 0x75, which is not [add_bcd(to_bcd(5), to_bcd(50))] = 0x55. *)
Lemma read_time_y2k_year_not_50 :
  let s := demo_staged demo_read_time demo_ready in
  y2kPatchEnabled s = true /\
  option_map year (hw_rtc s) = Some 2005 /\
  command_id (lastProtocol s) = RTCEMUL_READ_TIME /\
  DatetimeBcd (rtc_loop s) 0 = 0x75 /\
  add_bcd (to_bcd 5) (to_bcd 50) = 0x55 /\
  DatetimeBcd (rtc_loop s) 0 <> add_bcd (to_bcd 5) (to_bcd 50).
Proof. run_all. Qed.

Lemma checksum_error_drops_frame_witness :
  final_checksum demo_corrupt <> protocol_checksum demo_corrupt /\
  rtc_dma_irq_handler_lookup 0x00010000 (Some demo_corrupt) demo_ready = Some demo_ready.
Proof.
  assert (H : final_checksum demo_corrupt <> protocol_checksum demo_corrupt)
    by (vm_compute; discriminate).
  split; [exact H |].
  apply (checksum_error_drops_frame (P := demo_platform) 0x00010000 demo_corrupt demo_ready H).
Defined.

Lemma handle_protocol_command_clamps_witness :
  0 <= MAX_PROTOCOL_PAYLOAD_SIZE /\
  payload_capacity demo_oversized /\
  payload_capacity (lastProtocol demo_ready) /\
  u16 (payload_size demo_oversized) = 0xFFFF /\
  clamped_size demo_oversized = 64 /\
  exists s', handle_protocol_command demo_oversized demo_ready = Some s' /\
             payload (lastProtocol s') = repeat 0xAA 64.
Proof.
  assert (H1 : 0 <= MAX_PROTOCOL_PAYLOAD_SIZE) by (vm_compute; discriminate).
  assert (H2 : payload_capacity demo_oversized) by reflexivity.
  assert (H3 : payload_capacity (lastProtocol demo_ready)) by reflexivity.
  destruct (handle_protocol_command_clamps (P := demo_platform) demo_oversized demo_ready
              H1 H2 H3) as (Hc & _ & s' & Hs' & Hp & _).
  split; [exact H1 |]. split; [exact H2 |]. split; [exact H3 |].
  split; [reflexivity |]. split; [rewrite Hc; reflexivity |].
  exists s'. split; [exact Hs' |]. rewrite Hp. vm_compute. reflexivity.
Defined.

Lemma rtc_loop_clears_flag_last_witness :
  0 <= MAX_PROTOCOL_PAYLOAD_SIZE /\
  payload_capacity demo_unlock_late /\
  payload_capacity (lastProtocol (demo_staged demo_lock demo_ready)) /\
  lastProtocolValid (rtc_loop_process (demo_staged demo_lock demo_ready)) = true /\
  exists s1,
    rtc_loop_interrupted (one_irq BeforeSwitch 0x00010000 (Some demo_unlock_late))
      (demo_staged demo_lock demo_ready) = Some s1 /\
    lastProtocolValid s1 = false /\ rtc_loop s1 = s1 /\
    command_id (lastProtocol s1) = RTCEMUL_REENTRY_UNLOCK /\
    ReentryTrap s1 = 0 /\ RandomToken s1 = 0xDEADBEEF.
Proof.
  assert (H1 : 0 <= MAX_PROTOCOL_PAYLOAD_SIZE) by (vm_compute; discriminate).
  assert (H2 : payload_capacity demo_unlock_late) by reflexivity.
  assert (H3 : payload_capacity (lastProtocol (demo_staged demo_lock demo_ready)))
    by reflexivity.
  assert (H0 : forall (x : irq_slot) (a : Z) (f : TransmissionProtocol),
             In (a, Some f) (no_irq x) -> payload_capacity f)
    by (intros x a f []).
  destruct (rtc_loop_clears_flag_last (P := demo_platform) no_irq BeforeSwitch 0x00010000
              demo_unlock_late (demo_staged demo_lock demo_ready) H1 H0 H2 H3)
    as (Hflag & _ & _ & _ & s' & s1 & Hs' & Hs1 & Hoff & Hidle & Hrun).
  split; [exact H1 |]. split; [exact H2 |]. split; [exact H3 |].
  split; [rewrite Hflag; vm_compute; reflexivity |].
  exists s1. split; [exact Hs1 |]. split; [exact Hoff |]. split; [exact Hidle |].
  destruct Hrun as (_ & Hid & _);
    [vm_compute; discriminate | vm_compute; reflexivity |].
  split; [rewrite Hid; reflexivity |].
  pose proof (f_equal (fun o => match o with Some x => x | None => demo_boot end) Hs1) as E.
  cbv beta iota in E. rewrite <- E. split; vm_compute; reflexivity.
Defined.

(** C9, counterexample: REENTRY_LOCK is staged and the pass interprets it
    with the flag still set.  REENTRY_UNLOCK, which a host that waits for
    the token CAFEBABE sends during that pass, is not kept for the next
    pass.  Staged before the clear, it sits in the staging buffer with the
    flag off: no pass interprets it and the reentry flag stays locked.
    Staged between the token read and the [switch], it is interpreted by
    the pass of the first frame, which publishes the token DEADBEEF of
    the first frame.  Had the flag been cleared on entry and the frame
    taken over there, the second frame would have waited for the next
    pass. *)
Lemma rtc_loop_loses_frame_staged_during_pass :
  let s := demo_staged demo_lock demo_ready in
  lastProtocolValid s = true /\
  lastProtocolValid (rtc_loop_process s) = true /\
  ReentryTrap (rtc_loop_process s) = 0xFFFFFFFF /\
  (exists s1,
     rtc_loop_interrupted (one_irq BeforeClear 0x00010000 (Some demo_unlock_late)) s = Some s1 /\
     command_id (lastProtocol s1) = RTCEMUL_REENTRY_UNLOCK /\
     lastProtocolValid s1 = false /\
     ReentryTrap s1 = 0xFFFFFFFF /\
     ReentryTrap (rtc_loop s1) = 0xFFFFFFFF) /\
  (exists s2,
     rtc_loop_interrupted (one_irq BeforeSwitch 0x00010000 (Some demo_unlock_late)) s = Some s2 /\
     command_id (lastProtocol s2) = RTCEMUL_REENTRY_UNLOCK /\
     lastProtocolValid s2 = false /\
     ReentryTrap s2 = 0 /\
     RandomToken s2 = 0xDEADBEEF /\
     TPROTO_GET_RANDOM_TOKEN (payload demo_unlock_late) = 0xCAFEBABE).
Proof.
  cbv zeta. split; [vm_compute; reflexivity |]. split; [vm_compute; reflexivity |].
  split; [vm_compute; reflexivity |]. split.
  - destruct (rtc_loop_interrupted (one_irq BeforeClear 0x00010000 (Some demo_unlock_late))
                (demo_staged demo_lock demo_ready)) as [s1 |] eqn:E;
      [| vm_compute in E; discriminate E].
    exists s1. split; [reflexivity |].
    assert (Es1 : Some s1 = rtc_loop_interrupted
                              (one_irq BeforeClear 0x00010000 (Some demo_unlock_late))
                              (demo_staged demo_lock demo_ready)) by (symmetry; exact E).
    vm_compute in Es1. injection Es1 as ->.
    run_all.
  - destruct (rtc_loop_interrupted (one_irq BeforeSwitch 0x00010000 (Some demo_unlock_late))
                (demo_staged demo_lock demo_ready)) as [s2 |] eqn:E;
      [| vm_compute in E; discriminate E].
    exists s2. split; [reflexivity |].
    assert (Es2 : Some s2 = rtc_loop_interrupted
                              (one_irq BeforeSwitch 0x00010000 (Some demo_unlock_late))
                              (demo_staged demo_lock demo_ready)) by (symmetry; exact E).
    vm_compute in Es2. injection Es2 as ->.
    run_all.
Qed.

Lemma postinit_magic_sequence_witness :
  length (magic_sequence (dallasClock (rtc_preinit demo_boot))) = 66%nat /\
  magic_sequence (dallasClock demo_ready) !! 1%nat = Some 0 /\
  magic_sequence (dallasClock demo_ready) !! 2%nat = Some 0x3 /\
  magic_sequence (dallasClock demo_ready) !! 3%nat = Some 0x1 /\
  magic_sequence (dallasClock demo_ready) !! 65%nat = Some 0x1.
Proof.
  assert (H : length (magic_sequence (dallasClock (rtc_preinit demo_boot))) = 66%nat)
    by reflexivity.
  split; [exact H |]. unfold demo_ready.
  split; [| split; [| split]].
  - destruct (postinit_magic_sequence (P := demo_platform) (Some "true"%string)
                (rtc_preinit demo_boot) 1 H) as (_ & Hlow & _).
    rewrite Hlow by lia. reflexivity.
  - destruct (postinit_magic_sequence (P := demo_platform) (Some "true"%string)
                (rtc_preinit demo_boot) 2 H) as (_ & _ & Hbit).
    rewrite Hbit by lia. reflexivity.
  - destruct (postinit_magic_sequence (P := demo_platform) (Some "true"%string)
                (rtc_preinit demo_boot) 3 H) as (_ & _ & Hbit).
    rewrite Hbit by lia. reflexivity.
  - destruct (postinit_magic_sequence (P := demo_platform) (Some "true"%string)
                (rtc_preinit demo_boot) 65 H) as (_ & _ & Hbit).
    rewrite Hbit by lia. reflexivity.
Defined.

Lemma rtc_queryNTPTime_result_witness :
  deadline_reached 1000000 demo_clock = true /\
  year (rtcTime demo_boot) = 0 /\
  forallb (fun t => no_commit (snd t)) demo_clock = true /\
  clocked 1000000 demo_clock = demo_silence /\
  exists s', rtc_queryNTPTime (mk_settings None None None) true (clocked 1000000 demo_clock)
               demo_boot = Some (-1, s') /\ year (rtcTime s') = 0.
Proof.
  assert (H1 : deadline_reached 1000000 demo_clock = true) by (vm_compute; reflexivity).
  assert (H2 : year (rtcTime demo_boot) = 0) by reflexivity.
  assert (H3 : forallb (fun t => no_commit (snd t)) demo_clock = true)
    by (vm_compute; reflexivity).
  destruct (rtc_queryNTPTime_result (P := demo_platform) (mk_settings None None None) true
              1000000 demo_clock demo_boot H1)
    as (k & now & e & ret & s' & _ & _ & _ & Hq & _ & _ & Hnone).
  split; [exact H1 |]. split; [exact H2 |]. split; [exact H3 |].
  split; [vm_compute; reflexivity |].
  destruct (Hnone H2 H3) as [Hret Hy].
  exists s'. split; [rewrite Hq, Hret; reflexivity | exact Hy].
Defined.

End Runs.

(** ** Bit-level facts for the timestamps *)

(** [mem_simp], also through longword stores. *)
Ltac mem_simp32 :=
  repeat first
    [ rewrite load8_store8_ne by addr_solve
    | rewrite load8_store8_eq by addr_solve
    | rewrite load8_store32_ne by (intros; addr_solve) ].

(** [addr_solve] with the indices of the shared variables unfolded. *)
Ltac addr_solve_sv :=
  unfold SHARED_VARIABLE_HARDWARE_TYPE, SHARED_VARIABLE_SVERSION,
    SHARED_VARIABLE_BUFFER_TYPE in *; addr_solve.

Lemma lor_add_disjoint a b n :
  0 <= n -> a mod 2 ^ n = 0 -> 0 <= b < 2 ^ n -> Z.lor a b = a + b.
Proof.
  intros Hn Ha Hb.
  assert (Hland : Z.land a b = 0).
  { apply Z.bits_inj'. intros i Hi. rewrite Z.land_spec, Z.bits_0.
    destruct (Z.ltb_spec i n) as [Hlt | Hge].
    - rewrite <- (Z.mod_pow2_bits_low a n i) by lia. rewrite Ha, Z.bits_0. reflexivity.
    - rewrite <- (Z.mod_small b (2 ^ n)) by lia.
      rewrite Z.mod_pow2_bits_high by lia. apply andb_false_r. }
  rewrite <- Z.lxor_lor by exact Hland. symmetry. apply Z.add_nocarry_lxor. exact Hland.
Qed.

Lemma lor_add_small a b n :
  0 <= n -> 0 <= a < 2 ^ n -> b mod 2 ^ n = 0 -> Z.lor a b = a + b.
Proof.
  intros Hn Ha Hb. rewrite Z.lor_comm, (lor_add_disjoint b a n) by assumption. lia.
Qed.

Lemma land_mask x k m : 0 <= k -> m = 2 ^ k - 1 -> Z.land x m = x mod 2 ^ k.
Proof.
  intros Hk ->. rewrite <- Z.land_ones by exact Hk. f_equal.
  rewrite Z.ones_equiv. lia.
Qed.

Lemma packed_msdos_sum t :
  1980 <= year t <= 2107 -> 0 <= month t < 16 -> 0 <= day t < 32 ->
  0 <= hour t < 32 -> 0 <= min t < 64 -> 0 <= sec t < 64 ->
  packed_msdos t =
    (year t - 1980) * 33554432 + month t * 2097152 + day t * 65536 +
    hour t * 2048 + min t * 32 + sec t / 2.
Proof.
  intros Hy Hm Hd Hh Hmi Hs. unfold packed_msdos.
  rewrite Z.quot_div_nonneg by lia.
  rewrite !Z.shiftl_mul_pow2 by lia.
  rewrite (lor_add_disjoint ((year t - 1980) * 2 ^ 9) (month t * 2 ^ 5) 9) by
    (try apply Z_mod_mult; lia).
  rewrite (lor_add_disjoint _ (day t) 5) by
    (first [lia | change (2 ^ 9) with (16 * 2 ^ 5); change (2 ^ 5) with 32;
                  Z.div_mod_to_equations; lia]).
  rewrite (lor_add_disjoint (hour t * 2 ^ 11) (min t * 2 ^ 5) 11) by
    (try apply Z_mod_mult; lia).
  rewrite (lor_add_disjoint _ (sec t / 2) 5) by
    (first [lia | change (2 ^ 11) with 2048; change (2 ^ 5) with 32;
                  Z.div_mod_to_equations; lia]).
  change (2 ^ 9) with 512. change (2 ^ 5) with 32. change (2 ^ 11) with 2048.
  change (2 ^ 16) with 65536.
  assert (Hdiv : 0 <= sec t / 2 < 32) by (Z.div_mod_to_equations; lia).
  unfold u16. rewrite !Z.mod_small by lia.
  rewrite (lor_add_disjoint _ _ 16) by
    (first [lia | change (2 ^ 16) with 65536; try apply Z_mod_mult; lia]).
  unfold u32. rewrite Z.mod_small by lia. lia.
Qed.

Lemma packed_msdos_decode t :
  1980 <= year t <= 2107 -> 0 <= month t < 16 -> 0 <= day t < 32 ->
  0 <= hour t < 32 -> 0 <= min t < 64 -> 0 <= sec t < 64 ->
  Z.shiftr (packed_msdos t) 25 = year t - 1980 /\
  Z.land (Z.shiftr (packed_msdos t) 21) 15 = month t /\
  Z.land (Z.shiftr (packed_msdos t) 16) 31 = day t /\
  Z.land (Z.shiftr (packed_msdos t) 11) 31 = hour t /\
  Z.land (Z.shiftr (packed_msdos t) 5) 63 = min t /\
  Z.land (packed_msdos t) 31 = Z.quot (sec t) 2.
Proof.
  intros Hy Hm Hd Hh Hmi Hs.
  rewrite (packed_msdos_sum t) by assumption.
  rewrite Z.quot_div_nonneg by lia.
  rewrite !Z.shiftr_div_pow2 by lia.
  rewrite (land_mask _ 4 15), !(land_mask _ 5 31), (land_mask _ 6 63) by (reflexivity || lia).
  change (2 ^ 25) with 33554432. change (2 ^ 21) with 2097152. change (2 ^ 16) with 65536.
  change (2 ^ 11) with 2048. change (2 ^ 5) with 32. change (2 ^ 4) with 16.
  change (2 ^ 6) with 64.
  repeat split; Z.div_mod_to_equations; lia.
Qed.

(** [lwip_ntohl] after [pbuf_copy_partial]: the four bytes in network
    order. *)
Lemma ntohl_copy_be p off :
  (forall i, 0 <= pbuf_get_at p i < 256) ->
  lwip_ntohl (pbuf_copy_partial32 p off) =
    pbuf_get_at p off * 16777216 + pbuf_get_at p (off + 1) * 65536 +
    pbuf_get_at p (off + 2) * 256 + pbuf_get_at p (off + 3).
Proof.
  intros Hb.
  pose proof (Hb off) as H0. pose proof (Hb (off + 1)%nat) as H1.
  pose proof (Hb (off + 2)%nat) as H2. pose proof (Hb (off + 3)%nat) as H3.
  unfold pbuf_copy_partial32, lwip_ntohl.
  set (b0 := pbuf_get_at p off) in *. set (b1 := pbuf_get_at p (off + 1)) in *.
  set (b2 := pbuf_get_at p (off + 2)) in *. set (b3 := pbuf_get_at p (off + 3)) in *.
  rewrite !Z.shiftl_mul_pow2 by lia.
  change (2 ^ 8) with 256. change (2 ^ 16) with 65536. change (2 ^ 24) with 16777216.
  rewrite (lor_add_small b0 (b1 * 256) 8) by (try apply Z_mod_mult; lia).
  rewrite (lor_add_small (b2 * 65536) (b3 * 16777216) 24) by
    (first [lia | change (2 ^ 24) with (256 * 65536); apply Z_mod_mult]).
  rewrite (lor_add_small (b0 + b1 * 256) _ 16) by
    (first [lia | change (2 ^ 16) with 65536; Z.div_mod_to_equations; lia]).
  rewrite !Z.shiftr_div_pow2 by lia. rewrite !(land_mask _ 8 255) by (reflexivity || lia).
  change (2 ^ 8) with 256. change (2 ^ 16) with 65536. change (2 ^ 24) with 16777216.
  replace ((b0 + b1 * 256 + (b2 * 65536 + b3 * 16777216)) mod 256) with b0
    by (Z.div_mod_to_equations; lia).
  replace (((b0 + b1 * 256 + (b2 * 65536 + b3 * 16777216)) / 256) mod 256) with b1
    by (Z.div_mod_to_equations; lia).
  replace (((b0 + b1 * 256 + (b2 * 65536 + b3 * 16777216)) / 65536) mod 256) with b2
    by (Z.div_mod_to_equations; lia).
  replace (((b0 + b1 * 256 + (b2 * 65536 + b3 * 16777216)) / 16777216) mod 256) with b3
    by (Z.div_mod_to_equations; lia).
  rewrite (lor_add_disjoint (b0 * 16777216) (b1 * 65536) 24) by
    (first [lia | apply Z_mod_mult]).
  rewrite (lor_add_disjoint (b2 * 256) b3 8) by (first [lia | apply Z_mod_mult]).
  rewrite (lor_add_disjoint _ (b2 * 256 + b3) 16) by
    (first [lia | change (2 ^ 16) with 65536; Z.div_mod_to_equations; lia]).
  lia.
Qed.

(** ** Bytes outside a written range *)

Lemma load8_store8_outside a b v m : outside a b 1 -> load8 (store8 b v m) a = load8 m a.
Proof.
  intros H. apply load8_store8_ne. specialize (H 0 ltac:(lia)).
  rewrite Z.add_0_r in H. congruence.
Qed.

Lemma outside_sub a b n b' n' :
  outside a b n -> (exists k, 0 <= k /\ k + n' <= n /\ forall i, u32 (b' + i) = u32 (b + (k + i))) ->
  outside a b' n'.
Proof.
  intros H (k & Hk & Hn & Heq) i Hi. rewrite Heq. apply H. lia.
Qed.

Lemma load8_store32_outside a b v m : outside a b 4 -> load8 (store32 b v m) a = load8 m a.
Proof.
  intros H. apply load8_store32_ne. intros i Hi. specialize (H i Hi). congruence.
Qed.

(** ** The commands of the engine, field by field *)

Section ReadTime.
Context `{P : Platform}.

(** The tail of the block writes the eight bytes of the token pair only. *)
Lemma publish_load8_outside T s a :
  preinit_done s ->
  outside a (memorySharedAddress s + RTCEMUL_RANDOM_TOKEN_OFFSET) 8 ->
  load8 (memory (rtc_publish_token T s)) a = load8 (memory s) a.
Proof.
  intros [Htok Hseed] Hout. unfold rtc_publish_token.
  destruct (negb (memoryRandomTokenAddress s =? 0)); [| reflexivity].
  cbn [rand memory set_memory set_rand_calls memoryRandomTokenAddress
       memoryRandomTokenSeedAddress].
  unfold TPROTO_SET_RANDOM_TOKEN. rewrite Htok, Hseed.
  rewrite !load8_store32_outside; [reflexivity | |].
  - intros i Hi. pose proof (Hout i ltac:(lia)) as Hi'. clear Hout. addr_solve.
  - intros i Hi. pose proof (Hout (4 + i) ltac:(lia)) as Hi'. clear Hout. addr_solve.
Qed.

Lemma ikb_load8_outside base g y s a :
  outside a (base + RTCEMUL_DATETIME_BCD) 12 ->
  outside a (base + RTCEMUL_Y2K_PATCH) 4 ->
  load8 (memory (set_ikb_datetime_msg base RTCEMUL_DATETIME_BCD RTCEMUL_Y2K_PATCH
                   RTCEMUL_DATETIME_MSDOS g y s)) a = load8 (memory s) a.
Proof.
  intros Hrec Hflag. unfold set_ikb_datetime_msg. cbn [memory set_memory].
  rewrite memory_get_datetime.
  assert (Hb : forall i, 0 <= i < 12 -> u32 (base + RTCEMUL_DATETIME_BCD + i) <> u32 a).
  { intros i Hi Heq. apply (Hrec i Hi). congruence. }
  assert (Hf : forall i, 0 <= i < 4 -> u32 (base + RTCEMUL_Y2K_PATCH + i) <> u32 a).
  { intros i Hi Heq. apply (Hflag i Hi). congruence. }
  clear Hrec Hflag.
  assert (Hs8 : forall i v m, 0 <= i < 8 ->
            load8 (store8 (u32 (base + RTCEMUL_DATETIME_BCD) + i) v m) a = load8 m a).
  { intros i v m Hi. apply load8_store8_ne. rewrite u32_add_l. apply Hb. lia. }
  assert (Hs0 : forall v m,
            load8 (store8 (u32 (base + RTCEMUL_DATETIME_BCD)) v m) a = load8 m a).
  { intros v m. apply load8_store8_ne. rewrite u32_idem.
    rewrite <- (Z.add_0_r (base + RTCEMUL_DATETIME_BCD)). apply Hb. lia. }
  unfold WRITE_LONGWORD_RAW. rewrite load8_store32_ne.
  2:{ intros i Hi. replace (base + RTCEMUL_DATETIME_MSDOS + i)
        with (base + RTCEMUL_DATETIME_BCD + (8 + i)) by (unfold RTCEMUL_DATETIME_MSDOS; lia).
      apply Hb. lia. }
  rewrite !Hs8 by lia.
  destruct ((0 <=? u16 g) && y).
  - rewrite Hs0, Hs8 by lia. reflexivity.
  - rewrite load8_store32_ne by exact Hf. rewrite Hs0, Hs8 by lia. reflexivity.
Qed.

Lemma load32_ext m m' a :
  (forall i, 0 <= i < 4 -> load8 m' (a + i) = load8 m (a + i)) ->
  load32 m' a = load32 m a.
Proof.
  intros H. unfold load32, load16.
  pose proof (H 0 ltac:(lia)) as H0. pose proof (H 1 ltac:(lia)) as H1.
  pose proof (H 2 ltac:(lia)) as H2. pose proof (H 3 ltac:(lia)) as H3.
  rewrite Z.add_0_r in H0. replace (a + 2 + 1) with (a + 3) by lia.
  rewrite H0, H1, H2, H3. reflexivity.
Qed.

Lemma to_bcd_u8 v : u8 (to_bcd v) = to_bcd v.
Proof. unfold to_bcd. apply u8_idem. Qed.

(** The record and the longword that [set_ikb_datetime_msg] leaves. *)
Lemma ikb_record base g y s :
  load8 (memory (set_ikb_datetime_msg base RTCEMUL_DATETIME_BCD RTCEMUL_Y2K_PATCH
                   RTCEMUL_DATETIME_MSDOS g y s)) (u32 (base + RTCEMUL_DATETIME_BCD) + 1) = 0x1b /\
  load8 (memory (set_ikb_datetime_msg base RTCEMUL_DATETIME_BCD RTCEMUL_Y2K_PATCH
                   RTCEMUL_DATETIME_MSDOS g y s)) (u32 (base + RTCEMUL_DATETIME_BCD) + 2) =
    to_bcd (u8 (day (rtcTime (rtc_get_datetime s)))) /\
  load8 (memory (set_ikb_datetime_msg base RTCEMUL_DATETIME_BCD RTCEMUL_Y2K_PATCH
                   RTCEMUL_DATETIME_MSDOS g y s)) (u32 (base + RTCEMUL_DATETIME_BCD) + 3) =
    to_bcd (u8 (month (rtcTime (rtc_get_datetime s)))) /\
  load8 (memory (set_ikb_datetime_msg base RTCEMUL_DATETIME_BCD RTCEMUL_Y2K_PATCH
                   RTCEMUL_DATETIME_MSDOS g y s)) (u32 (base + RTCEMUL_DATETIME_BCD) + 4) =
    to_bcd (u8 (min (rtcTime (rtc_get_datetime s)))) /\
  load8 (memory (set_ikb_datetime_msg base RTCEMUL_DATETIME_BCD RTCEMUL_Y2K_PATCH
                   RTCEMUL_DATETIME_MSDOS g y s)) (u32 (base + RTCEMUL_DATETIME_BCD) + 5) =
    to_bcd (u8 (hour (rtcTime (rtc_get_datetime s)))) /\
  load8 (memory (set_ikb_datetime_msg base RTCEMUL_DATETIME_BCD RTCEMUL_Y2K_PATCH
                   RTCEMUL_DATETIME_MSDOS g y s)) (u32 (base + RTCEMUL_DATETIME_BCD) + 6) = 0 /\
  load8 (memory (set_ikb_datetime_msg base RTCEMUL_DATETIME_BCD RTCEMUL_Y2K_PATCH
                   RTCEMUL_DATETIME_MSDOS g y s)) (u32 (base + RTCEMUL_DATETIME_BCD) + 7) =
    to_bcd (u8 (sec (rtcTime (rtc_get_datetime s)))) /\
  load32 (memory (set_ikb_datetime_msg base RTCEMUL_DATETIME_BCD RTCEMUL_Y2K_PATCH
                    RTCEMUL_DATETIME_MSDOS g y s)) (base + RTCEMUL_DATETIME_MSDOS) =
    packed_msdos (rtcTime (rtc_get_datetime s)).
Proof.
  unfold set_ikb_datetime_msg. cbn [memory set_memory].
  unfold WRITE_LONGWORD_RAW.
  rewrite load32_store32_eq by reflexivity.
  rewrite !load8_store32_ne by (intros; addr_solve).
  destruct ((0 <=? u16 g) && y);
    (repeat split; try (mem_simp32; first [apply to_bcd_u8 | reflexivity]));
    unfold packed_msdos; apply u32_idem.
Qed.

Lemma load32_store8_ne a b v m :
  (forall j, 0 <= j < 4 -> u32 a <> u32 (b + j)) ->
  load32 (store8 a v m) b = load32 m b.
Proof.
  intros H. apply load32_ext. intros i Hi. apply load8_store8_ne. apply H. exact Hi.
Qed.

(** With the patch off, the year is stored as it is and the flag is
    cleared. *)
Lemma ikb_no_patch base g s :
  load8 (memory (set_ikb_datetime_msg base RTCEMUL_DATETIME_BCD RTCEMUL_Y2K_PATCH
                   RTCEMUL_DATETIME_MSDOS g false s)) (u32 (base + RTCEMUL_DATETIME_BCD) + 0) =
    to_bcd (u8 (Z.rem (year (rtcTime (rtc_get_datetime s))) 100)) /\
  load32 (memory (set_ikb_datetime_msg base RTCEMUL_DATETIME_BCD RTCEMUL_Y2K_PATCH
                    RTCEMUL_DATETIME_MSDOS g false s)) (base + RTCEMUL_Y2K_PATCH) = 0.
Proof.
  unfold set_ikb_datetime_msg. rewrite andb_false_r. cbn [memory set_memory].
  unfold WRITE_LONGWORD_RAW. split.
  - mem_simp32. apply to_bcd_u8.
  - rewrite load32_store32_ne by (intros; addr_solve).
    rewrite !load32_store8_ne by (intros; addr_solve).
    apply load32_store32_eq. reflexivity.
Qed.

(** The year byte that [set_ikb_datetime_msg] stores. *)
Lemma ikb_year base g y s :
  load8 (memory (set_ikb_datetime_msg base RTCEMUL_DATETIME_BCD RTCEMUL_Y2K_PATCH
                   RTCEMUL_DATETIME_MSDOS g y s)) (u32 (base + RTCEMUL_DATETIME_BCD) + 0) =
    if y then add_bcd (to_bcd (u8 (Z.rem (year (rtcTime (rtc_get_datetime s))) 100))) (to_bcd 70)
    else to_bcd (u8 (Z.rem (year (rtcTime (rtc_get_datetime s))) 100)).
Proof.
  destruct y.
  - apply ikb_y2k_fields.
  - apply ikb_no_patch.
Qed.

Lemma rtc_loop_memory s :
  lastProtocolValid s = true ->
  memory (rtc_loop s) =
    memory (rtc_publish_token (TPROTO_GET_RANDOM_TOKEN (payload (lastProtocol s)))
              (rtc_command s)) /\
  memorySharedAddress (rtc_loop s) = memorySharedAddress s.
Proof.
  intros Hv. destruct (same_statics_process s) as (_ & _ & Hb & _).
  unfold rtc_loop, rtc_loop_clear. cbn [memory memorySharedAddress set_lastProtocolValid].
  split; [| exact Hb]. unfold rtc_loop_process. rewrite Hv. reflexivity.
Qed.

(** A pass of [rtc_loop] writes, beyond what the command writes, the
    eight bytes of the token pair only. *)
Lemma rtc_loop_load8 s a :
  preinit_done s -> lastProtocolValid s = true ->
  outside a (memorySharedAddress s + RTCEMUL_RANDOM_TOKEN_OFFSET) 8 ->
  load8 (memory (rtc_loop s)) a = load8 (memory (rtc_command s)) a.
Proof.
  intros Hpre Hv Hout. destruct (rtc_loop_memory s Hv) as [-> _].
  destruct (same_statics_command s) as (_ & _ & Hb & _).
  apply publish_load8_outside.
  - eapply preinit_done_same; [apply same_statics_command | exact Hpre].
  - rewrite Hb. exact Hout.
Qed.

Lemma rtc_command_read_time s :
  command_id (lastProtocol s) = RTCEMUL_READ_TIME ->
  rtc_command s =
    set_ikb_datetime_msg (memorySharedAddress s) RTCEMUL_DATETIME_BCD RTCEMUL_Y2K_PATCH
      RTCEMUL_DATETIME_MSDOS
      (s16 (GET_SHARED_VAR SHARED_VARIABLE_SVERSION (memorySharedAddress s)
              RTCEMUL_SHARED_VARIABLES (memory s))) (y2kPatchEnabled s) s.
Proof. intros H. unfold rtc_command. rewrite H, Z.eqb_refl. reflexivity. Qed.

(** What READ_TIME leaves in the two datetime fields, as a function of the
    clock and of the patch switch. *)
Lemma read_time_output s :
  preinit_done s -> lastProtocolValid s = true ->
  command_id (lastProtocol s) = RTCEMUL_READ_TIME ->
  DatetimeBcd (rtc_loop s) 0 =
    (if y2kPatchEnabled s
     then add_bcd (to_bcd (u8 (Z.rem (year (rtcTime (rtc_get_datetime s))) 100))) (to_bcd 70)
     else to_bcd (u8 (Z.rem (year (rtcTime (rtc_get_datetime s))) 100))) /\
  DatetimeBcd (rtc_loop s) 1 = 0x1b /\
  DatetimeBcd (rtc_loop s) 2 = to_bcd (u8 (day (rtcTime (rtc_get_datetime s)))) /\
  DatetimeBcd (rtc_loop s) 3 = to_bcd (u8 (month (rtcTime (rtc_get_datetime s)))) /\
  DatetimeBcd (rtc_loop s) 4 = to_bcd (u8 (min (rtcTime (rtc_get_datetime s)))) /\
  DatetimeBcd (rtc_loop s) 5 = to_bcd (u8 (hour (rtcTime (rtc_get_datetime s)))) /\
  DatetimeBcd (rtc_loop s) 6 = 0 /\
  DatetimeBcd (rtc_loop s) 7 = to_bcd (u8 (sec (rtcTime (rtc_get_datetime s)))) /\
  DatetimeMsdos (rtc_loop s) = packed_msdos (rtcTime (rtc_get_datetime s)).
Proof.
  intros Hpre Hv Hid.
  destruct (rtc_loop_memory s Hv) as [_ Hb].
  pose proof (ikb_year (memorySharedAddress s)
                (s16 (GET_SHARED_VAR SHARED_VARIABLE_SVERSION (memorySharedAddress s)
                        RTCEMUL_SHARED_VARIABLES (memory s))) (y2kPatchEnabled s) s) as Hy.
  destruct (ikb_record (memorySharedAddress s)
                (s16 (GET_SHARED_VAR SHARED_VARIABLE_SVERSION (memorySharedAddress s)
                        RTCEMUL_SHARED_VARIABLES (memory s))) (y2kPatchEnabled s) s)
    as (H1 & H2 & H3 & H4 & H5 & H6 & H7 & Hm).
  rewrite <- (rtc_command_read_time s Hid) in Hy, H1, H2, H3, H4, H5, H6, H7, Hm.
  unfold DatetimeBcd, DatetimeMsdos. rewrite Hb.
  rewrite !(rtc_loop_load8 s) by (first [assumption | intros j Hj; addr_solve]).
  rewrite (load32_ext (memory (rtc_command s)) (memory (rtc_loop s))).
  2:{ intros i Hi. apply rtc_loop_load8; [assumption | assumption | intros j Hj; addr_solve]. }
  auto 10.
Qed.

Lemma staged_facts frame s s' :
  handle_protocol_command frame s = Some s' ->
  memory s' = memory s /\ memorySharedAddress s' = memorySharedAddress s /\
  (preinit_done s -> preinit_done s') /\
  y2kPatchEnabled s' = y2kPatchEnabled s /\ hw_rtc s' = hw_rtc s /\
  rtcTime s' = rtcTime s /\
  lastProtocolValid s' = true /\ command_id (lastProtocol s') = command_id frame.
Proof.
  intros H. destruct (handle_protocol_command_inv frame s s' H) as (lp & -> & Hlp).
  rewrite <- Hlp.
  split; [reflexivity |]. split; [reflexivity |].
  split; [intros [H1 H2]; split; assumption |].
  repeat (split; [reflexivity |]). reflexivity.
Qed.

Lemma rtcTime_publish T s : rtcTime (rtc_publish_token T s) = rtcTime s.
Proof.
  unfold rtc_publish_token. destruct (negb (memoryRandomTokenAddress s =? 0)); reflexivity.
Qed.

Lemma rtcTime_after_read_time s :
  lastProtocolValid s = true -> command_id (lastProtocol s) = RTCEMUL_READ_TIME ->
  rtcTime (rtc_loop s) = rtcTime (rtc_get_datetime s).
Proof.
  intros Hv Hid. unfold rtc_loop, rtc_loop_clear, rtc_loop_process. rewrite Hv.
  cbn [rtcTime set_lastProtocolValid]. rewrite rtcTime_publish, rtc_command_read_time by exact Hid.
  destruct (set_ikb_datetime_msg_memory (memorySharedAddress s) RTCEMUL_DATETIME_BCD
              RTCEMUL_Y2K_PATCH RTCEMUL_DATETIME_MSDOS
              (s16 (GET_SHARED_VAR SHARED_VARIABLE_SVERSION (memorySharedAddress s)
                      RTCEMUL_SHARED_VARIABLES (memory s))) (y2kPatchEnabled s) s) as [m ->].
  reflexivity.
Qed.

Lemma same_statics_loop s :
  memorySharedAddress (rtc_loop s) = memorySharedAddress s /\
  y2kPatchEnabled (rtc_loop s) = y2kPatchEnabled s /\ hw_rtc (rtc_loop s) = hw_rtc s.
Proof.
  destruct (same_statics_process s) as (_ & _ & Hb & _ & _ & Hy & Hh & _).
  unfold rtc_loop, rtc_loop_clear. auto.
Qed.

(** X3: a pass of [rtc_loop] over a READ_TIME frame leaves the IKBD record
    of the clock in the [DATETIME_BCD] field: the year (patched by 70 when
    the Y2K patch is on), the marker 0x1b, day, month, minute, hour, a zero
    byte and the second, each in BCD, in the order in which
    [set_ikb_datetime_msg] stores them. *)
Theorem read_time_ikbd_record s :
  preinit_done s -> lastProtocolValid s = true ->
  command_id (lastProtocol s) = RTCEMUL_READ_TIME ->
  DatetimeBcd (rtc_loop s) 0 =
    (if y2kPatchEnabled s
     then add_bcd (to_bcd (u8 (Z.rem (year (rtcTime (rtc_get_datetime s))) 100))) (to_bcd 70)
     else to_bcd (u8 (Z.rem (year (rtcTime (rtc_get_datetime s))) 100))) /\
  DatetimeBcd (rtc_loop s) 1 = 0x1b /\
  DatetimeBcd (rtc_loop s) 2 = to_bcd (u8 (day (rtcTime (rtc_get_datetime s)))) /\
  DatetimeBcd (rtc_loop s) 3 = to_bcd (u8 (month (rtcTime (rtc_get_datetime s)))) /\
  DatetimeBcd (rtc_loop s) 4 = to_bcd (u8 (min (rtcTime (rtc_get_datetime s)))) /\
  DatetimeBcd (rtc_loop s) 5 = to_bcd (u8 (hour (rtcTime (rtc_get_datetime s)))) /\
  DatetimeBcd (rtc_loop s) 6 = 0 /\
  DatetimeBcd (rtc_loop s) 7 = to_bcd (u8 (sec (rtcTime (rtc_get_datetime s)))).
Proof.
  intros Hpre Hv Hid.
  destruct (read_time_output s Hpre Hv Hid) as (H0 & H1 & H2 & H3 & H4 & H5 & H6 & H7 & _).
  auto 10.
Qed.

(** X4: for a clock in the years 1980..2107 with fields in the widths of
    the format, the longword that READ_TIME leaves in [DATETIME_MSDOS]
    decodes by shifts and masks to the year since 1980, month, day, hour,
    minute and half the second. *)
Theorem read_time_msdos_decode s :
  preinit_done s -> lastProtocolValid s = true ->
  command_id (lastProtocol s) = RTCEMUL_READ_TIME ->
  1980 <= year (rtcTime (rtc_get_datetime s)) <= 2107 ->
  0 <= month (rtcTime (rtc_get_datetime s)) < 16 ->
  0 <= day (rtcTime (rtc_get_datetime s)) < 32 ->
  0 <= hour (rtcTime (rtc_get_datetime s)) < 32 ->
  0 <= min (rtcTime (rtc_get_datetime s)) < 64 ->
  0 <= sec (rtcTime (rtc_get_datetime s)) < 64 ->
  Z.shiftr (DatetimeMsdos (rtc_loop s)) 25 = year (rtcTime (rtc_get_datetime s)) - 1980 /\
  Z.land (Z.shiftr (DatetimeMsdos (rtc_loop s)) 21) 15 = month (rtcTime (rtc_get_datetime s)) /\
  Z.land (Z.shiftr (DatetimeMsdos (rtc_loop s)) 16) 31 = day (rtcTime (rtc_get_datetime s)) /\
  Z.land (Z.shiftr (DatetimeMsdos (rtc_loop s)) 11) 31 = hour (rtcTime (rtc_get_datetime s)) /\
  Z.land (Z.shiftr (DatetimeMsdos (rtc_loop s)) 5) 63 = min (rtcTime (rtc_get_datetime s)) /\
  Z.land (DatetimeMsdos (rtc_loop s)) 31 = Z.quot (sec (rtcTime (rtc_get_datetime s))) 2.
Proof.
  intros Hpre Hv Hid Hy Hm Hd Hh Hmi Hs.
  destruct (read_time_output s Hpre Hv Hid) as (_ & _ & _ & _ & _ & _ & _ & _ & ->).
  apply packed_msdos_decode; assumption.
Qed.

(** X5: with the Y2K patch off, READ_TIME stores the two-digit year as it
    is and clears the [Y2K_PATCH] flag in the shared region. *)
Theorem read_time_without_patch s :
  preinit_done s -> lastProtocolValid s = true ->
  command_id (lastProtocol s) = RTCEMUL_READ_TIME ->
  y2kPatchEnabled s = false ->
  DatetimeBcd (rtc_loop s) 0 = to_bcd (u8 (Z.rem (year (rtcTime (rtc_get_datetime s))) 100)) /\
  Y2kPatch (rtc_loop s) = 0.
Proof.
  intros Hpre Hv Hid Hoff.
  destruct (read_time_output s Hpre Hv Hid) as (H0 & _). rewrite Hoff in H0.
  split; [exact H0 |].
  destruct (rtc_loop_memory s Hv) as [_ Hb].
  unfold Y2kPatch. rewrite Hb.
  rewrite (load32_ext (memory (rtc_command s)) (memory (rtc_loop s))).
  2:{ intros i Hi. apply rtc_loop_load8; [assumption | assumption | intros j Hj; addr_solve]. }
  rewrite rtc_command_read_time by exact Hid. rewrite Hoff. apply ikb_no_patch.
Qed.

(** X6: a second READ_TIME frame, staged after the pass over the first,
    leaves the same IKBD record and the same MSDOS longword (the hardware
    clock of the model does not advance between the two). *)
Theorem read_time_idempotent frame s s2 :
  preinit_done s -> lastProtocolValid s = true ->
  command_id (lastProtocol s) = RTCEMUL_READ_TIME ->
  command_id frame = RTCEMUL_READ_TIME ->
  handle_protocol_command frame (rtc_loop s) = Some s2 ->
  (forall i, 0 <= i < 8 -> DatetimeBcd (rtc_loop s2) i = DatetimeBcd (rtc_loop s) i) /\
  DatetimeMsdos (rtc_loop s2) = DatetimeMsdos (rtc_loop s).
Proof.
  intros Hpre Hv Hid Hid2 Hstage.
  destruct (staged_facts frame (rtc_loop s) s2 Hstage)
    as (_ & _ & Hpre2 & Hy2 & Hh2 & Ht2 & Hv2 & Hc2).
  destruct (same_statics_loop s) as (_ & Hy1 & Hh1).
  rewrite Hid2 in Hc2. rewrite Hy1 in Hy2. rewrite Hh1 in Hh2.
  rewrite (rtcTime_after_read_time s Hv Hid) in Ht2.
  assert (Hclock : rtcTime (rtc_get_datetime s2) = rtcTime (rtc_get_datetime s)).
  { unfold rtc_get_datetime at 1. rewrite Hh2. unfold rtc_get_datetime in *.
    destruct (hw_rtc s); [reflexivity | exact Ht2]. }
  destruct (read_time_output s Hpre Hv Hid)
    as (A0 & A1 & A2 & A3 & A4 & A5 & A6 & A7 & Am).
  destruct (read_time_output s2 (Hpre2 (rtc_loop_preinit_done s Hpre)) Hv2 Hc2)
    as (B0 & B1 & B2 & B3 & B4 & B5 & B6 & B7 & Bm).
  rewrite Hclock, Hy2 in *.
  split; [| congruence].
  intros i Hi.
  assert (Hcases : i = 0 \/ i = 1 \/ i = 2 \/ i = 3 \/ i = 4 \/ i = 5 \/ i = 6 \/ i = 7) by lia.
  destruct Hcases as [-> | [-> | [-> | [-> | [-> | [-> | [-> | ->]]]]]]]; congruence.
Qed.

(** X7: after a pass of [rtc_loop], a second pass with no new frame
    staged changes nothing. *)
Theorem rtc_loop_twice s : rtc_loop (rtc_loop s) = rtc_loop s.
Proof. apply rtc_loop_idle. reflexivity. Qed.

Lemma rtc_command_unknown s :
  command_id (lastProtocol s) <> RTCEMUL_READ_TIME ->
  command_id (lastProtocol s) <> RTCEMUL_SAVE_VECTORS ->
  command_id (lastProtocol s) <> RTCEMUL_REENTRY_LOCK ->
  command_id (lastProtocol s) <> RTCEMUL_REENTRY_UNLOCK ->
  command_id (lastProtocol s) <> RTCEMUL_SET_SHARED_VAR ->
  rtc_command s = s.
Proof.
  intros H1 H2 H3 H4 H5. unfold rtc_command.
  apply Z.eqb_neq in H1, H2, H3, H4, H5. rewrite H1, H2, H3, H4, H5. reflexivity.
Qed.

(** X8: a frame with a command code outside the five of rtc.h changes no
    byte of the memory other than the eight of the token and its seed,
    and neither the clock state nor the hardware clock. *)
Theorem unknown_command_touches_token_only s a :
  preinit_done s -> lastProtocolValid s = true ->
  command_id (lastProtocol s) <> RTCEMUL_READ_TIME ->
  command_id (lastProtocol s) <> RTCEMUL_SAVE_VECTORS ->
  command_id (lastProtocol s) <> RTCEMUL_REENTRY_LOCK ->
  command_id (lastProtocol s) <> RTCEMUL_REENTRY_UNLOCK ->
  command_id (lastProtocol s) <> RTCEMUL_SET_SHARED_VAR ->
  outside a (memorySharedAddress s + RTCEMUL_RANDOM_TOKEN_OFFSET) 8 ->
  load8 (memory (rtc_loop s)) a = load8 (memory s) a /\
  rtcTime (rtc_loop s) = rtcTime s /\ hw_rtc (rtc_loop s) = hw_rtc s.
Proof.
  intros Hpre Hv H1 H2 H3 H4 H5 Hout.
  rewrite (rtc_loop_load8 s a Hpre Hv Hout).
  pose proof (rtc_command_unknown s H1 H2 H3 H4 H5) as Hc. rewrite Hc.
  split; [reflexivity |]. split; [| apply same_statics_loop].
  unfold rtc_loop, rtc_loop_clear, rtc_loop_process. rewrite Hv, Hc.
  cbn [rtcTime set_lastProtocolValid]. apply rtcTime_publish.
Qed.

Lemma rtc_command_reentry s :
  command_id (lastProtocol s) = RTCEMUL_REENTRY_LOCK \/
  command_id (lastProtocol s) = RTCEMUL_REENTRY_UNLOCK ->
  memory (rtc_command s) =
    WRITE_LONGWORD_RAW (memorySharedAddress s) RTCEMUL_REENTRY_TRAP
      (if command_id (lastProtocol s) =? RTCEMUL_REENTRY_LOCK then 0xFFFFFFFF else 0)
      (memory s).
Proof.
  intros [H | H]; unfold rtc_command; rewrite H; reflexivity.
Qed.

Lemma reentry_pass_value s :
  preinit_done s -> lastProtocolValid s = true ->
  command_id (lastProtocol s) = RTCEMUL_REENTRY_LOCK \/
  command_id (lastProtocol s) = RTCEMUL_REENTRY_UNLOCK ->
  ReentryTrap (rtc_loop s) =
    (if command_id (lastProtocol s) =? RTCEMUL_REENTRY_LOCK then 0xFFFFFFFF else 0).
Proof.
  intros Hpre Hv Hid.
  destruct (rtc_loop_memory s Hv) as [_ Hb].
  pose proof (rtc_command_reentry s Hid) as Hm.
  unfold ReentryTrap. rewrite Hb.
  rewrite (load32_ext (memory (rtc_command s)) (memory (rtc_loop s))).
  2:{ intros i Hi. apply rtc_loop_load8; [assumption | assumption | intros j Hj; addr_solve]. }
  rewrite Hm. unfold WRITE_LONGWORD_RAW. rewrite load32_store32_eq by reflexivity.
  destruct (command_id (lastProtocol s) =? RTCEMUL_REENTRY_LOCK); reflexivity.
Qed.

Lemma reentry_pass_frame s a :
  preinit_done s -> lastProtocolValid s = true ->
  command_id (lastProtocol s) = RTCEMUL_REENTRY_LOCK \/
  command_id (lastProtocol s) = RTCEMUL_REENTRY_UNLOCK ->
  outside a (memorySharedAddress s + RTCEMUL_RANDOM_TOKEN_OFFSET) 8 ->
  outside a (memorySharedAddress s + RTCEMUL_REENTRY_TRAP) 4 ->
  load8 (memory (rtc_loop s)) a = load8 (memory s) a.
Proof.
  intros Hpre Hv Hid Hout Hre.
  rewrite (rtc_loop_load8 s a Hpre Hv Hout), (rtc_command_reentry s Hid).
  unfold WRITE_LONGWORD_RAW. apply load8_store32_outside. exact Hre.
Qed.

(** X9: REENTRY_LOCK writes 0xFFFFFFFF and REENTRY_UNLOCK writes 0 to the
    [REENTRY_TRAP] field; beyond that field and the token pair the pass
    changes no byte. *)
Theorem reentry_commands s a :
  preinit_done s -> lastProtocolValid s = true ->
  command_id (lastProtocol s) = RTCEMUL_REENTRY_LOCK \/
  command_id (lastProtocol s) = RTCEMUL_REENTRY_UNLOCK ->
  outside a (memorySharedAddress s + RTCEMUL_RANDOM_TOKEN_OFFSET) 8 ->
  outside a (memorySharedAddress s + RTCEMUL_REENTRY_TRAP) 4 ->
  ReentryTrap (rtc_loop s) =
    (if command_id (lastProtocol s) =? RTCEMUL_REENTRY_LOCK then 0xFFFFFFFF else 0) /\
  load8 (memory (rtc_loop s)) a = load8 (memory s) a.
Proof.
  intros Hpre Hv Hid Hout Hre. split.
  - apply reentry_pass_value; assumption.
  - apply reentry_pass_frame; assumption.
Qed.

(** X10: a LOCK frame followed by an UNLOCK frame: the reentry flag is
    set after the first pass and clear after the second, and the saved
    XBIOS vector, the Y2K flag and the MSDOS longword are as before the
    two. *)
Theorem lock_unlock_sequence lock unlock s1 s1' s2' :
  preinit_done s1 ->
  command_id lock = RTCEMUL_REENTRY_LOCK -> command_id unlock = RTCEMUL_REENTRY_UNLOCK ->
  handle_protocol_command lock s1 = Some s1' ->
  handle_protocol_command unlock (rtc_loop s1') = Some s2' ->
  ReentryTrap (rtc_loop s1') = 0xFFFFFFFF /\
  ReentryTrap (rtc_loop s2') = 0 /\
  OldXbiosTrap (rtc_loop s2') = OldXbiosTrap s1 /\
  Y2kPatch (rtc_loop s2') = Y2kPatch s1 /\
  DatetimeMsdos (rtc_loop s2') = DatetimeMsdos s1.
Proof.
  intros Hpre Hl Hu Hs1 Hs2.
  destruct (staged_facts lock s1 s1' Hs1) as (Hm1 & Hb1 & Hp1 & _ & _ & _ & Hv1 & Hc1).
  destruct (staged_facts unlock (rtc_loop s1') s2' Hs2)
    as (Hm2 & Hb2 & Hp2 & _ & _ & _ & Hv2 & Hc2).
  rewrite Hl in Hc1. rewrite Hu in Hc2.
  specialize (Hp1 Hpre). specialize (Hp2 (rtc_loop_preinit_done s1' Hp1)).
  destruct (same_statics_loop s1') as (Hbl1 & _). destruct (same_statics_loop s2') as (Hbl2 & _).
  assert (Hkeep : forall off, 0xF008 <= off -> off + 4 <= 0xF020 \/ 0xF024 <= off ->
            off <= 0xFFF0 ->
            load32 (memory (rtc_loop s2')) (memorySharedAddress s1 + off) =
            load32 (memory s1) (memorySharedAddress s1 + off)).
  { intros off Hlo Hmid Hhi. rewrite <- Hm1.
    transitivity (load32 (memory (rtc_loop s1')) (memorySharedAddress s1 + off)).
    - rewrite <- Hm2. apply load32_ext. intros i Hi.
      apply (reentry_pass_frame s2' (memorySharedAddress s1 + off + i) Hp2 Hv2);
        [right; exact Hc2 | |]; rewrite Hb2, Hbl1, Hb1; intros j Hj; addr_solve.
    - apply load32_ext. intros i Hi.
      apply (reentry_pass_frame s1' (memorySharedAddress s1 + off + i) Hp1 Hv1);
        [left; exact Hc1 | |]; rewrite Hb1; intros j Hj; addr_solve. }
  split; [| split; [| split; [| split]]].
  - rewrite (reentry_pass_value s1' Hp1 Hv1 (or_introl Hc1)), Hc1. reflexivity.
  - rewrite (reentry_pass_value s2' Hp2 Hv2 (or_intror Hc2)), Hc2. reflexivity.
  - unfold OldXbiosTrap. rewrite Hbl2, Hb2, Hbl1, Hb1. apply Hkeep; [| left |];
      unfold RTCEMUL_OLD_XBIOS_TRAP, RTCEMUL_DATETIME_MSDOS, RTCEMUL_DATETIME_BCD,
        RTCEMUL_NTP_SUCCESS, RTCEMUL_RANDOM_TOKEN_SEED_OFFSET, RTCEMUL_RANDOM_TOKEN_OFFSET; lia.
  - unfold Y2kPatch. rewrite Hbl2, Hb2, Hbl1, Hb1. apply Hkeep; [| right |];
      unfold RTCEMUL_Y2K_PATCH, RTCEMUL_REENTRY_TRAP, RTCEMUL_OLD_XBIOS_TRAP,
        RTCEMUL_DATETIME_MSDOS, RTCEMUL_DATETIME_BCD,
        RTCEMUL_NTP_SUCCESS, RTCEMUL_RANDOM_TOKEN_SEED_OFFSET, RTCEMUL_RANDOM_TOKEN_OFFSET; lia.
  - unfold DatetimeMsdos. rewrite Hbl2, Hb2, Hbl1, Hb1. apply Hkeep; [| left |];
      unfold RTCEMUL_DATETIME_MSDOS, RTCEMUL_DATETIME_BCD,
        RTCEMUL_NTP_SUCCESS, RTCEMUL_RANDOM_TOKEN_SEED_OFFSET, RTCEMUL_RANDOM_TOKEN_OFFSET; lia.
Qed.
(** [add_bcd] with the constant of the Y2K patch. *)
Lemma add_bcd_70 y :
  0 <= y <= 99 ->
  (add_bcd (to_bcd y) (to_bcd 70) = to_bcd ((y + 70) mod 100) <-> y <= 89).
Proof.
  intros Hr.
  assert (Hall : forallb (fun n =>
             Bool.eqb (add_bcd (to_bcd (Z.of_nat n)) (to_bcd 70) =?
                       to_bcd ((Z.of_nat n + 70) mod 100))
                      (Z.of_nat n <=? 89)) (seq 0 100) = true)
    by (vm_compute; reflexivity).
  rewrite forallb_forall in Hall.
  specialize (Hall (Z.to_nat y)).
  rewrite Z2Nat.id in Hall by lia.
  assert (Hin : In (Z.to_nat y) (seq 0 100)) by (apply in_seq; lia).
  specialize (Hall Hin). apply eqb_prop in Hall.
  rewrite <- Z.leb_le, <- Hall, Z.eqb_eq. reflexivity.
Qed.

(** X2: with the Y2K patch on, the year byte that READ_TIME stores is the
    BCD of the two-digit year plus 70, modulo 100, exactly for the
    two-digit years up to 89; for the years 90 to 99 of a century the sum
    of the tens digits no longer fits [add_bcd]'s 8-bit local. *)
Theorem read_time_y2k_year_range s :
  preinit_done s -> lastProtocolValid s = true ->
  command_id (lastProtocol s) = RTCEMUL_READ_TIME ->
  y2kPatchEnabled s = true ->
  0 <= year (rtcTime (rtc_get_datetime s)) ->
  (DatetimeBcd (rtc_loop s) 0 =
     to_bcd ((year (rtcTime (rtc_get_datetime s)) mod 100 + 70) mod 100)
   <-> year (rtcTime (rtc_get_datetime s)) mod 100 <= 89).
Proof.
  intros Hpre Hv Hc Hy Hpos.
  destruct (read_time_output s Hpre Hv Hc) as (H0 & _). rewrite H0, Hy.
  rewrite Z.rem_mod_nonneg by lia.
  assert (Hm : 0 <= year (rtcTime (rtc_get_datetime s)) mod 100 < 100)
    by (apply Z.mod_pos_bound; lia).
  replace (u8 (year (rtcTime (rtc_get_datetime s)) mod 100))
    with (year (rtcTime (rtc_get_datetime s)) mod 100)
    by (unfold u8; symmetry; apply Z.mod_small; lia).
  apply add_bcd_70. lia.
Qed.

End ReadTime.

(** ** The BCD encoder on all bytes *)

(** X1: [to_bcd] on a byte gives valid BCD that decodes to the value
    exactly for the values up to 99; above, the tens digit leaves the
    decimal range or is cut by the [uint8_t] result. *)
Theorem to_bcd_round_trip val :
  0 <= val <= 255 ->
  (valid_bcd (to_bcd val) = true /\ bcd_value (to_bcd val) = val <-> val <= 99).
Proof.
  intros Hr.
  assert (Hall : forallb (fun n =>
             Bool.eqb (valid_bcd (to_bcd (Z.of_nat n)) &&
                       (bcd_value (to_bcd (Z.of_nat n)) =? Z.of_nat n))
                      (Z.of_nat n <=? 99)) (seq 0 256) = true)
    by (vm_compute; reflexivity).
  rewrite forallb_forall in Hall.
  specialize (Hall (Z.to_nat val)).
  rewrite Z2Nat.id in Hall by lia.
  assert (Hin : In (Z.to_nat val) (seq 0 256)) by (apply in_seq; lia).
  specialize (Hall Hin). apply eqb_prop in Hall.
  rewrite <- Z.leb_le, <- Hall, andb_true_iff, Z.eqb_eq. reflexivity.
Qed.

(** ** The magic sequence in general *)

(** X14: [populateMagicSequence], for any structure, array and value:
    the array keeps its length, the elements before index 2 and from
    index 66 on are not written, running it again changes nothing, and
    only the low 64 bits of the value matter. *)
Theorem populateMagicSequence_frame dc (sequence : list Z) hex_value (i : nat) :
  length (populateMagicSequence dc sequence hex_value) = length sequence /\
  ((i < 2)%nat \/ (66 <= i)%nat ->
   populateMagicSequence dc sequence hex_value !! i = sequence !! i) /\
  populateMagicSequence dc (populateMagicSequence dc sequence hex_value) hex_value =
    populateMagicSequence dc sequence hex_value /\
  (0 <= hex_value ->
   populateMagicSequence dc sequence (hex_value mod 2 ^ 64) =
   populateMagicSequence dc sequence hex_value).
Proof.
  split; [apply populateMagicSequence_length |]. split; [| split].
  - intros Hi. rewrite populateMagicSequence_lookup.
    destruct (decide _) as [[? ?] | ?]; [lia | reflexivity].
  - apply list_eq. intros j. rewrite !populateMagicSequence_lookup.
    rewrite populateMagicSequence_length.
    destruct (decide _) as [[? ?] | ?]; reflexivity.
  - intros Hh. apply list_eq. intros j. rewrite !populateMagicSequence_lookup.
    destruct (decide _) as [[? ?] | ?]; [| reflexivity].
    rewrite Z.mod_pow2_bits_low by lia. reflexivity.
Qed.

(** ** Initialisation: what [rtc_postinit] leaves *)

Section Postinit.
Context `{P : Platform}.

Lemma postinit_shared_load8 s a :
  outside a (memorySharedAddress s + RTCEMUL_NTP_SUCCESS) 4 ->
  outside a (memorySharedAddress s + RTCEMUL_REENTRY_TRAP) 4 ->
  outside a (memorySharedAddress s + RTCEMUL_SHARED_VARIABLES) 12 ->
  load8 (memory (postinit_shared s)) a = load8 (memory s) a.
Proof.
  intros Hn Hr Hv. unfold postinit_shared. cbn [memory set_memory].
  unfold SET_SHARED_VAR, WRITE_AND_SWAP_LONGWORD, WRITE_LONGWORD_RAW, store16.
  assert (Hv' : forall i, 0 <= i < 12 ->
            u32 (memorySharedAddress s + RTCEMUL_SHARED_VARIABLES + i) <> u32 a).
  { intros i Hi Heq. apply (Hv i Hi). congruence. }
  assert (Hs : forall b v m,
            (exists i, 0 <= i < 12 /\
                       u32 b = u32 (memorySharedAddress s + RTCEMUL_SHARED_VARIABLES + i)) ->
            load8 (store8 b v m) a = load8 m a).
  { intros b v m (i & Hi & Hb). apply load8_store8_ne. rewrite Hb. apply Hv'. exact Hi. }
  rewrite (Hs _ _ _) by (exists 9; split; [lia | addr_solve_sv]).
  rewrite (Hs _ _ _) by (exists 8; split; [lia | addr_solve_sv]).
  rewrite (Hs _ _ _) by (exists 11; split; [lia | addr_solve_sv]).
  rewrite (Hs _ _ _) by (exists 10; split; [lia | addr_solve_sv]).
  rewrite (Hs _ _ _) by (exists 5; split; [lia | addr_solve_sv]).
  rewrite (Hs _ _ _) by (exists 4; split; [lia | addr_solve_sv]).
  rewrite (Hs _ _ _) by (exists 7; split; [lia | addr_solve_sv]).
  rewrite (Hs _ _ _) by (exists 6; split; [lia | addr_solve_sv]).
  rewrite (Hs _ _ _) by (exists 1; split; [lia | addr_solve_sv]).
  rewrite (Hs _ _ _) by (exists 0; split; [lia | addr_solve_sv]).
  rewrite (Hs _ _ _) by (exists 3; split; [lia | addr_solve_sv]).
  rewrite (Hs _ _ _) by (exists 2; split; [lia | addr_solve_sv]).
  rewrite !load8_store32_outside by assumption. reflexivity.
Qed.

Lemma postinit_rtc_type_frame rtcType s :
  memory (postinit_rtc_type rtcType s) = memory s /\
  memorySharedAddress (postinit_rtc_type rtcType s) = memorySharedAddress s /\
  memoryRandomTokenAddress (postinit_rtc_type rtcType s) = memoryRandomTokenAddress s /\
  memoryRandomTokenSeedAddress (postinit_rtc_type rtcType s) = memoryRandomTokenSeedAddress s /\
  y2kPatchEnabled (postinit_rtc_type rtcType s) = y2kPatchEnabled s /\
  rand_calls (postinit_rtc_type rtcType s) = rand_calls s.
Proof.
  unfold postinit_rtc_type. destruct rtcType as [value |]; [| repeat split].
  destruct (value =? "DALLAS")%string; [repeat split |].
  destruct (value =? "SIDECART")%string; repeat split.
Qed.

Lemma postinit_token_load8 s a :
  preinit_done s ->
  outside a (memorySharedAddress s + RTCEMUL_RANDOM_TOKEN_OFFSET) 8 ->
  load8 (memory (postinit_random_token s)) a = load8 (memory s) a.
Proof.
  intros [Htok Hseed] Hout. unfold postinit_random_token.
  destruct (negb (memoryRandomTokenAddress s =? 0)); [| reflexivity].
  cbn [rand memory set_memory set_rand_calls memoryRandomTokenAddress
       memoryRandomTokenSeedAddress].
  unfold TPROTO_SET_RANDOM_TOKEN. rewrite Htok, Hseed.
  rewrite !load8_store32_outside; [reflexivity | |].
  - intros i Hi. pose proof (Hout i ltac:(lia)) as Hi'. clear Hout. addr_solve.
  - intros i Hi. pose proof (Hout (4 + i) ltac:(lia)) as Hi'. clear Hout. addr_solve.
Qed.

Lemma postinit_y2k_facts y2kPatch s :
  memorySharedAddress (postinit_y2k y2kPatch s) = memorySharedAddress s /\
  memoryRandomTokenAddress (postinit_y2k y2kPatch s) = memoryRandomTokenAddress s /\
  memoryRandomTokenSeedAddress (postinit_y2k y2kPatch s) = memoryRandomTokenSeedAddress s /\
  rand_calls (postinit_y2k y2kPatch s) = rand_calls s /\
  y2kPatchEnabled (postinit_y2k y2kPatch s) =
    match y2kPatch with
    | Some (String firstChar _) => y2k_first_char firstChar
    | _ => y2kPatchEnabled s
    end /\
  memory (postinit_y2k y2kPatch s) =
    WRITE_LONGWORD_RAW (memorySharedAddress s) RTCEMUL_Y2K_PATCH
      (if y2k_setting_on y2kPatch then 0xFFFFFFFF else 0) (memory s).
Proof.
  unfold postinit_y2k, y2k_setting_on. destruct y2kPatch as [[| c r] |]; repeat split.
Qed.

(** The states at the five steps of [rtc_postinit] agree on the address
    statics. *)
Lemma postinit_steps_statics rtcType y2kPatch s :
  preinit_done s ->
  preinit_done (postinit_shared s) /\
  preinit_done (postinit_rtc_type rtcType (postinit_shared s)) /\
  preinit_done (postinit_y2k y2kPatch (postinit_rtc_type rtcType (postinit_shared s))) /\
  preinit_done (postinit_datetime
                  (postinit_y2k y2kPatch (postinit_rtc_type rtcType (postinit_shared s)))) /\
  memorySharedAddress
    (postinit_datetime
       (postinit_y2k y2kPatch (postinit_rtc_type rtcType (postinit_shared s)))) =
    memorySharedAddress s /\
  memorySharedAddress (postinit_rtc_type rtcType (postinit_shared s)) = memorySharedAddress s.
Proof.
  intros Hpre.
  assert (H1 : preinit_done (postinit_shared s)) by exact Hpre.
  destruct (postinit_rtc_type_frame rtcType (postinit_shared s)) as (_ & Hb2 & Ht2 & Hs2 & _).
  assert (H2 : preinit_done (postinit_rtc_type rtcType (postinit_shared s))).
  { destruct H1 as [A B]. split; congruence. }
  destruct (postinit_y2k_facts y2kPatch (postinit_rtc_type rtcType (postinit_shared s)))
    as (Hb3 & Ht3 & Hs3 & _).
  assert (H3 : preinit_done (postinit_y2k y2kPatch
                               (postinit_rtc_type rtcType (postinit_shared s)))).
  { destruct H2 as [A B]. split; congruence. }
  assert (Hst : same_statics
                  (postinit_y2k y2kPatch (postinit_rtc_type rtcType (postinit_shared s)))
                  (postinit_datetime
                     (postinit_y2k y2kPatch (postinit_rtc_type rtcType (postinit_shared s)))))
    by (unfold postinit_datetime; apply same_statics_ikb).
  split; [exact H1 |]. split; [exact H2 |]. split; [exact H3 |].
  split; [eapply preinit_done_same; eauto |].
  destruct Hst as (_ & _ & Hb4 & _).
  split; [| exact Hb2]. rewrite Hb4, Hb3, Hb2. reflexivity.
Qed.

Lemma postinit_load8 rtcType y2kPatch s a :
  preinit_done s ->
  outside a (memorySharedAddress s + RTCEMUL_RANDOM_TOKEN_OFFSET) 8 ->
  outside a (memorySharedAddress s + RTCEMUL_DATETIME_BCD) 12 ->
  outside a (memorySharedAddress s + RTCEMUL_Y2K_PATCH) 4 ->
  load8 (memory (snd (rtc_postinit rtcType y2kPatch s))) a =
  load8 (memory (postinit_shared s)) a.
Proof.
  intros Hpre Ht Hd Hy.
  destruct (postinit_steps_statics rtcType y2kPatch s Hpre) as (_ & _ & _ & H4 & Hb4 & Hb2).
  unfold rtc_postinit. cbn [snd].
  rewrite postinit_token_load8 by (first [exact H4 | rewrite Hb4; exact Ht]).
  unfold postinit_datetime.
  destruct (postinit_y2k_facts y2kPatch (postinit_rtc_type rtcType (postinit_shared s)))
    as (Hb3 & _ & _ & _ & _ & Hm3).
  rewrite ikb_load8_outside by (rewrite Hb3, Hb2; assumption).
  rewrite Hm3, Hb2. unfold WRITE_LONGWORD_RAW.
  rewrite load8_store32_outside by exact Hy.
  destruct (postinit_rtc_type_frame rtcType (postinit_shared s)) as (-> & _).
  reflexivity.
Qed.

Lemma postinit_shared_fields s :
  load32 (memory (postinit_shared s)) (memorySharedAddress s + RTCEMUL_NTP_SUCCESS) =
    0xFFFFFFFF /\
  load32 (memory (postinit_shared s)) (memorySharedAddress s + RTCEMUL_REENTRY_TRAP) = 0.
Proof.
  unfold postinit_shared. cbn [memory set_memory].
  unfold SET_SHARED_VAR, WRITE_AND_SWAP_LONGWORD, WRITE_LONGWORD_RAW, store16.
  split.
  - rewrite !load32_store8_ne by (intros; addr_solve_sv).
    rewrite load32_store32_ne by (intros; addr_solve).
    apply load32_store32_eq. reflexivity.
  - rewrite !load32_store8_ne by (intros; addr_solve_sv).
    apply load32_store32_eq. reflexivity.
Qed.

(** X11: [rtc_preinit] clears the [NTP_SUCCESS] field, and [rtc_postinit]
    after it leaves 0xFFFFFFFF there and 0 in [REENTRY_TRAP], whatever the
    settings. *)
Theorem init_publishes_ntp_status rtcType y2kPatch s :
  NtpSuccess (rtc_preinit s) = 0 /\
  NtpSuccess (snd (rtc_postinit rtcType y2kPatch (rtc_preinit s))) = 0xFFFFFFFF /\
  ReentryTrap (snd (rtc_postinit rtcType y2kPatch (rtc_preinit s))) = 0.
Proof.
  split.
  - unfold NtpSuccess, rtc_preinit. cbn [memory memorySharedAddress set_memory set_addresses].
    unfold WRITE_LONGWORD_RAW. apply load32_store32_eq. reflexivity.
  - pose proof (rtc_preinit_done s) as Hpre. revert Hpre. generalize (rtc_preinit s).
    intros s0 Hpre.
    destruct (postinit_steps_statics rtcType y2kPatch s0 Hpre) as (_ & _ & _ & H4 & Hb4 & _).
    assert (Hb : memorySharedAddress (snd (rtc_postinit rtcType y2kPatch s0)) =
                 memorySharedAddress s0).
    { unfold rtc_postinit. cbn [snd]. rewrite <- Hb4.
      unfold postinit_random_token.
      destruct (negb (memoryRandomTokenAddress _ =? 0)); reflexivity. }
    destruct (postinit_shared_fields s0) as [Hn Hr].
    unfold NtpSuccess, ReentryTrap. rewrite Hb. split.
    + rewrite <- Hn. apply load32_ext. intros i Hi.
      apply postinit_load8; [exact Hpre | | |]; intros j Hj; addr_solve.
    + rewrite <- Hr. apply load32_ext. intros i Hi.
      apply postinit_load8; [exact Hpre | | |]; intros j Hj; addr_solve.
Qed.

Lemma postinit_y2k_flag rtcType y2kPatch s :
  preinit_done s ->
  Y2kPatch (snd (rtc_postinit rtcType y2kPatch s)) =
    (if y2k_setting_on y2kPatch then 0xFFFFFFFF else 0) /\
  y2kPatchEnabled (snd (rtc_postinit rtcType y2kPatch s)) =
    match y2kPatch with
    | Some (String firstChar _) => y2k_first_char firstChar
    | _ => y2kPatchEnabled s
    end.
Proof.
  intros Hpre.
  destruct (postinit_steps_statics rtcType y2kPatch s Hpre) as (_ & _ & _ & H4 & Hb4 & Hb2).
  destruct (postinit_y2k_facts y2kPatch (postinit_rtc_type rtcType (postinit_shared s)))
    as (Hb3 & _ & _ & _ & Hy3 & Hm3).
  destruct (postinit_rtc_type_frame rtcType (postinit_shared s)) as (_ & _ & _ & _ & Hy2 & _).
  rewrite Hy2 in Hy3. change (y2kPatchEnabled (postinit_shared s)) with (y2kPatchEnabled s) in Hy3.
  unfold rtc_postinit. cbn [snd].
  set (sb := postinit_y2k y2kPatch (postinit_rtc_type rtcType (postinit_shared s))) in *.
  assert (Hflag : load32 (memory (postinit_datetime sb))
                    (memorySharedAddress s + RTCEMUL_Y2K_PATCH) =
                  (if y2k_setting_on y2kPatch then 0xFFFFFFFF else 0)).
  { unfold postinit_datetime. rewrite Hb3, Hb2.
    assert (Hw : load32 (memory sb) (memorySharedAddress s + RTCEMUL_Y2K_PATCH) =
                 (if y2k_setting_on y2kPatch then 0xFFFFFFFF else 0)).
    { rewrite Hm3, Hb2. unfold WRITE_LONGWORD_RAW.
      rewrite load32_store32_eq by reflexivity.
      destruct (y2k_setting_on y2kPatch); reflexivity. }
    destruct (y2kPatchEnabled sb) eqn:Een.
    - rewrite <- Hw. apply ikb_y2k_fields.
    - assert (Hoff : y2k_setting_on y2kPatch = false).
      { unfold y2k_setting_on.
        destruct y2kPatch as [[| c r] |]; [reflexivity | symmetry; exact Hy3 | reflexivity]. }
      rewrite Hoff. apply ikb_no_patch. }
  split.
  - unfold Y2kPatch.
    assert (Hb : memorySharedAddress (postinit_random_token (postinit_datetime sb)) =
                 memorySharedAddress s).
    { rewrite <- Hb4. unfold postinit_random_token.
      destruct (negb (memoryRandomTokenAddress _ =? 0)); reflexivity. }
    rewrite Hb, <- Hflag. apply load32_ext. intros i Hi.
    apply postinit_token_load8; [exact H4 |]. rewrite Hb4. intros j Hj. addr_solve.
  - rewrite <- Hy3.
    transitivity (y2kPatchEnabled (postinit_datetime sb)).
    + unfold postinit_random_token.
      destruct (negb (memoryRandomTokenAddress _ =? 0)); reflexivity.
    + unfold postinit_datetime. apply same_statics_ikb.
Qed.

(** X12: after [rtc_postinit] the [Y2K_PATCH] field is 0xFFFFFFFF when the
    setting starts with t, T, y, Y or 1 and 0 otherwise (also for a
    missing or empty setting, which leaves the static [y2kPatchEnabled]
    as it was). *)
Theorem postinit_y2k_flag_follows_setting rtcType y2kPatch s :
  Y2kPatch (snd (rtc_postinit rtcType y2kPatch (rtc_preinit s))) =
    (if y2k_setting_on y2kPatch then 0xFFFFFFFF else 0) /\
  y2kPatchEnabled (snd (rtc_postinit rtcType y2kPatch (rtc_preinit s))) =
    match y2kPatch with
    | Some (String firstChar _) => y2k_first_char firstChar
    | _ => y2kPatchEnabled s
    end.
Proof.
  change (y2kPatchEnabled s) with (y2kPatchEnabled (rtc_preinit s)).
  apply postinit_y2k_flag. apply rtc_preinit_done.
Qed.

Lemma rand_calls_before_token rtcType y2kPatch s :
  rand_calls (postinit_datetime
                (postinit_y2k y2kPatch (postinit_rtc_type rtcType (postinit_shared s)))) =
  rand_calls s.
Proof.
  unfold postinit_datetime. rewrite rand_calls_ikb.
  destruct (postinit_y2k_facts y2kPatch (postinit_rtc_type rtcType (postinit_shared s)))
    as (_ & _ & _ & -> & _).
  destruct (postinit_rtc_type_frame rtcType (postinit_shared s)) as (_ & _ & _ & _ & _ & ->).
  reflexivity.
Qed.

(** X13: [rtc_postinit] draws the first token and the first seed from two
    successive calls of [rand()], and calls it nowhere else. *)
Theorem postinit_draws_token_and_seed rtcType y2kPatch s :
  preinit_done s -> memoryRandomTokenAddress s <> 0 ->
  RandomToken (snd (rtc_postinit rtcType y2kPatch s)) = u32 (rand_value (rand_calls s)) /\
  RandomTokenSeed (snd (rtc_postinit rtcType y2kPatch s)) =
    u32 (rand_value (S (rand_calls s))) /\
  rand_calls (snd (rtc_postinit rtcType y2kPatch s)) = S (S (rand_calls s)).
Proof.
  intros Hpre Hnz.
  destruct (postinit_steps_statics rtcType y2kPatch s Hpre) as (_ & _ & _ & H4 & Hb4 & _).
  pose proof (rand_calls_before_token rtcType y2kPatch s) as Hr.
  assert (Ht : memoryRandomTokenAddress
                 (postinit_datetime
                    (postinit_y2k y2kPatch (postinit_rtc_type rtcType (postinit_shared s)))) <> 0).
  { destruct H4 as [-> _]. rewrite Hb4. destruct Hpre as [<- _]. exact Hnz. }
  unfold rtc_postinit. cbn [snd].
  revert H4 Hb4 Hr Ht.
  generalize (postinit_datetime
                (postinit_y2k y2kPatch (postinit_rtc_type rtcType (postinit_shared s)))).
  intros s4 [Htok Hseed] Hb4 Hr Ht.
  unfold RandomToken, RandomTokenSeed, postinit_random_token.
  apply Z.eqb_neq in Ht. rewrite Ht. cbn [negb rand].
  cbn [memory set_memory set_rand_calls memoryRandomTokenAddress
       memoryRandomTokenSeedAddress rand_calls memorySharedAddress].
  unfold TPROTO_SET_RANDOM_TOKEN. rewrite Htok, Hseed, Hr, Hb4.
  split; [| split; [| reflexivity]].
  - rewrite load32_store32_ne by (intros; addr_solve).
    rewrite load32_store32_eq by apply u32_idem. apply u32_idem.
  - rewrite load32_store32_eq by apply u32_idem. apply u32_idem.
Qed.

(** X22: the test of [menu] and [cmdY2KPatch] on the Y2K setting and the
    one of [rtc_postinit] differ on the first character 1 only: whenever
    the menu shows the patch enabled, [rtc_postinit] switches it on, and a
    setting that starts with 1 is shown as disabled and switched on. *)
Theorem menu_y2k_disagrees_on_1 rtcType value s :
  (menu_y2k_enabled value = true ->
   Y2kPatch (snd (rtc_postinit rtcType (Some value) (rtc_preinit s))) = 0xFFFFFFFF) /\
  (forall rest, value = String "1" rest ->
   menu_y2k_enabled value = false /\
   Y2kPatch (snd (rtc_postinit rtcType (Some value) (rtc_preinit s))) = 0xFFFFFFFF) /\
  (menu_y2k_enabled value = false ->
   Y2kPatch (snd (rtc_postinit rtcType (Some value) (rtc_preinit s))) <> 0 ->
   exists rest, value = String "1" rest).
Proof.
  destruct (postinit_y2k_flag rtcType (Some value) (rtc_preinit s) (rtc_preinit_done s))
    as [Hflag _].
  rewrite Hflag. unfold y2k_setting_on, menu_y2k_enabled, y2k_first_char.
  split; [| split].
  - destruct value as [| c r]; [discriminate |]. intros H.
    repeat (apply orb_true_iff in H; destruct H as [H | H]); rewrite H;
      rewrite ?orb_true_r; reflexivity.
  - intros rest ->. split; reflexivity.
  - destruct value as [| c r]; [intros _ H; exfalso; apply H; reflexivity |].
    intros Hm Hne. rewrite !orb_false_iff in Hm. destruct Hm as [[[Ht HT] HY] Hy].
    rewrite Ht, HT, Hy, HY in Hne. cbn [orb] in Hne.
    destruct (Ascii.eqb_spec c "1") as [-> | Hn]; [exists r; reflexivity |].
    exfalso. apply Hne. reflexivity.
Qed.

(** The steps of [rtc_postinit] after the type is set keep it, and the
    Dallas structure. *)
Lemma postinit_tail_type y2kPatch s :
  rtcTypeVar (postinit_random_token (postinit_datetime (postinit_y2k y2kPatch s))) =
    rtcTypeVar s /\
  dallasClock (postinit_random_token (postinit_datetime (postinit_y2k y2kPatch s))) =
    dallasClock s.
Proof.
  assert (Ht : forall s0, rtcTypeVar (postinit_random_token s0) = rtcTypeVar s0 /\
                          dallasClock (postinit_random_token s0) = dallasClock s0).
  { intros s0. unfold postinit_random_token.
    destruct (negb (memoryRandomTokenAddress s0 =? 0)); split; reflexivity. }
  assert (Hd : forall s0, rtcTypeVar (postinit_datetime s0) = rtcTypeVar s0 /\
                          dallasClock (postinit_datetime s0) = dallasClock s0).
  { intros s0. unfold postinit_datetime, set_ikb_datetime_msg, rtc_get_datetime.
    destruct (hw_rtc s0); split; reflexivity. }
  assert (Hy : rtcTypeVar (postinit_y2k y2kPatch s) = rtcTypeVar s /\
               dallasClock (postinit_y2k y2kPatch s) = dallasClock s).
  { unfold postinit_y2k. destruct y2kPatch as [[| c r] |]; split; reflexivity. }
  destruct (Ht (postinit_datetime (postinit_y2k y2kPatch s))) as [-> ->].
  destruct (Hd (postinit_y2k y2kPatch s)) as [-> ->]. exact Hy.
Qed.

(** X29: [rtc_postinit] sets the RTC type to Dallas for the setting
    DALLAS, to Sidecart for SIDECART and to unknown for anything else or
    no setting; only for DALLAS does it touch the Dallas structure; and the
    value that [cmdType] stores always stands for a known type. *)
Theorem postinit_rtc_type_of_setting rtcType y2kPatch s :
  rtcTypeVar (snd (rtc_postinit rtcType y2kPatch s)) = rtc_type_of rtcType /\
  (rtcType <> Some "DALLAS"%string ->
   dallasClock (snd (rtc_postinit rtcType y2kPatch s)) = dallasClock s) /\
  (forall value, rtcType = Some (cmdType_value value) ->
   rtcTypeVar (snd (rtc_postinit rtcType y2kPatch s)) =
     if (value =? "SIDECART")%string then RTC_DALLAS else RTC_SIDECART).
Proof.
  unfold rtc_postinit. cbn [snd].
  destruct (postinit_tail_type y2kPatch (postinit_rtc_type rtcType (postinit_shared s)))
    as [-> ->].
  assert (Htype : rtcTypeVar (postinit_rtc_type rtcType (postinit_shared s)) =
                  rtc_type_of rtcType).
  { unfold postinit_rtc_type, rtc_type_of. destruct rtcType as [value |]; [| reflexivity].
    destruct (String.eqb_spec value "DALLAS") as [-> | Hd]; [reflexivity |].
    destruct (String.eqb_spec value "SIDECART") as [-> | Hs]; [reflexivity |].
    cbn [rtcTypeVar set_rtcTypeVar].
    repeat (destruct value as [| [[] [] [] [] [] [] [] []] value]; try reflexivity;
            try congruence). }
  split; [exact Htype |]. split.
  - intros Hne. unfold postinit_rtc_type. destruct rtcType as [value |]; [| reflexivity].
    destruct (String.eqb_spec value "DALLAS") as [-> | Hd]; [congruence |].
    destruct (value =? "SIDECART")%string; reflexivity.
  - intros value ->. rewrite Htype. unfold cmdType_value.
    destruct (value =? "SIDECART")%string; reflexivity.
Qed.
End Postinit.

(** ** The NTP callbacks *)

Section NTPCallbacks.
Context `{P : Platform}.

Lemma pbuf_get_at_byte p i :
  forallb (fun b => (0 <=? b) && (b <? 256)) p = true -> 0 <= pbuf_get_at p i < 256.
Proof.
  intros H. unfold pbuf_get_at. rewrite forallb_forall in H.
  destruct (Nat.lt_ge_cases i (length p)) as [Hlt | Hge].
  - specialize (H (nth i p 0) (nth_In p 0 Hlt)).
    apply andb_true_iff in H. destruct H as [H0 H1].
    apply Z.leb_le in H0. apply Z.ltb_lt in H1. lia.
  - rewrite nth_overflow by exact Hge. lia.
Qed.

(** X15: [ntpRecvCB] leaves the whole state as it is when the length is
    not 48, the source address is not the recorded one, the source port is
    not 123, the mode is not 4 or the stratum is 0; and for a NULL
    buffer. *)
Theorem ntpRecvCB_rejects p addr port s :
  Z.of_nat (length p) <> NTP_MSG_LEN \/ addr <> ntp_ipaddr (netTime s) \/
  port <> NTP_DEFAULT_PORT \/ u8 (Z.land (pbuf_get_at p 0) 0x07) <> 4 \/
  u8 (pbuf_get_at p 1) = 0 ->
  ntpRecvCB (Some p) addr port s = s /\ ntpRecvCB None addr port s = s.
Proof.
  intros H. split; [| reflexivity]. apply ntpRecvCB_discards.
  unfold ntp_response_ok, datagram_checks.
  destruct H as [H | [H | [H | [H | H]]]].
  - apply Z.eqb_neq in H. rewrite H. btauto.
  - assert (H' : (ntp_ipaddr (netTime s) =? addr) = false) by (apply Z.eqb_neq; congruence).
    rewrite H'. reflexivity.
  - apply Z.eqb_neq in H. rewrite H. btauto.
  - apply Z.eqb_neq in H. rewrite H. btauto.
  - rewrite H. cbn [Z.eqb negb]. btauto.
Qed.

(** X16: a datagram that passes the checks sets the clock state to the
    calendar fields of the transmit timestamp, read most significant byte
    first, less the NTP epoch offset plus the UTC offset, modulo 2^32; the
    hardware clock takes the datetime when the SDK accepts it; the memory
    and the NTP record are not touched. *)
Theorem ntpRecvCB_commits p addr port s utc :
  ntp_response_ok s p addr port = true ->
  forallb (fun b => (0 <=? b) && (b <? 256)) p = true ->
  gmtime (u32 (transmit_timestamp p - NTP_DELTA + utcOffsetSeconds s)) = Some utc ->
  rtcTime (ntpRecvCB (Some p) addr port s) = datetime_of_tm utc /\
  hw_rtc (ntpRecvCB (Some p) addr port s) =
    (if valid_datetime (datetime_of_tm utc) then Some (datetime_of_tm utc) else hw_rtc s) /\
  memory (ntpRecvCB (Some p) addr port s) = memory s /\
  netTime (ntpRecvCB (Some p) addr port s) = netTime s.
Proof.
  intros Hok Hbytes Hgm.
  unfold ntp_response_ok, datagram_checks in Hok.
  rewrite !andb_true_iff in Hok. destruct Hok as (Haddr & ((Hlen & Hport) & Hmode) & Hstr).
  unfold ntpRecvCB. rewrite Hlen, Haddr, Hport, Hmode.
  apply negb_true_iff in Hstr. rewrite Hstr. cbn [negb orb].
  rewrite (ntohl_copy_be p 40) by (intros i; apply pbuf_get_at_byte; exact Hbytes).
  change (pbuf_get_at p 40 * 16777216 + pbuf_get_at p (40 + 1) * 65536 +
          pbuf_get_at p (40 + 2) * 256 + pbuf_get_at p (40 + 3)) with (transmit_timestamp p).
  rewrite Hgm. fold (datetime_of_tm utc). unfold rtc_set_datetime.
  cbn [rtcTime set_rtcTime].
  destruct (valid_datetime (datetime_of_tm utc)); repeat split.
Qed.

Lemma deliver_cons e es s : deliver (e :: es) s = deliver es (deliver_event s e).
Proof. reflexivity. Qed.

Lemma host_found_keeps_address es :
  forallb is_host_found es = true ->
  forall s, ntp_server_found (netTime s) = true ->
  ntp_ipaddr (netTime (deliver es s)) = ntp_ipaddr (netTime s) /\
  ntp_server_found (netTime (deliver es s)) = true.
Proof.
  induction es as [| e es IH]; intros Hall s Hf.
  - split; [reflexivity | exact Hf].
  - cbn [forallb] in Hall. apply andb_true_iff in Hall. destruct Hall as [He Hes].
    rewrite deliver_cons.
    destruct e as [name ipaddr | p addr port]; [| discriminate].
    assert (Hstep : ntp_ipaddr (netTime (deliver_event s (EvHostFound name ipaddr))) =
                    ntp_ipaddr (netTime s) /\
                    ntp_server_found
                      (netTime (deliver_event s (EvHostFound name ipaddr))) = true).
    { cbn [deliver_event]. unfold hostFoundCB.
      destruct name; [| auto]. destruct ipaddr; [rewrite Hf |]; cbn [negb]; auto. }
    destruct Hstep as [Ha Hf'].
    destruct (IH Hes _ Hf') as [Ha' Hf'']. split; [congruence | exact Hf''].
Qed.

(** X17: [hostFoundCB] records the address of the first DNS answer that
    brings one: a recorded address survives any later DNS callbacks. *)
Theorem dns_first_address_wins name ip es s :
  forallb is_host_found es = true ->
  (ntp_server_found (netTime s) = true ->
   ntp_ipaddr (netTime (deliver es s)) = ntp_ipaddr (netTime s)) /\
  (ntp_server_found (netTime s) = false ->
   ntp_ipaddr (netTime (deliver (EvHostFound (Some name) (Some ip) :: es) s)) = ip /\
   ntp_server_found (netTime (deliver (EvHostFound (Some name) (Some ip) :: es) s)) = true).
Proof.
  intros Hall. split.
  - intros Hf. apply (host_found_keeps_address es Hall s Hf).
  - intros Hf. rewrite deliver_cons. cbn [deliver_event]. unfold hostFoundCB.
    rewrite Hf. cbn [negb].
    match goal with |- context [deliver es ?s1] =>
      destruct (host_found_keeps_address es Hall s1 eq_refl) as [Ha Hf'] end.
    split; [exact Ha | exact Hf'].
Qed.
End NTPCallbacks.

(** ** The requests of the acquisition *)

Section NTPRequests.
Context `{P : Platform}.




Lemma deliver_event_out s e :
  ntpServerPort (deliver_event s e) = ntpServerPort s /\
  udp_out (deliver_event s e) = udp_out s.
Proof.
  destruct e as [name ipaddr | p addr port]; cbn [deliver_event].
  - unfold hostFoundCB. destruct name; [| auto].
    destruct ipaddr; [destruct (negb _) |]; auto.
  - unfold ntpRecvCB. destruct p as [p |]; [| auto].
    destruct (negb (_ =? NTP_MSG_LEN)); [auto |].
    destruct (_ || _); [auto |]. destruct (_ || _); [auto |].
    destruct (gmtime _); [| auto]. unfold rtc_set_datetime.
    destruct (valid_datetime _); auto.
Qed.

Lemma deliver_out es : forall s,
  ntpServerPort (deliver es s) = ntpServerPort s /\ udp_out (deliver es s) = udp_out s.
Proof.
  induction es as [| e es IH]; intros s; [auto |].
  rewrite deliver_cons. destruct (IH (deliver_event s e)) as [H1 H2].
  destruct (deliver_event_out s e) as [H3 H4]. split; congruence.
Qed.

Lemma dns_gethostbyname_out r s :
  ntpServerPort (dns_gethostbyname r s) = ntpServerPort s /\
  udp_out (dns_gethostbyname r s) = udp_out s.
Proof. destruct r; auto. Qed.





Lemma ntp_setup_out cfg pcb s :
  ntpServerPort (ntp_setup cfg pcb s) = effective_port cfg /\
  udp_out (ntp_setup cfg pcb s) = udp_out s.
Proof.
  unfold ntp_setup, effective_port, ntp_init, rtc_init.
  destruct (cfg_utc_offset cfg); destruct (negb pcb); split; reflexivity.
Qed.


(** *** No request before a DNS answer *)

Lemma deliver_event_unresolved s e :
  resolves e = false -> ntp_server_found (netTime s) = false ->
  ntp_server_found (netTime (deliver_event s e)) = false.
Proof.
  intros Hr Hf. destruct e as [name ipaddr | p addr port]; cbn [deliver_event].
  - unfold hostFoundCB. destruct name; [| exact Hf].
    destruct ipaddr; [discriminate | exact Hf].
  - unfold ntpRecvCB. destruct p as [p |]; [| exact Hf].
    destruct (negb (_ =? NTP_MSG_LEN)); [exact Hf |].
    destruct (_ || _); [exact Hf |]. destruct (_ || _); [exact Hf |].
    destruct (gmtime _); [| exact Hf]. unfold rtc_set_datetime.
    destruct (valid_datetime _); exact Hf.
Qed.

Lemma deliver_unresolved es : forall s,
  forallb (fun ev => negb (resolves ev)) es = true ->
  ntp_server_found (netTime s) = false ->
  ntp_server_found (netTime (deliver es s)) = false.
Proof.
  induction es as [| e es IH]; intros s Hall Hf; [exact Hf |].
  cbn [forallb] in Hall. apply andb_true_iff in Hall. destruct Hall as [He Hes].
  rewrite deliver_cons. apply IH; [exact Hes |].
  apply deliver_event_unresolved; [apply negb_true_iff; exact He | exact Hf].
Qed.

Lemma ntp_poll_body_unresolved e d s :
  never_resolves e = true -> ntp_server_found (netTime s) = false ->
  ntp_server_found (netTime (snd (ntp_poll_body e d s))) = false /\
  udp_out (snd (ntp_poll_body e d s)) = udp_out s.
Proof.
  intros Hn Hf. unfold never_resolves in Hn. apply andb_true_iff in Hn.
  destruct Hn as [Hpe Hde]. unfold ntp_poll_body.
  pose proof (deliver_unresolved (poll_events e) s Hpe Hf) as Hf0.
  destruct (deliver_out (poll_events e) s) as [_ Hu0].
  generalize dependent (deliver (poll_events e) s). intros s0 Hf0 Hu0.
  cbv zeta. rewrite Hf0. cbn [andb].
  destruct (negb d).
  - pose proof (deliver_unresolved (dns_events e) (dns_gethostbyname (dns_ret e) s0) Hde)
      as Hf1.
    assert (Hg : ntp_server_found (netTime (dns_gethostbyname (dns_ret e) s0)) = false).
    { destruct (dns_ret e); exact Hf0. }
    specialize (Hf1 Hg).
    destruct (deliver_out (dns_events e) (dns_gethostbyname (dns_ret e) s0)) as [_ Hu1].
    destruct (dns_gethostbyname_out (dns_ret e) s0) as [_ Hu2].
    generalize dependent (deliver (dns_events e) (dns_gethostbyname (dns_ret e) s0)).
    intros s1 Hf1 Hu1.
    destruct (ntp_error (netTime s1)); cbn [snd]; split;
      first [reflexivity | assumption | cbn [udp_out set_netTime]; congruence].
  - destruct (ntp_error (netTime s0)); cbn [snd]; split;
      first [reflexivity | assumption | cbn [udp_out set_netTime]; congruence].
Qed.

Lemma ntp_wait_unresolved env : forall d s s',
  forallb never_resolves env = true -> ntp_server_found (netTime s) = false ->
  ntp_wait env d s = Some s' -> udp_out s' = udp_out s.
Proof.
  induction env as [| e env IH]; intros d s s' Hall Hf H; [discriminate |].
  cbn [forallb] in Hall. apply andb_true_iff in Hall. destruct Hall as [He Henv].
  cbn [ntp_wait] in H.
  destruct ((0 <? time_left_us e) && (year (rtcTime s) =? 0)).
  - destruct (ntp_poll_body_unresolved e d s He Hf) as [Hf1 Hu1].
    destruct (ntp_poll_body e d s) as [d1 s1]. cbn [snd] in Hf1, Hu1.
    rewrite (IH _ _ _ Henv Hf1 H). exact Hu1.
  - injection H as <-. reflexivity.
Qed.

(** X19: while no DNS callback brings an address, [rtc_queryNTPTime]
    sends nothing (an address returned at once by [dns_gethostbyname]
    does not set [ntp_server_found]). *)
Theorem no_request_before_dns_answer cfg pcb env s ret s' :
  forallb never_resolves env = true ->
  rtc_queryNTPTime cfg pcb env s = Some (ret, s') ->
  udp_out s' = udp_out s.
Proof.
  intros Hall H. unfold rtc_queryNTPTime in H.
  destruct (ntp_wait env false (ntp_setup cfg pcb s)) as [s1 |] eqn:Hw; [| discriminate].
  apply ntp_wait_unresolved in Hw; [| exact Hall |].
  - destruct (ntp_setup_out cfg pcb s) as [_ Hu0]. rewrite Hu0 in Hw.
    destruct (negb _); injection H as _ <-; [| exact Hw].
    unfold rtc_get_datetime. destruct (hw_rtc s1); exact Hw.
  - unfold ntp_setup. reflexivity.
Qed.
(** X20: called with the year of the clock state already set,
    [rtc_queryNTPTime] returns 0 without a turn of the waiting loop: it
    sends nothing, keeps the clock state, and leaves the hardware clock
    stopped by [rtc_init]. *)
Theorem rtc_queryNTPTime_year_set cfg pcb_ok e env s :
  year (rtcTime s) <> 0 ->
  rtc_queryNTPTime cfg pcb_ok (e :: env) s = Some (0, ntp_setup cfg pcb_ok s) /\
  udp_out (ntp_setup cfg pcb_ok s) = udp_out s /\
  rtcTime (ntp_setup cfg pcb_ok s) = rtcTime s /\
  hw_rtc (ntp_setup cfg pcb_ok s) = None.
Proof.
  intros Hy. apply Z.eqb_neq in Hy.
  assert (Hhw : hw_rtc (ntp_setup cfg pcb_ok s) = None).
  { unfold ntp_setup, ntp_init, rtc_init.
    destruct (cfg_utc_offset cfg); destruct (negb pcb_ok); reflexivity. }
  split; [| split; [exact (proj2 (ntp_setup_out cfg pcb_ok s)) |
                    split; [apply rtcTime_ntp_setup | exact Hhw]]].
  unfold rtc_queryNTPTime. cbn [ntp_wait].
  rewrite rtcTime_ntp_setup, Hy, andb_false_r.
  rewrite rtcTime_ntp_setup, Hy. cbn [negb].
  unfold rtc_get_datetime. rewrite Hhw. reflexivity.
Qed.

End NTPRequests.

(** ** The host-name check *)

Lemma labels_nonempty d : labels d <> [].
Proof.
  destruct d as [| c rest]; cbn [labels]; [discriminate |].
  destruct (c =? ".")%char; [discriminate |]. destruct (labels rest); discriminate.
Qed.

Lemma rest_ok_0 ls : ls <> [] -> rest_ok 0 ls = forallb label_ok ls.
Proof.
  destruct ls as [| l ls]; [congruence | intros _].
  unfold rest_ok, label_ok. cbn [forallb Z.eqb negb orb]. rewrite !Z.add_0_l.
  destruct l; btauto.
Qed.

Lemma domain_scan_labels d :
  forall k, 0 <= k <= 63 ->
  match domain_scan d k with
  | Some k' => negb (k' =? 0)
  | None => false
  end = rest_ok k (labels d).
Proof.
  induction d as [| c rest IH]; intros k Hk.
  - cbn [domain_scan labels rest_ok string_forallb String.length forallb].
    rewrite Z.add_0_r, andb_true_r. cbn [andb].
    destruct (Z.eqb_spec k 0) as [-> | Hne]; cbn [negb orb andb]; [reflexivity |].
    symmetry. rewrite !andb_true_iff, !Z.leb_le. lia.
  - cbn [domain_scan labels].
    destruct (c =? ".")%char eqn:Edot.
    + cbn [rest_ok string_forallb String.length]. rewrite Z.add_0_r. cbn [andb].
      destruct (Z.eqb_spec k 0) as [-> | Hne].
      * cbn [negb orb andb]. reflexivity.
      * rewrite (IH 0) by lia. rewrite rest_ok_0 by apply labels_nonempty.
        cbn [negb orb]. 
        replace (k <=? 63) with true by (symmetry; apply Z.leb_le; lia).
        replace (1 <=? k) with true by (symmetry; apply Z.leb_le; lia).
        reflexivity.
    + pose proof (labels_nonempty rest) as Hne.
      destruct (labels rest) as [| l ls] eqn:El; [congruence |].
      cbn [rest_ok string_forallb String.length].
      destruct (isalnum c || (c =? "-")%char) eqn:Eok; cbn [negb andb]; [| reflexivity].
      rewrite Nat2Z.inj_succ.
      destruct (Z.eqb_spec k 0) as [-> | Hk0]; cbn [andb negb orb].
      * destruct (c =? "-")%char eqn:Eh; cbn [negb andb].
        -- rewrite andb_false_r. reflexivity.
        -- destruct (Z.ltb_spec MAX_LABEL_LENGTH (0 + 1)) as [Hlt | Hge];
             [unfold MAX_LABEL_LENGTH in Hlt; lia |].
           rewrite (IH (0 + 1)) by (unfold MAX_LABEL_LENGTH in *; lia).
           unfold rest_ok. replace (0 + 1 =? 0) with false by reflexivity.
           cbn [negb orb].
           replace (0 + 1 + Z.of_nat (String.length l)) with
             (0 + Z.succ (Z.of_nat (String.length l))) by lia.
           rewrite !andb_true_r. reflexivity.
      * destruct (Z.ltb_spec MAX_LABEL_LENGTH (k + 1)) as [Hlt | Hge].
        -- unfold MAX_LABEL_LENGTH in Hlt. symmetry.
           replace (k + Z.succ (Z.of_nat (String.length l)) <=? 63) with false
             by (symmetry; apply Z.leb_gt; lia).
           rewrite andb_false_r. reflexivity.
        -- unfold MAX_LABEL_LENGTH in Hge. rewrite (IH (k + 1)) by lia.
           unfold rest_ok.
           replace (k + 1 =? 0) with false by (symmetry; apply Z.eqb_neq; lia).
           cbn [negb orb].
           replace (k + 1 + Z.of_nat (String.length l)) with
             (k + Z.succ (Z.of_nat (String.length l))) by lia.
           rewrite !andb_true_r. reflexivity.
Qed.

(** X21: [is_valid_domain] accepts exactly the names of 1 to 255
    characters whose labels between the dots have 1 to 63 letters, digits
    or hyphens each and do not start with a hyphen, and whose last
    character is not a hyphen. *)
Theorem is_valid_domain_labels domain :
  is_valid_domain (Some domain) = domain_ok domain.
Proof.
  unfold is_valid_domain, domain_ok, MAX_DOMAIN_LENGTH.
  fold (ends_with_hyphen domain).
  pose proof (domain_scan_labels domain 0 ltac:(lia)) as Hscan.
  rewrite rest_ok_0 in Hscan by apply labels_nonempty. rewrite <- Hscan.
  destruct (Z.eqb_spec (Z.of_nat (String.length domain)) 0) as [H0 | H0].
  - cbn [orb]. replace (1 <=? Z.of_nat (String.length domain)) with false
      by (symmetry; apply Z.leb_gt; lia). reflexivity.
  - cbn [orb]. replace (1 <=? Z.of_nat (String.length domain)) with true
      by (symmetry; apply Z.leb_le; lia).
    rewrite Z.leb_antisym. destruct (255 <? Z.of_nat (String.length domain)); cbn [negb andb];
      [reflexivity |].
    destruct (domain_scan domain 0) as [k' |]; [| reflexivity].
    destruct (k' =? 0); cbn [negb orb andb]; [reflexivity |].
    destruct (ends_with_hyphen domain); reflexivity.
Qed.

(** ** The application loop *)

Lemma run_turns_cons e env a : run_turns (e :: env) a = run_turns env (loop_turn a e).
Proof. reflexivity. Qed.

Lemma run_turns_app env1 env2 a :
  run_turns (env1 ++ env2) a = run_turns env2 (run_turns env1 a).
Proof. apply fold_left_app. Qed.

(** What no handler does. *)
Lemma run_command_frame a c :
  countdown (run_command a c) = countdown a /\
  gemLaunched (run_command a c) = gemLaunched a /\
  lastDecrement (run_command a c) = lastDecrement a /\
  display_out (run_command a c) = display_out a /\
  rtc_calls (run_command a c) = rtc_calls a /\
  (haltCountdown a = true -> haltCountdown (run_command a c) = true) /\
  (jumpBooster a = true -> jumpBooster (run_command a c) = true) /\
  (keepActive (run_command a c) = false ->
   keepActive a = false \/ jumpBooster (run_command a c) = true) /\
  (is_exit c = false -> appStatus (run_command a c) = appStatus a).
Proof.
  destruct c as [| | | [] | [] | [] | [] | [] |]; cbn;
    repeat split; auto; discriminate.
Qed.

Lemma term_loop_frame cs : forall a,
  countdown (term_loop cs a) = countdown a /\
  gemLaunched (term_loop cs a) = gemLaunched a /\
  lastDecrement (term_loop cs a) = lastDecrement a /\
  display_out (term_loop cs a) = display_out a /\
  rtc_calls (term_loop cs a) = rtc_calls a /\
  (haltCountdown a = true -> haltCountdown (term_loop cs a) = true) /\
  (jumpBooster a = true -> jumpBooster (term_loop cs a) = true) /\
  (keepActive (term_loop cs a) = false ->
   keepActive a = false \/ jumpBooster (term_loop cs a) = true) /\
  (forallb (fun c => negb (is_exit c)) cs = true ->
   appStatus (term_loop cs a) = appStatus a).
Proof.
  induction cs as [| c cs IH]; intros a.
  - cbn. repeat split; auto.
  - change (term_loop (c :: cs) a) with (term_loop cs (run_command a c)).
    destruct (IH (run_command a c)) as (H1 & H2 & H3 & H4 & H5 & H6 & H7 & H8 & H9).
    destruct (run_command_frame a c) as (G1 & G2 & G3 & G4 & G5 & G6 & G7 & G8 & G9).
    repeat split; try congruence; auto.
    + intros Hk. destruct (H8 Hk) as [Hk' | Hj]; [| auto].
      destruct (G8 Hk') as [? | Hj]; auto.
    + cbn [forallb]. intros Hall. apply andb_true_iff in Hall. destruct Hall as [Hc Hcs].
      rewrite (H9 Hcs). apply G9. apply negb_true_iff. exact Hc.
Qed.

(** *** Runtime is never left *)

Lemma loop_turn_runtime a e :
  appStatus a = APP_EMULATION_RUNTIME ->
  appStatus (loop_turn a e) = APP_EMULATION_RUNTIME /\
  keepActive (loop_turn a e) = keepActive a /\
  jumpBooster (loop_turn a e) = jumpBooster a /\
  haltCountdown (loop_turn a e) = haltCountdown a /\
  countdown (loop_turn a e) = countdown a /\
  gemLaunched (loop_turn a e) = true /\
  rtc_calls (loop_turn a e) = rtc_calls a ++ [CallLoop].
Proof.
  intros Hs. unfold loop_turn. rewrite Hs. cbn [gemLaunched call_rtc].
  destruct (gemLaunched a) eqn:Hg; cbn; repeat split; auto.
Qed.

(** X23: once [appStatus] is [APP_EMULATION_RUNTIME], every turn of the
    loop of [emul_start] calls [rtc_loop] and nothing else of rtcemul.c,
    and the status and [keepActive] stay as they are.  So the loop, when
    [keepActive] is set at that point, never ends; when it is not (the
    Booster command came in the turn that switched to runtime), the loop
    ends at its next test, before any turn of runtime. *)
Theorem runtime_is_never_left env a :
  appStatus a = APP_EMULATION_RUNTIME ->
  appStatus (run_turns env a) = APP_EMULATION_RUNTIME /\
  keepActive (run_turns env a) = keepActive a /\
  rtc_calls (run_turns env a) = rtc_calls a ++ repeat CallLoop (length env) /\
  (keepActive a = true -> emul_loop env a = None) /\
  (keepActive a = false -> emul_loop env a = Some a).
Proof.
  revert a. induction env as [| e env IH]; intros a Hs.
  - cbn. rewrite app_nil_r. repeat split; auto; intros ->; reflexivity.
  - rewrite run_turns_cons.
    destruct (loop_turn_runtime a e Hs) as (H1 & H2 & _ & _ & _ & _ & H7).
    destruct (IH (loop_turn a e) H1) as (I1 & I2 & I3 & I4 & _).
    repeat split; [exact I1 | congruence | | |].
    + rewrite I3, H7, <- app_assoc. reflexivity.
    + intros Hk. cbn [emul_loop]. rewrite Hk. apply I4. congruence.
    + intros Hk. cbn [emul_loop]. rewrite Hk. reflexivity.
Qed.

(** *** The loop ends through the Booster command only *)

Lemma loop_turn_exit a e :
  (keepActive a = false -> jumpBooster a = true) ->
  (keepActive (loop_turn a e) = false -> jumpBooster (loop_turn a e) = true).
Proof.
  intros Hinv. unfold loop_turn. destruct (appStatus a).
  - match goal with |- context [term_loop ?cs ?b] =>
      destruct (term_loop_frame cs b) as (_ & _ & _ & _ & _ & _ & H7 & H8 & _);
      generalize dependent (term_loop cs b) end.
    intros a1 H7 H8.
    assert (Hd : keepActive a1 = false -> jumpBooster a1 = true).
    { intros Hk. destruct (H8 Hk) as [Hk' | Hj]; [apply H7; auto | exact Hj]. }
    destruct (negb (haltCountdown a1)); [| exact Hd].
    destruct (1000000 <=? _); [| exact Hd].
    cbn [countdown set_countdown set_lastDecrement].
    destruct (_ <=? 0); exact Hd.
  - destruct (ntp_res e =? 0);
      match goal with |- context [term_loop ?cs ?b] =>
        destruct (term_loop_frame cs b) as (_ & _ & _ & _ & _ & _ & H7 & H8 & _) end;
      intros Hk; (destruct (H8 Hk) as [Hk' | Hj]; [| exact Hj]);
      apply H7; apply Hinv; exact Hk'.
  - cbn [gemLaunched call_rtc]. destruct (negb (gemLaunched a)); exact Hinv.
Qed.

Lemma emul_loop_exit env : forall a a',
  (keepActive a = false -> jumpBooster a = true) ->
  emul_loop env a = Some a' -> keepActive a' = false /\ jumpBooster a' = true.
Proof.
  induction env as [| e env IH]; intros a a' Hinv H.
  - cbn in H. destruct (keepActive a) eqn:Hk; [discriminate |].
    injection H as <-. auto.
  - cbn [emul_loop] in H. pose proof (loop_turn_exit a e Hinv) as Hnext.
    destruct (keepActive a) eqn:Hk.
    + apply (IH _ _ Hnext H).
    + injection H as <-. auto.
Qed.

Lemma loop_turn_display a e :
  display_out (loop_turn a e) = display_out a \/
  display_out (loop_turn a e) = display_out a ++ [DISPLAY_COMMAND_START] /\
  gemLaunched a = false.
Proof.
  unfold loop_turn. destruct (appStatus a).
  - left.
    destruct (term_loop_frame (called e) a) as (_ & _ & _ & H4 & _).
    generalize dependent (term_loop (called e) a). intros a1 H4.
    destruct (negb (haltCountdown a1)); [| exact H4].
    destruct (1000000 <=? _); [| exact H4].
    cbn [countdown set_countdown set_lastDecrement].
    destruct (_ <=? 0); exact H4.
  - left. destruct (ntp_res e =? 0);
      match goal with |- context [term_loop ?cs ?b] =>
        destruct (term_loop_frame cs b) as (_ & _ & _ & H4 & _) end;
      rewrite H4; reflexivity.
  - cbn [gemLaunched call_rtc]. destruct (gemLaunched a); [left | right]; auto.
Qed.

Lemma count_start_app l c :
  count_start (l ++ [c]) =
  (count_start l + match c with DISPLAY_COMMAND_START => 1 | _ => 0 end)%nat.
Proof.
  unfold count_start. rewrite List.filter_app, length_app. destruct c; reflexivity.
Qed.

Lemma loop_turn_start_once a e :
  count_start (display_out a) = (if gemLaunched a then 1 else 0)%nat ->
  count_start (display_out (loop_turn a e)) =
    (if gemLaunched (loop_turn a e) then 1 else 0)%nat.
Proof.
  intros Hinv. unfold loop_turn. destruct (appStatus a).
  - destruct (term_loop_frame (called e) a) as (_ & H2 & _ & H4 & _).
    rewrite <- H2, <- H4 in Hinv. clear H2 H4. revert Hinv.
    generalize (term_loop (called e) a). intros a1 Hinv.
    destruct (negb (haltCountdown a1)); [| exact Hinv].
    destruct (1000000 <=? _); [| exact Hinv].
    cbn [countdown set_countdown set_lastDecrement].
    destruct (_ <=? 0); exact Hinv.
  - destruct (ntp_res e =? 0);
      match goal with |- context [term_loop ?cs ?b] =>
        destruct (term_loop_frame cs b) as (_ & H2 & _ & H4 & _) end;
      rewrite H2, H4; exact Hinv.
  - cbn [gemLaunched call_rtc]. destruct (gemLaunched a) eqn:Hg; cbn [negb].
    + cbn. rewrite Hg. exact Hinv.
    + cbn [display_out gemLaunched set_gemLaunched SEND_COMMAND_TO_DISPLAY call_rtc].
      rewrite count_start_app, Hinv. reflexivity.
Qed.

(** X24: [DISPLAY_COMMAND_START] has been sent exactly when [gemLaunched]
    is set, so at most once however long the loop runs. *)
Theorem display_start_sent_once env a :
  count_start (display_out a) = (if gemLaunched a then 1 else 0)%nat ->
  count_start (display_out (run_turns env a)) =
    (if gemLaunched (run_turns env a) then 1 else 0)%nat /\
  (count_start (display_out (run_turns env a)) <= 1)%nat.
Proof.
  intros Hinv.
  assert (H : count_start (display_out (run_turns env a)) =
              (if gemLaunched (run_turns env a) then 1 else 0)%nat).
  { revert a Hinv. induction env as [| e env IH]; intros a Hinv; [exact Hinv |].
    rewrite run_turns_cons. apply IH. apply loop_turn_start_once. exact Hinv. }
  split; [exact H |]. rewrite H. destruct (gemLaunched (run_turns env a)); lia.
Qed.

Lemma emul_loop_display env : forall a a',
  emul_loop env a = Some a' ->
  forall c, In c (display_out a') -> In c (display_out a) \/ c = DISPLAY_COMMAND_START.
Proof.
  induction env as [| e env IH]; intros a a' H c Hc.
  - cbn in H. destruct (keepActive a); [discriminate |]. injection H as <-. auto.
  - cbn [emul_loop] in H. destruct (keepActive a).
    + destruct (IH _ _ H c Hc) as [Hin | ->]; [| auto].
      destruct (loop_turn_display a e) as [Hd | [Hd _]]; rewrite Hd in Hin; [auto |].
      apply in_app_iff in Hin. destruct Hin as [? | [<- | []]]; auto.
    + injection H as <-. auto.
Qed.

(** X25: when the loop of [emul_start] ends, [jumpBooster] is set: the
    display gets [DISPLAY_COMMAND_RESET] last and once, and
    [DISPLAY_COMMAND_CONTINUE] is never sent. *)
Theorem emul_start_ends_in_booster start env a :
  emul_start start env = Some a ->
  jumpBooster a = true /\ keepActive a = false /\
  (exists sent, display_out a = sent ++ [DISPLAY_COMMAND_RESET] /\
                ~ In DISPLAY_COMMAND_RESET sent) /\
  ~ In DISPLAY_COMMAND_CONTINUE (display_out a).
Proof.
  unfold emul_start. intros H.
  destruct (emul_loop env _) as [a1 |] eqn:Hl; [| discriminate].
  pose proof (emul_loop_display _ _ _ Hl) as Hd.
  apply emul_loop_exit in Hl; [| intros Hk; discriminate Hk].
  destruct Hl as [Hk Hj]. rewrite Hj in H. injection H as <-.
  cbn [jumpBooster keepActive display_out SEND_COMMAND_TO_DISPLAY].
  assert (Hnone : forall c, In c (display_out a1) -> c = DISPLAY_COMMAND_START).
  { intros c Hc. destruct (Hd c Hc) as [[] | ->]. reflexivity. }
  repeat split; [exact Hj | exact Hk | |].
  - exists (display_out a1). split; [reflexivity |].
    intros Hin. apply Hnone in Hin. discriminate.
  - intros Hin. apply in_app_iff in Hin. destruct Hin as [Hin | [Hin | []]].
    + apply Hnone in Hin. discriminate.
    + discriminate.
Qed.

(** *** Order of the calls into rtcemul.c *)









(** *** The countdown *)

Lemma loop_turn_halted a e :
  appStatus a = APP_MODE_SETUP -> haltCountdown a = true ->
  forallb (fun c => negb (is_exit c)) (called e) = true ->
  appStatus (loop_turn a e) = APP_MODE_SETUP /\
  haltCountdown (loop_turn a e) = true /\
  countdown (loop_turn a e) = countdown a /\
  rtc_calls (loop_turn a e) = rtc_calls a.
Proof.
  intros Hs Hh Hne. unfold loop_turn. rewrite Hs.
  destruct (term_loop_frame (called e) a) as (H1 & _ & _ & _ & H5 & H6 & _ & _ & H9).
  rewrite (H6 Hh). cbn [negb]. rewrite (H9 Hne), (H6 Hh). auto.
Qed.

(** X27: in setup with the countdown halted, the loop stays in setup,
    keeps the countdown and calls nothing of rtcemul.c as long as the Exit
    command does not come. *)
Theorem halted_setup_waits_for_exit env a :
  appStatus a = APP_MODE_SETUP -> haltCountdown a = true -> no_exit env = true ->
  appStatus (run_turns env a) = APP_MODE_SETUP /\
  countdown (run_turns env a) = countdown a /\
  rtc_calls (run_turns env a) = rtc_calls a.
Proof.
  revert a. induction env as [| e env IH]; intros a Hs Hh Hne; [auto |].
  unfold no_exit in Hne. cbn [forallb] in Hne. apply andb_true_iff in Hne.
  destruct Hne as [He Henv]. rewrite run_turns_cons.
  destruct (loop_turn_halted a e Hs Hh He) as (H1 & H2 & H3 & H4).
  destruct (IH (loop_turn a e) H1 H2 Henv) as (I1 & I2 & I3).
  repeat split; congruence.
Qed.

Lemma loop_turn_tick a e :
  appStatus a = APP_MODE_SETUP -> haltCountdown a = false ->
  called e = [] -> 1000000 <= now e - lastDecrement a ->
  countdown (loop_turn a e) = countdown a - 1 /\
  lastDecrement (loop_turn a e) = now e /\
  rtc_calls (loop_turn a e) = rtc_calls a /\
  (if countdown a <=? 1
   then appStatus (loop_turn a e) = APP_EMULATION_INIT /\
        haltCountdown (loop_turn a e) = true
   else appStatus (loop_turn a e) = APP_MODE_SETUP /\
        haltCountdown (loop_turn a e) = false).
Proof.
  intros Hs Hh Hc Ht. unfold loop_turn. rewrite Hs, Hc. cbn [term_loop fold_left].
  rewrite Hh. cbn [negb]. apply Z.leb_le in Ht. rewrite Ht.
  cbn [countdown set_countdown set_lastDecrement].
  destruct (countdown a <=? 1) eqn:E1.
  - apply Z.leb_le in E1. assert (E0 : (countdown a - 1 <=? 0) = true) by (apply Z.leb_le; lia).
    rewrite E0. cbn. auto.
  - apply Z.leb_gt in E1. assert (E0 : (countdown a - 1 <=? 0) = false) by (apply Z.leb_gt; lia).
    rewrite E0. cbn. auto.
Qed.

Lemma countdown_steps env : forall a,
  appStatus a = APP_MODE_SETUP -> haltCountdown a = false ->
  ticking (lastDecrement a) env = true ->
  Z.of_nat (length env) < countdown a ->
  appStatus (run_turns env a) = APP_MODE_SETUP /\
  haltCountdown (run_turns env a) = false /\
  countdown (run_turns env a) = countdown a - Z.of_nat (length env) /\
  rtc_calls (run_turns env a) = rtc_calls a.
Proof.
  induction env as [| e env IH]; intros a Hs Hh Ht Hl.
  - cbn. repeat split; auto. lia.
  - cbn [ticking] in Ht. rewrite !andb_true_iff in Ht. destruct Ht as [[Hc Hn] Ht].
    assert (Hc' : called e = []) by (destruct (called e); [reflexivity | discriminate]).
    apply Z.leb_le in Hn. cbn [length] in Hl.
    destruct (loop_turn_tick a e Hs Hh Hc' Hn) as (H1 & H2 & H3 & H4).
    assert (E1 : (countdown a <=? 1) = false) by (apply Z.leb_gt; lia).
    rewrite E1 in H4. destruct H4 as [H4 H5].
    rewrite run_turns_cons. rewrite <- H2 in Ht.
    destruct (IH (loop_turn a e) H4 H5 Ht) as (I1 & I2 & I3 & I5); [lia |].
    cbn [length]. repeat split; [exact I1 | exact I2 | lia | congruence].
Qed.

Lemma countdown_run env : forall a,
  appStatus a = APP_MODE_SETUP -> haltCountdown a = false ->
  ticking (lastDecrement a) env = true ->
  0 < countdown a -> Z.of_nat (length env) = countdown a ->
  appStatus (run_turns env a) = APP_EMULATION_INIT /\
  haltCountdown (run_turns env a) = true /\
  rtc_calls (run_turns env a) = rtc_calls a.
Proof.
  induction env as [| e env IH]; intros a Hs Hh Ht Hpos Hl; [cbn in Hl; lia |].
  cbn [ticking] in Ht. rewrite !andb_true_iff in Ht. destruct Ht as [[Hc Hn] Ht].
  assert (Hc' : called e = []) by (destruct (called e); [reflexivity | discriminate]).
  apply Z.leb_le in Hn. cbn [length] in Hl.
  destruct (loop_turn_tick a e Hs Hh Hc' Hn) as (H1 & H2 & H3 & H4).
  rewrite run_turns_cons. destruct (countdown a <=? 1) eqn:E1.
  - apply Z.leb_le in E1. destruct env as [| e2 env]; [| cbn [length] in Hl; lia].
    destruct H4 as [H4 H5]. cbn. auto.
  - apply Z.leb_gt in E1. destruct H4 as [H4 H5]. rewrite <- H2 in Ht.
    destruct (IH (loop_turn a e) H4 H5 Ht) as (I1 & I2 & I3); [lia | lia |].
    repeat split; [exact I1 | exact I2 | congruence].
Qed.

Lemma ticking_app env1 env2 : forall l,
  ticking l (env1 ++ env2) = true -> ticking l env1 = true.
Proof.
  induction env1 as [| e env1 IH]; intros l Ht; [reflexivity |].
  cbn [app ticking] in *. rewrite !andb_true_iff in *. destruct Ht as [[Hc Hn] Ht].
  repeat split; [exact Hc | exact Hn | exact (IH _ Ht)].
Qed.

(** X28: with no key pressed and turns at least a second apart, the loop
    stays in setup for as many turns as the countdown says less one,
    switches to [APP_EMULATION_INIT] in the turn that brings the countdown
    to 0, and calls [rtc_queryNTPTime] in the turn after ([rtc_postinit]
    too when it returns 0). *)
Theorem countdown_expires env e a :
  appStatus a = APP_MODE_SETUP -> haltCountdown a = false ->
  ticking (lastDecrement a) (env ++ [e]) = true ->
  Z.of_nat (length (env ++ [e])) = countdown a ->
  appStatus (run_turns env a) = APP_MODE_SETUP /\
  rtc_calls (run_turns env a) = rtc_calls a /\
  appStatus (run_turns (env ++ [e]) a) = APP_EMULATION_INIT /\
  haltCountdown (run_turns (env ++ [e]) a) = true /\
  rtc_calls (run_turns (env ++ [e]) a) = rtc_calls a /\
  forall e', rtc_calls (loop_turn (run_turns (env ++ [e]) a) e') =
             rtc_calls a ++
             (CallQueryNTPTime (ntp_res e') ::
              (if ntp_res e' =? 0 then [CallPostinit; CallSetResponseCB] else [])).
Proof.
  intros Hs Hh Ht Hl.
  assert (Hpos : 0 < countdown a).
  { rewrite <- Hl, length_app. cbn [length]. lia. }
  destruct (countdown_steps env a Hs Hh (ticking_app _ _ _ Ht)) as (I1 & _ & _ & I5).
  { rewrite <- Hl, length_app. cbn [length]. lia. }
  destruct (countdown_run (env ++ [e]) a Hs Hh Ht Hpos Hl) as (H4 & H5 & H3).
  repeat split; [exact I1 | exact I5 | exact H4 | exact H5 | exact H3 |].
  intros e'. unfold loop_turn at 1. rewrite H4.
  destruct (ntp_res e' =? 0);
    match goal with |- context [term_loop ?cs ?b] =>
      destruct (term_loop_frame cs b) as (_ & _ & _ & _ & G5 & _) end;
    rewrite G5; cbn [rtc_calls call_rtc set_appStatus]; rewrite H3, <- ?app_assoc;
    reflexivity.
Qed.

(** ** The further properties on the concrete inputs *)

Section MoreRuns.
#[local] Existing Instance demo_platform.

(** Evaluates a closed premise. *)
Ltac run_premise :=
  vm_compute;
  first [ reflexivity | discriminate
        | split; first [reflexivity | discriminate] ].

(** Addresses around the concrete shared region. *)
Ltac outside_demo s :=
  let i := fresh "i" in
  let Hi := fresh "Hi" in
  intros i Hi;
  replace (memorySharedAddress s) with 0x20020000 by (vm_compute; reflexivity);
  addr_solve.

Lemma to_bcd_round_trip_witness :
  0 <= 42 <= 255 /\
  (valid_bcd (to_bcd 42) = true /\ bcd_value (to_bcd 42) = 42 <-> 42 <= 99).
Proof. split; [lia | apply (to_bcd_round_trip 42); lia]. Defined.

Lemma read_time_y2k_year_range_witness :
  preinit_done (demo_staged demo_read_time demo_ready) /\
  lastProtocolValid (demo_staged demo_read_time demo_ready) = true /\
  command_id (lastProtocol (demo_staged demo_read_time demo_ready)) = RTCEMUL_READ_TIME /\
  y2kPatchEnabled (demo_staged demo_read_time demo_ready) = true /\
  0 <= year (rtcTime (rtc_get_datetime (demo_staged demo_read_time demo_ready))) /\
  DatetimeBcd (rtc_loop (demo_staged demo_read_time demo_ready)) 0 = 0x75.
Proof.
  assert (H1 : preinit_done (demo_staged demo_read_time demo_ready)) by run_premise.
  assert (H2 : lastProtocolValid (demo_staged demo_read_time demo_ready) = true)
    by run_premise.
  assert (H3 : command_id (lastProtocol (demo_staged demo_read_time demo_ready)) =
               RTCEMUL_READ_TIME) by run_premise.
  assert (H4 : y2kPatchEnabled (demo_staged demo_read_time demo_ready) = true)
    by run_premise.
  assert (Hy : year (rtcTime (rtc_get_datetime (demo_staged demo_read_time demo_ready))) =
               2005) by run_premise.
  assert (H5 : 0 <= year (rtcTime (rtc_get_datetime (demo_staged demo_read_time demo_ready))))
    by (rewrite Hy; lia).
  destruct (read_time_y2k_year_range (P := demo_platform)
              (demo_staged demo_read_time demo_ready) H1 H2 H3 H4 H5) as [_ Hback].
  split; [exact H1 |]. split; [exact H2 |]. split; [exact H3 |]. split; [exact H4 |].
  split; [exact H5 |].
  rewrite Hback; rewrite Hy; [reflexivity | vm_compute; discriminate].
Defined.

Lemma read_time_ikbd_record_witness :
  preinit_done (demo_staged demo_read_time demo_ready) /\
  lastProtocolValid (demo_staged demo_read_time demo_ready) = true /\
  command_id (lastProtocol (demo_staged demo_read_time demo_ready)) = RTCEMUL_READ_TIME /\
  DatetimeBcd (rtc_loop (demo_staged demo_read_time demo_ready)) 1 = 0x1b /\
  DatetimeBcd (rtc_loop (demo_staged demo_read_time demo_ready)) 4 = 0x15 /\
  DatetimeBcd (rtc_loop (demo_staged demo_read_time demo_ready)) 5 = 0x12 /\
  DatetimeBcd (rtc_loop (demo_staged demo_read_time demo_ready)) 7 = 0x30.
Proof.
  assert (H1 : preinit_done (demo_staged demo_read_time demo_ready)) by run_premise.
  assert (H2 : lastProtocolValid (demo_staged demo_read_time demo_ready) = true)
    by run_premise.
  assert (H3 : command_id (lastProtocol (demo_staged demo_read_time demo_ready)) =
               RTCEMUL_READ_TIME) by run_premise.
  destruct (read_time_ikbd_record (P := demo_platform)
              (demo_staged demo_read_time demo_ready) H1 H2 H3)
    as (_ & Hm & _ & _ & Hmin & Hhour & _ & Hsec).
  split; [exact H1 |]. split; [exact H2 |]. split; [exact H3 |]. split; [exact Hm |].
  split; [rewrite Hmin; vm_compute; reflexivity |].
  split; [rewrite Hhour; vm_compute; reflexivity |].
  rewrite Hsec. vm_compute. reflexivity.
Defined.

Lemma read_time_msdos_decode_witness :
  preinit_done (demo_staged demo_read_time demo_ready) /\
  lastProtocolValid (demo_staged demo_read_time demo_ready) = true /\
  command_id (lastProtocol (demo_staged demo_read_time demo_ready)) = RTCEMUL_READ_TIME /\
  rtcTime (rtc_get_datetime (demo_staged demo_read_time demo_ready)) =
    mk_datetime 2005 1 1 6 12 15 30 /\
  Z.shiftr (DatetimeMsdos (rtc_loop (demo_staged demo_read_time demo_ready))) 25 = 25 /\
  Z.land (Z.shiftr (DatetimeMsdos (rtc_loop (demo_staged demo_read_time demo_ready))) 11) 31 =
    12.
Proof.
  assert (H1 : preinit_done (demo_staged demo_read_time demo_ready)) by run_premise.
  assert (H2 : lastProtocolValid (demo_staged demo_read_time demo_ready) = true)
    by run_premise.
  assert (H3 : command_id (lastProtocol (demo_staged demo_read_time demo_ready)) =
               RTCEMUL_READ_TIME) by run_premise.
  assert (Ht : rtcTime (rtc_get_datetime (demo_staged demo_read_time demo_ready)) =
               mk_datetime 2005 1 1 6 12 15 30) by run_premise.
  assert (Hy : 1980 <= year (rtcTime (rtc_get_datetime
                                        (demo_staged demo_read_time demo_ready))) <= 2107)
    by (rewrite Ht; cbn [year]; lia).
  assert (Hmo : 0 <= month (rtcTime (rtc_get_datetime
                                       (demo_staged demo_read_time demo_ready))) < 16)
    by (rewrite Ht; cbn [month]; lia).
  assert (Hd : 0 <= day (rtcTime (rtc_get_datetime
                                    (demo_staged demo_read_time demo_ready))) < 32)
    by (rewrite Ht; cbn [day]; lia).
  assert (Hh : 0 <= hour (rtcTime (rtc_get_datetime
                                     (demo_staged demo_read_time demo_ready))) < 32)
    by (rewrite Ht; cbn [hour]; lia).
  assert (Hmi : 0 <= min (rtcTime (rtc_get_datetime
                                     (demo_staged demo_read_time demo_ready))) < 64)
    by (rewrite Ht; cbn [min]; lia).
  assert (Hs : 0 <= sec (rtcTime (rtc_get_datetime
                                    (demo_staged demo_read_time demo_ready))) < 64)
    by (rewrite Ht; cbn [sec]; lia).
  destruct (read_time_msdos_decode (P := demo_platform)
              (demo_staged demo_read_time demo_ready) H1 H2 H3 Hy Hmo Hd Hh Hmi Hs)
    as (Hyear & _ & _ & Hhour & _).
  split; [exact H1 |]. split; [exact H2 |]. split; [exact H3 |]. split; [exact Ht |].
  rewrite Hyear, Hhour, Ht. split; reflexivity.
Defined.

Lemma read_time_without_patch_witness :
  preinit_done (demo_staged demo_read_time demo_ready_plain) /\
  lastProtocolValid (demo_staged demo_read_time demo_ready_plain) = true /\
  command_id (lastProtocol (demo_staged demo_read_time demo_ready_plain)) =
    RTCEMUL_READ_TIME /\
  y2kPatchEnabled (demo_staged demo_read_time demo_ready_plain) = false /\
  DatetimeBcd (rtc_loop (demo_staged demo_read_time demo_ready_plain)) 0 = 0x05 /\
  Y2kPatch (rtc_loop (demo_staged demo_read_time demo_ready_plain)) = 0.
Proof.
  assert (H1 : preinit_done (demo_staged demo_read_time demo_ready_plain)) by run_premise.
  assert (H2 : lastProtocolValid (demo_staged demo_read_time demo_ready_plain) = true)
    by run_premise.
  assert (H3 : command_id (lastProtocol (demo_staged demo_read_time demo_ready_plain)) =
               RTCEMUL_READ_TIME) by run_premise.
  assert (H4 : y2kPatchEnabled (demo_staged demo_read_time demo_ready_plain) = false)
    by run_premise.
  destruct (read_time_without_patch (P := demo_platform)
              (demo_staged demo_read_time demo_ready_plain) H1 H2 H3 H4) as [Hy Hf].
  split; [exact H1 |]. split; [exact H2 |]. split; [exact H3 |]. split; [exact H4 |].
  split; [rewrite Hy; vm_compute; reflexivity | exact Hf].
Defined.

Lemma read_time_idempotent_witness :
  preinit_done (demo_staged demo_read_time demo_ready) /\
  lastProtocolValid (demo_staged demo_read_time demo_ready) = true /\
  command_id (lastProtocol (demo_staged demo_read_time demo_ready)) = RTCEMUL_READ_TIME /\
  command_id demo_read_time = RTCEMUL_READ_TIME /\
  handle_protocol_command demo_read_time (rtc_loop (demo_staged demo_read_time demo_ready)) =
    Some (demo_staged demo_read_time (rtc_loop (demo_staged demo_read_time demo_ready))) /\
  DatetimeMsdos
    (rtc_loop (demo_staged demo_read_time (rtc_loop (demo_staged demo_read_time demo_ready)))) =
  DatetimeMsdos (rtc_loop (demo_staged demo_read_time demo_ready)).
Proof.
  assert (H1 : preinit_done (demo_staged demo_read_time demo_ready)) by run_premise.
  assert (H2 : lastProtocolValid (demo_staged demo_read_time demo_ready) = true)
    by run_premise.
  assert (H3 : command_id (lastProtocol (demo_staged demo_read_time demo_ready)) =
               RTCEMUL_READ_TIME) by run_premise.
  assert (H4 : command_id demo_read_time = RTCEMUL_READ_TIME) by run_premise.
  assert (H5 : handle_protocol_command demo_read_time
                 (rtc_loop (demo_staged demo_read_time demo_ready)) =
               Some (demo_staged demo_read_time
                       (rtc_loop (demo_staged demo_read_time demo_ready))))
    by run_premise.
  destruct (read_time_idempotent (P := demo_platform) demo_read_time
              (demo_staged demo_read_time demo_ready)
              (demo_staged demo_read_time (rtc_loop (demo_staged demo_read_time demo_ready)))
              H1 H2 H3 H4 H5) as [_ Hm].
  split; [exact H1 |]. split; [exact H2 |]. split; [exact H3 |]. split; [exact H4 |].
  split; [exact H5 |]. exact Hm.
Defined.

Lemma unknown_command_touches_token_only_witness :
  preinit_done (demo_staged demo_unknown demo_ready) /\
  lastProtocolValid (demo_staged demo_unknown demo_ready) = true /\
  command_id (lastProtocol (demo_staged demo_unknown demo_ready)) = 0x03FF /\
  outside 0x2002F00C
    (memorySharedAddress (demo_staged demo_unknown demo_ready) + RTCEMUL_RANDOM_TOKEN_OFFSET)
    8 /\
  load8 (memory (rtc_loop (demo_staged demo_unknown demo_ready))) 0x2002F00C =
    load8 (memory (demo_staged demo_unknown demo_ready)) 0x2002F00C /\
  hw_rtc (rtc_loop (demo_staged demo_unknown demo_ready)) =
    hw_rtc (demo_staged demo_unknown demo_ready).
Proof.
  assert (H1 : preinit_done (demo_staged demo_unknown demo_ready)) by run_premise.
  assert (H2 : lastProtocolValid (demo_staged demo_unknown demo_ready) = true)
    by run_premise.
  assert (Hc : command_id (lastProtocol (demo_staged demo_unknown demo_ready)) = 0x03FF)
    by run_premise.
  assert (H3 : command_id (lastProtocol (demo_staged demo_unknown demo_ready)) <>
               RTCEMUL_READ_TIME) by run_premise.
  assert (H4 : command_id (lastProtocol (demo_staged demo_unknown demo_ready)) <>
               RTCEMUL_SAVE_VECTORS) by run_premise.
  assert (H5 : command_id (lastProtocol (demo_staged demo_unknown demo_ready)) <>
               RTCEMUL_REENTRY_LOCK) by run_premise.
  assert (H6 : command_id (lastProtocol (demo_staged demo_unknown demo_ready)) <>
               RTCEMUL_REENTRY_UNLOCK) by run_premise.
  assert (H7 : command_id (lastProtocol (demo_staged demo_unknown demo_ready)) <>
               RTCEMUL_SET_SHARED_VAR) by run_premise.
  assert (H8 : outside 0x2002F00C
                 (memorySharedAddress (demo_staged demo_unknown demo_ready) +
                  RTCEMUL_RANDOM_TOKEN_OFFSET) 8)
    by outside_demo (demo_staged demo_unknown demo_ready).
  destruct (unknown_command_touches_token_only (P := demo_platform)
              (demo_staged demo_unknown demo_ready) 0x2002F00C H1 H2 H3 H4 H5 H6 H7 H8)
    as (Hm & _ & Hhw).
  split; [exact H1 |]. split; [exact H2 |]. split; [exact Hc |]. split; [exact H8 |].
  split; [exact Hm | exact Hhw].
Defined.

Lemma reentry_commands_witness :
  preinit_done (demo_staged demo_lock demo_ready) /\
  lastProtocolValid (demo_staged demo_lock demo_ready) = true /\
  command_id (lastProtocol (demo_staged demo_lock demo_ready)) = RTCEMUL_REENTRY_LOCK /\
  outside 0x2002F00C
    (memorySharedAddress (demo_staged demo_lock demo_ready) + RTCEMUL_RANDOM_TOKEN_OFFSET) 8 /\
  outside 0x2002F00C
    (memorySharedAddress (demo_staged demo_lock demo_ready) + RTCEMUL_REENTRY_TRAP) 4 /\
  ReentryTrap (rtc_loop (demo_staged demo_lock demo_ready)) = 0xFFFFFFFF /\
  load8 (memory (rtc_loop (demo_staged demo_lock demo_ready))) 0x2002F00C =
    load8 (memory (demo_staged demo_lock demo_ready)) 0x2002F00C.
Proof.
  assert (H1 : preinit_done (demo_staged demo_lock demo_ready)) by run_premise.
  assert (H2 : lastProtocolValid (demo_staged demo_lock demo_ready) = true) by run_premise.
  assert (Hc : command_id (lastProtocol (demo_staged demo_lock demo_ready)) =
               RTCEMUL_REENTRY_LOCK) by run_premise.
  assert (H4 : outside 0x2002F00C
                 (memorySharedAddress (demo_staged demo_lock demo_ready) +
                  RTCEMUL_RANDOM_TOKEN_OFFSET) 8)
    by outside_demo (demo_staged demo_lock demo_ready).
  assert (H5 : outside 0x2002F00C
                 (memorySharedAddress (demo_staged demo_lock demo_ready) +
                  RTCEMUL_REENTRY_TRAP) 4)
    by outside_demo (demo_staged demo_lock demo_ready).
  destruct (reentry_commands (P := demo_platform) (demo_staged demo_lock demo_ready)
              0x2002F00C H1 H2 (or_introl Hc) H4 H5) as [Hv Hm].
  split; [exact H1 |]. split; [exact H2 |]. split; [exact Hc |]. split; [exact H4 |].
  split; [exact H5 |].
  split; [rewrite Hv, Hc; reflexivity | exact Hm].
Defined.

Lemma lock_unlock_sequence_witness :
  preinit_done demo_ready /\
  command_id demo_lock = RTCEMUL_REENTRY_LOCK /\
  command_id demo_unlock = RTCEMUL_REENTRY_UNLOCK /\
  handle_protocol_command demo_lock demo_ready = Some (demo_staged demo_lock demo_ready) /\
  handle_protocol_command demo_unlock (rtc_loop (demo_staged demo_lock demo_ready)) =
    Some (demo_staged demo_unlock (rtc_loop (demo_staged demo_lock demo_ready))) /\
  ReentryTrap (rtc_loop (demo_staged demo_lock demo_ready)) = 0xFFFFFFFF /\
  ReentryTrap
    (rtc_loop (demo_staged demo_unlock (rtc_loop (demo_staged demo_lock demo_ready)))) = 0 /\
  Y2kPatch
    (rtc_loop (demo_staged demo_unlock (rtc_loop (demo_staged demo_lock demo_ready)))) =
    Y2kPatch demo_ready.
Proof.
  assert (H1 : preinit_done demo_ready) by run_premise.
  assert (H2 : command_id demo_lock = RTCEMUL_REENTRY_LOCK) by run_premise.
  assert (H3 : command_id demo_unlock = RTCEMUL_REENTRY_UNLOCK) by run_premise.
  assert (H4 : handle_protocol_command demo_lock demo_ready =
               Some (demo_staged demo_lock demo_ready)) by run_premise.
  assert (H5 : handle_protocol_command demo_unlock
                 (rtc_loop (demo_staged demo_lock demo_ready)) =
               Some (demo_staged demo_unlock (rtc_loop (demo_staged demo_lock demo_ready))))
    by run_premise.
  destruct (lock_unlock_sequence (P := demo_platform) demo_lock demo_unlock demo_ready
              (demo_staged demo_lock demo_ready)
              (demo_staged demo_unlock (rtc_loop (demo_staged demo_lock demo_ready)))
              H1 H2 H3 H4 H5) as (Ha & Hb & _ & Hy & _).
  split; [exact H1 |]. split; [exact H2 |]. split; [exact H3 |]. split; [exact H4 |].
  split; [exact H5 |].
  split; [exact Ha | split; [exact Hb | exact Hy]].
Defined.

Lemma postinit_draws_token_and_seed_witness :
  preinit_done (rtc_preinit demo_boot) /\
  memoryRandomTokenAddress (rtc_preinit demo_boot) <> 0 /\
  RandomToken demo_ready = u32 (rand_value 0) /\
  RandomTokenSeed demo_ready = u32 (rand_value 1) /\
  rand_calls demo_ready = 2%nat.
Proof.
  assert (H1 : preinit_done (rtc_preinit demo_boot)) by run_premise.
  assert (H2 : memoryRandomTokenAddress (rtc_preinit demo_boot) <> 0) by run_premise.
  destruct (postinit_draws_token_and_seed (P := demo_platform) (Some "DALLAS"%string)
              (Some "true"%string) (rtc_preinit demo_boot) H1 H2) as (Ht & Hs & Hn).
  split; [exact H1 |]. split; [exact H2 |].
  split; [exact Ht | split; [exact Hs | exact Hn]].
Defined.

Lemma populateMagicSequence_frame_witness :
  populateMagicSequence (dallasClock demo_ready) (repeat 0 66) 0x15ca33ac55ca33ac5 !! 1%nat =
    repeat 0 66 !! 1%nat /\
  populateMagicSequence (dallasClock demo_ready) (repeat 0 66)
    (0x15ca33ac55ca33ac5 mod 2 ^ 64) =
  populateMagicSequence (dallasClock demo_ready) (repeat 0 66) 0x15ca33ac55ca33ac5.
Proof.
  destruct (populateMagicSequence_frame (dallasClock demo_ready) (repeat 0 66)
              0x15ca33ac55ca33ac5 1) as (_ & Hk & _ & Hm).
  split; [apply Hk; left; lia | apply Hm; lia].
Defined.

Lemma ntpRecvCB_rejects_witness :
  1123 <> NTP_DEFAULT_PORT /\
  ntpRecvCB (Some demo_ntp_reply) demo_server_ip 1123 demo_ntp_state = demo_ntp_state.
Proof.
  assert (H : 1123 <> NTP_DEFAULT_PORT) by run_premise.
  split; [exact H |].
  apply (ntpRecvCB_rejects (P := demo_platform) demo_ntp_reply demo_server_ip 1123
           demo_ntp_state).
  right. right. left. exact H.
Defined.

Lemma ntpRecvCB_commits_witness :
  ntp_response_ok demo_ntp_state demo_ntp_reply demo_server_ip NTP_DEFAULT_PORT = true /\
  forallb (fun b => (0 <=? b) && (b <? 256)) demo_ntp_reply = true /\
  transmit_timestamp demo_ntp_reply = 0xC58112E2 /\
  gmtime (u32 (transmit_timestamp demo_ntp_reply - NTP_DELTA +
               utcOffsetSeconds demo_ntp_state)) = Some (mk_tm 30 15 12 1 0 105 6) /\
  rtcTime (ntpRecvCB (Some demo_ntp_reply) demo_server_ip NTP_DEFAULT_PORT demo_ntp_state) =
    mk_datetime 2005 1 1 6 12 15 30.
Proof.
  assert (H1 : ntp_response_ok demo_ntp_state demo_ntp_reply demo_server_ip
                 NTP_DEFAULT_PORT = true) by run_premise.
  assert (H2 : forallb (fun b => (0 <=? b) && (b <? 256)) demo_ntp_reply = true)
    by run_premise.
  assert (Ht : transmit_timestamp demo_ntp_reply = 0xC58112E2) by run_premise.
  assert (H3 : gmtime (u32 (transmit_timestamp demo_ntp_reply - NTP_DELTA +
                            utcOffsetSeconds demo_ntp_state)) =
               Some (mk_tm 30 15 12 1 0 105 6)) by reflexivity.
  destruct (ntpRecvCB_commits (P := demo_platform) demo_ntp_reply demo_server_ip
              NTP_DEFAULT_PORT demo_ntp_state (mk_tm 30 15 12 1 0 105 6) H1 H2 H3)
    as (Hr & _).
  split; [exact H1 |]. split; [exact H2 |]. split; [exact Ht |]. split; [exact H3 |].
  rewrite Hr. reflexivity.
Defined.

Lemma dns_first_address_wins_witness :
  forallb is_host_found
    [EvHostFound (Some "pool.ntp.org"%string) (Some 0x0A000001)] = true /\
  ntp_server_found
    (netTime (ntp_setup (mk_settings None None None) true demo_boot)) = false /\
  ntp_ipaddr
    (netTime
       (deliver
          (EvHostFound (Some "pool.ntp.org"%string) (Some demo_server_ip) ::
           [EvHostFound (Some "pool.ntp.org"%string) (Some 0x0A000001)])
          (ntp_setup (mk_settings None None None) true demo_boot))) = demo_server_ip.
Proof.
  assert (H1 : forallb is_host_found
                 [EvHostFound (Some "pool.ntp.org"%string) (Some 0x0A000001)] = true)
    by reflexivity.
  assert (H2 : ntp_server_found
                 (netTime (ntp_setup (mk_settings None None None) true demo_boot)) = false)
    by reflexivity.
  destruct (dns_first_address_wins (P := demo_platform) "pool.ntp.org"%string
              demo_server_ip
              [EvHostFound (Some "pool.ntp.org"%string) (Some 0x0A000001)]
              (ntp_setup (mk_settings None None None) true demo_boot) H1) as [_ Hfirst].
  split; [exact H1 |]. split; [exact H2 |]. exact (proj1 (Hfirst H2)).
Defined.


Lemma no_request_before_dns_answer_witness :
  forallb never_resolves demo_silence = true /\
  rtc_queryNTPTime (mk_settings None None None) true demo_silence demo_boot =
    Some (-1, demo_unsynced) /\
  udp_out demo_unsynced = udp_out demo_boot.
Proof.
  assert (H1 : forallb never_resolves demo_silence = true) by run_premise.
  assert (H2 : rtc_queryNTPTime (mk_settings None None None) true demo_silence demo_boot =
               Some (-1, demo_unsynced)) by run_premise.
  split; [exact H1 |]. split; [exact H2 |].
  exact (no_request_before_dns_answer (P := demo_platform) (mk_settings None None None)
           true demo_silence demo_boot (-1) demo_unsynced H1 H2).
Defined.

Lemma rtc_queryNTPTime_year_set_witness :
  year (rtcTime demo_synced) <> 0 /\
  rtc_queryNTPTime (mk_settings None None None) true
    (mk_poll 5000000 [] true true DnsInProgress [] :: demo_silence) demo_synced =
    Some (0, ntp_setup (mk_settings None None None) true demo_synced) /\
  hw_rtc (ntp_setup (mk_settings None None None) true demo_synced) = None.
Proof.
  assert (H : year (rtcTime demo_synced) <> 0) by run_premise.
  destruct (rtc_queryNTPTime_year_set (P := demo_platform) (mk_settings None None None)
              true (mk_poll 5000000 [] true true DnsInProgress []) demo_silence
              demo_synced H) as (Hq & _ & _ & Hhw).
  split; [exact H |]. split; [exact Hq | exact Hhw].
Defined.

Lemma menu_y2k_disagrees_on_1_witness :
  menu_y2k_enabled "1" = false /\
  Y2kPatch (snd (rtc_postinit (Some "SIDECART"%string) (Some "1"%string)
                   (rtc_preinit demo_boot))) = 0xFFFFFFFF.
Proof.
  destruct (menu_y2k_disagrees_on_1 (P := demo_platform) (Some "SIDECART"%string)
              "1"%string demo_boot) as (_ & H & _).
  exact (H EmptyString eq_refl).
Defined.

Lemma runtime_is_never_left_witness :
  appStatus (run_turns (demo_ticks 1 20 ++ [mk_turn 0 [] 21000000]) (emul_enter 0)) =
    APP_EMULATION_RUNTIME /\
  keepActive (run_turns (demo_ticks 1 20 ++ [mk_turn 0 [] 21000000]) (emul_enter 0)) =
    true /\
  emul_loop (demo_ticks 22 2)
    (run_turns (demo_ticks 1 20 ++ [mk_turn 0 [] 21000000]) (emul_enter 0)) = None.
Proof.
  assert (H1 : appStatus (run_turns (demo_ticks 1 20 ++ [mk_turn 0 [] 21000000])
                            (emul_enter 0)) = APP_EMULATION_RUNTIME) by run_premise.
  assert (H2 : keepActive (run_turns (demo_ticks 1 20 ++ [mk_turn 0 [] 21000000])
                             (emul_enter 0)) = true) by run_premise.
  destruct (runtime_is_never_left (demo_ticks 22 2)
              (run_turns (demo_ticks 1 20 ++ [mk_turn 0 [] 21000000]) (emul_enter 0)) H1)
    as (_ & _ & _ & Hnever & _).
  split; [exact H1 |]. split; [exact H2 | exact (Hnever H2)].
Defined.

Lemma display_start_sent_once_witness :
  count_start (display_out (emul_enter 0)) =
    (if gemLaunched (emul_enter 0) then 1 else 0)%nat /\
  gemLaunched (run_turns demo_session (emul_enter 0)) = true /\
  count_start (display_out (run_turns demo_session (emul_enter 0))) = 1%nat.
Proof.
  assert (H1 : count_start (display_out (emul_enter 0)) =
               (if gemLaunched (emul_enter 0) then 1 else 0)%nat) by reflexivity.
  assert (Hg : gemLaunched (run_turns demo_session (emul_enter 0)) = true) by run_premise.
  destruct (display_start_sent_once demo_session (emul_enter 0) H1) as [Hc _].
  split; [exact H1 |]. split; [exact Hg |]. rewrite Hc, Hg. reflexivity.
Defined.

Lemma emul_start_ends_in_booster_witness :
  emul_start 0 demo_to_booster = Some demo_exit_state /\
  jumpBooster demo_exit_state = true /\
  ~ In DISPLAY_COMMAND_CONTINUE (display_out demo_exit_state).
Proof.
  assert (H : emul_start 0 demo_to_booster = Some demo_exit_state) by run_premise.
  destruct (emul_start_ends_in_booster 0 demo_to_booster demo_exit_state H)
    as (Hj & _ & _ & Hc).
  split; [exact H |]. split; [exact Hj | exact Hc].
Defined.


Lemma halted_setup_waits_for_exit_witness :
  appStatus (run_turns [mk_turn (-1) [CmdMenu] 200000] (emul_enter 0)) = APP_MODE_SETUP /\
  haltCountdown (run_turns [mk_turn (-1) [CmdMenu] 200000] (emul_enter 0)) = true /\
  no_exit (demo_ticks 1 20) = true /\
  appStatus (run_turns (demo_ticks 1 20)
               (run_turns [mk_turn (-1) [CmdMenu] 200000] (emul_enter 0))) =
    APP_MODE_SETUP /\
  countdown (run_turns (demo_ticks 1 20)
               (run_turns [mk_turn (-1) [CmdMenu] 200000] (emul_enter 0))) = 20.
Proof.
  assert (H1 : appStatus (run_turns [mk_turn (-1) [CmdMenu] 200000] (emul_enter 0)) =
               APP_MODE_SETUP) by reflexivity.
  assert (H2 : haltCountdown (run_turns [mk_turn (-1) [CmdMenu] 200000] (emul_enter 0)) =
               true) by reflexivity.
  assert (H3 : no_exit (demo_ticks 1 20) = true) by reflexivity.
  destruct (halted_setup_waits_for_exit (demo_ticks 1 20)
              (run_turns [mk_turn (-1) [CmdMenu] 200000] (emul_enter 0)) H1 H2 H3)
    as (Hs & Hc & _).
  split; [exact H1 |]. split; [exact H2 |]. split; [exact H3 |].
  split; [exact Hs | rewrite Hc; reflexivity].
Defined.

Lemma countdown_expires_witness :
  appStatus (emul_enter 0) = APP_MODE_SETUP /\
  haltCountdown (emul_enter 0) = false /\
  ticking (lastDecrement (emul_enter 0))
    (demo_ticks 1 19 ++ [mk_turn (-1) [] 20000000]) = true /\
  Z.of_nat (length (demo_ticks 1 19 ++ [mk_turn (-1) [] 20000000])) =
    countdown (emul_enter 0) /\
  appStatus (run_turns (demo_ticks 1 19) (emul_enter 0)) = APP_MODE_SETUP /\
  appStatus (run_turns (demo_ticks 1 19 ++ [mk_turn (-1) [] 20000000]) (emul_enter 0)) =
    APP_EMULATION_INIT.
Proof.
  assert (H1 : appStatus (emul_enter 0) = APP_MODE_SETUP) by reflexivity.
  assert (H2 : haltCountdown (emul_enter 0) = false) by reflexivity.
  assert (H3 : ticking (lastDecrement (emul_enter 0))
                 (demo_ticks 1 19 ++ [mk_turn (-1) [] 20000000]) = true) by reflexivity.
  assert (H4 : Z.of_nat (length (demo_ticks 1 19 ++ [mk_turn (-1) [] 20000000])) =
               countdown (emul_enter 0)) by reflexivity.
  destruct (countdown_expires (demo_ticks 1 19) (mk_turn (-1) [] 20000000) (emul_enter 0)
              H1 H2 H3 H4) as (Hs & _ & Hi & _).
  split; [exact H1 |]. split; [exact H2 |]. split; [exact H3 |]. split; [exact H4 |].
  split; [exact Hs | exact Hi].
Defined.

Lemma postinit_rtc_type_of_setting_witness :
  rtcTypeVar (snd (rtc_postinit (Some (cmdType_value "SIDECART")) (Some "true"%string)
                     (rtc_preinit demo_boot))) = RTC_DALLAS.
Proof.
  destruct (postinit_rtc_type_of_setting (P := demo_platform)
              (Some (cmdType_value "SIDECART")) (Some "true"%string)
              (rtc_preinit demo_boot)) as (_ & _ & H).
  exact (H "SIDECART"%string eq_refl).
Defined.

End MoreRuns.
